(** * Port-scanner frontend: validators, request builder, submission, renderer

    A shallow embedding of the three client scripts [js/script.js],
    [js/script1.js] and [js/scriptgemin.js].  One Rocq module per script
    ([Script], [Script1], [ScriptGemin]); the definitions keep the names of
    the JavaScript functions they embed.

    Conventions of the embedding:
    - a string is the list of its UTF-16 code units; a pattern is a regular
      expression whose [test] decides membership of the whole string;
    - a validator returns [Some message] or [None] for [null];
    - the document is read through records holding the values of the
      elements a handler looks up, and written through a [Page] record
      (button, storage items, navigations, alerts, requests) or a [View]
      record (the summary elements of the results page);
    - [fetch] is resolved by an argument of type [FetchResult], the answer
      of the network;
    - an exception is a [Throw] completion, caught where the source has a
      [catch] clause. *)

From Stdlib Require Import List NArith ZArith Bool String Ascii Lia.
From Stdlib Require Import DecimalString.
Import ListNotations.

Set Implicit Arguments.

(** ** JavaScript strings

    A JavaScript string is a finite sequence of UTF-16 code units.  A code
    unit is modelled as a number in [N]; every function below is defined on
    all of [list N], which contains every JavaScript string. *)

Definition codeunit := N.
Definition jsstring := list codeunit.

Definition cu (a : ascii) : codeunit := N_of_ascii a.

(** The string literal ["..."] of the source, one code unit per character
    (the literals of the scripts are all Basic Latin). *)
Definition js (s : string) : jsstring := map cu (list_ascii_of_string s).

(** The empty string. *)
Definition empty : jsstring := [].

Definition jsstring_eqb (a b : jsstring) : bool :=
  if list_eq_dec N.eq_dec a b then true else false.

(** [c] lies in the range [lo-hi] of a character class. *)
Definition range (lo hi : ascii) (c : codeunit) : bool :=
  (cu lo <=? c)%N && (c <=? cu hi)%N.

Definition is_char (a : ascii) (c : codeunit) : bool := (c =? cu a)%N.

(** [\d] : without the unicode flag, exactly [0-9]. *)
Definition is_digit (c : codeunit) : bool := range "0" "9" c.

(** [\s], which is also the set String.prototype.trim strips: WhiteSpace
    (TAB, VT, FF, SP, NBSP, ZWNBSP and the Unicode space separators) and
    LineTerminator (LF, CR, LS, PS). *)
Definition is_space (c : codeunit) : bool :=
  ((9 <=? c) && (c <=? 13) || (c =? 32) || (c =? 160) || (c =? 5760)
   || (8192 <=? c) && (c <=? 8202) || (c =? 8232) || (c =? 8233)
   || (c =? 8239) || (c =? 8287) || (c =? 12288) || (c =? 65279))%N.

Fixpoint dropWhile (p : codeunit -> bool) (s : jsstring) : jsstring :=
  match s with
  | [] => []
  | c :: s' => if p c then dropWhile p s' else s
  end.

(** String.prototype.trim *)
Definition trim (s : jsstring) : jsstring :=
  rev (dropWhile is_space (rev (dropWhile is_space s))).

(** [s.replace(/\s+/g, '')] and [s.replace(/\s/g, '')]: both delete every
    white-space code unit. *)
Definition strip_spaces (s : jsstring) : jsstring :=
  filter (fun c => negb (is_space c)) s.

(** [s.replace(/\D/g, '')] keeps the digits. *)
Definition keep_digits (s : jsstring) : jsstring := filter is_digit s.

(** String.prototype.startsWith *)
Fixpoint startsWith (s p : jsstring) {struct p} : bool :=
  match p, s with
  | [], _ => true
  | _ :: _, [] => false
  | a :: p', c :: s' => (c =? a)%N && startsWith s' p'
  end.

(** [!s] for a string [s]: only the empty string is falsy. *)
Definition str_falsy (s : jsstring) : bool :=
  match s with [] => true | _ => false end.

(** ** Regular expressions

    The patterns of the scripts use character classes, alternation,
    concatenation and the quantifiers [+], [*], [?], [{n}], [{1,3}]; they
    have no back-references, look-around or flags and are anchored by [^]
    and [$] on both sides, so [regex.test(s)] asks whether the whole of [s]
    belongs to the language of the pattern. *)

Inductive regex : Type :=
| Void : regex
| Eps : regex
| Class : (codeunit -> bool) -> regex
| Alt : regex -> regex -> regex
| Cat : regex -> regex -> regex
| Star : regex -> regex.

Definition Chr (a : ascii) : regex := Class (is_char a).
Definition Plus (r : regex) : regex := Cat r (Star r).
Definition Opt (r : regex) : regex := Alt r Eps.
(** [r{3}] *)
Definition Rep3 (r : regex) : regex := Cat r (Cat r r).
(** [r{1,3}] *)
Definition Rep1to3 (r : regex) : regex := Cat r (Cat (Opt r) (Opt r)).

Fixpoint nullable (r : regex) : bool :=
  match r with
  | Void => false
  | Eps => true
  | Class _ => false
  | Alt a b => nullable a || nullable b
  | Cat a b => nullable a && nullable b
  | Star _ => true
  end.

(** The residual of [r] after reading [c]. *)
Fixpoint deriv (c : codeunit) (r : regex) : regex :=
  match r with
  | Void => Void
  | Eps => Void
  | Class p => if p c then Eps else Void
  | Alt a b => Alt (deriv c a) (deriv c b)
  | Cat a b =>
      if nullable a then Alt (Cat (deriv c a) b) (deriv c b)
      else Cat (deriv c a) b
  | Star a => Cat (deriv c a) (Star a)
  end.

(** [/^r$/.test(s)] *)
Fixpoint test (r : regex) (s : jsstring) : bool :=
  match s with
  | [] => nullable r
  | c :: s' => test (deriv c r) s'
  end.

(** The language of a pattern, as a relation. *)
Inductive Matches : regex -> jsstring -> Prop :=
| MEps : Matches Eps []
| MClass : forall (p : codeunit -> bool) c, p c = true -> Matches (Class p) [c]
| MAltL : forall a b s, Matches a s -> Matches (Alt a b) s
| MAltR : forall a b s, Matches b s -> Matches (Alt a b) s
| MCat : forall a b s t, Matches a s -> Matches b t -> Matches (Cat a b) (s ++ t)
| MStar0 : forall a, Matches (Star a) []
| MStarS : forall a s t,
    Matches a s -> Matches (Star a) t -> Matches (Star a) (s ++ t).

(** Every character class of [r] is contained in the class [q]. *)
Fixpoint classes_within (q : codeunit -> bool) (r : regex) : Prop :=
  match r with
  | Void | Eps => True
  | Class p => forall c, p c = true -> q c = true
  | Alt a b | Cat a b => classes_within q a /\ classes_within q b
  | Star a => classes_within q a
  end.

(** ** The patterns of the scripts *)

(** [[a-zA-Z0-9.-]] *)
Definition host_class (c : codeunit) : bool :=
  range "a" "z" c || range "A" "Z" c || range "0" "9" c
  || is_char "." c || is_char "-" c.

(** [[0-9a-fA-F:]] *)
Definition hex_colon_class (c : codeunit) : bool :=
  range "0" "9" c || range "a" "f" c || range "A" "F" c || is_char ":" c.

(** [[a-zA-Z0-9.-]+] *)
Definition hostname_alt : regex := Plus (Class host_class).

(** [\[[0-9a-fA-F:]+\]] *)
Definition ipv6_alt : regex :=
  Cat (Chr "[") (Cat (Plus (Class hex_colon_class)) (Chr "]")).

(** [(?:\d{1,3}\.){3}\d{1,3}] *)
Definition ipv4_alt : regex :=
  Cat (Rep3 (Cat (Rep1to3 (Class is_digit)) (Chr "."))) (Rep1to3 (Class is_digit)).

(** [\d+(?:-\d+)?] *)
Definition port_token : regex :=
  Cat (Plus (Class is_digit)) (Opt (Cat (Chr "-") (Plus (Class is_digit)))).

(** [[\d\s,-]] *)
Definition loose_ports_class (c : codeunit) : bool :=
  is_digit c || is_space c || is_char "," c || is_char "-" c.

(** [[A-Za-z0-9.:\[\]-]], the character set named by the specification of
    the target validator. *)
Definition target_charset (c : codeunit) : bool :=
  range "A" "Z" c || range "a" "z" c || range "0" "9" c
  || is_char "." c || is_char ":" c || is_char "[" c || is_char "]" c
  || is_char "-" c.

(** ** The character sets the specification names *)

Definition is_letter (c : codeunit) : bool := range "a" "z" c || range "A" "Z" c.

(** "letters, digits, [.], [-]" *)
Definition hostname_char (c : codeunit) : bool :=
  is_letter c || is_digit c || is_char "." c || is_char "-" c.

(** A validator accepts when it returns [null]. *)
Definition accepts (e : option jsstring) : bool :=
  match e with None => true | Some _ => false end.

(** ** The grammar of a port list, in the words of the specification

    "a comma-separated sequence of one or more tokens, each token being
    either a single non-negative integer or a low-high integer pair
    separated by a hyphen".  Written independently of the patterns, by
    splitting at the separators. *)

(** [s.split(sep)] for a one-character separator. *)
Fixpoint split_on (sep : codeunit) (s : jsstring) : list jsstring :=
  match s with
  | [] => [[]]
  | c :: s' =>
      if (c =? sep)%N then [] :: split_on sep s'
      else match split_on sep s' with
           | [] => [[c]]
           | p :: ps => (c :: p) :: ps
           end
  end.

(** [ps.join(sep)] for a non-empty list of pieces. *)
Definition join (sep : codeunit) (ps : list jsstring) : jsstring :=
  match ps with
  | [] => []
  | p :: ps' => p ++ List.concat (map (cons sep) ps')
  end.

(** [sep] does not occur in [s]. *)
Definition free_of (sep : codeunit) (s : jsstring) : bool :=
  forallb (fun c => negb (c =? sep)%N) s.

(** A non-negative integer: one or more decimal digits. *)
Definition is_integer (t : jsstring) : bool :=
  negb (str_falsy t) && forallb is_digit t.

Definition is_port_token (t : jsstring) : bool :=
  match split_on (cu "-") t with
  | [a] => is_integer a
  | [a; b] => is_integer a && is_integer b
  | _ => false
  end.

Definition port_list_grammar (s : jsstring) : bool :=
  forallb is_port_token (split_on (cu ",") s).

(** ** JavaScript values decoded from JSON

    The scripts rely on built-ins whose results depend on IEEE-754 doubles
    and on the Unicode case tables.  They are taken as an interface: every
    theorem holds for whatever these functions compute. *)

Class Builtins : Type := {
  (** the Number type *)
  number : Type;
  (** ToBoolean on a number: false for zeros and NaN *)
  Number_truthy : number -> bool;
  (** Number::toString *)
  Number_toString : number -> jsstring;
  (** Number.prototype.toFixed called with argument 2 *)
  Number_toFixed2 : number -> jsstring;
  (** String.prototype.toUpperCase *)
  toUpperCase : jsstring -> jsstring
}.

(** The result of evaluating an expression that may raise an exception. *)
Inductive completion (A : Type) : Type :=
| Normal : A -> completion A
| Throw : completion A.
Arguments Normal {A} _.
Arguments Throw {A}.

Section Values.
Context {B : Builtins}.

#[local] Set Warnings "-register-all".

(** What [response.json()] and [JSON.parse] produce. *)
Inductive json : Type :=
| JNull : json
| JBool : bool -> json
| JNum : number -> json
| JStr : jsstring -> json
| JArr : list json -> json
| JObj : list (jsstring * json) -> json.

(** A value read from such data: [None] is [undefined]. *)
Definition jsvalue : Type := option json.

Fixpoint assoc (k : jsstring) (fs : list (jsstring * json)) : jsvalue :=
  match fs with
  | [] => None
  | (k', v) :: fs' => if jsstring_eqb k k' then Some v else assoc k fs'
  end.

(** The property read [v.k], for a name [k] that none of the built-in
    prototypes defines (error, target_ip, target, open_ports,
    scan_duration, protocol, ports_list, port_mode).  Reading a property
    of [null] raises a TypeError; primitives and arrays have no such
    property. *)
Definition get (v : json) (k : jsstring) : completion jsvalue :=
  match v with
  | JNull => Throw
  | JObj fs => Normal (assoc k fs)
  | _ => Normal None
  end.

(** ToBoolean *)
Definition truthy (v : jsvalue) : bool :=
  match v with
  | None => false
  | Some JNull => false
  | Some (JBool b) => b
  | Some (JNum n) => Number_truthy n
  | Some (JStr s) => negb (str_falsy s)
  | Some (JArr _) => true
  | Some (JObj _) => true
  end.

(** [a || b] *)
Definition or_else (a b : jsvalue) : jsvalue := if truthy a then a else b.

(** ToString, as applied by template literals and by DOM string
    attributes; [None] when it raises a TypeError.  An array is joined
    with commas, [null] elements giving the empty string; a decoded object
    prints as [[object Object]] unless an own property shadows the
    inherited [toString], in which case no conversion method is callable. *)
Fixpoint ToString (v : json) : option jsstring :=
  match v with
  | JNull => Some (js "null")
  | JBool true => Some (js "true")
  | JBool false => Some (js "false")
  | JNum n => Some (Number_toString n)
  | JStr s => Some s
  | JArr items =>
      (fix join (l : list json) : option jsstring :=
         match l with
         | [] => Some []
         | x :: rest =>
             match (match x with JNull => Some [] | _ => ToString x end) with
             | None => None
             | Some sx =>
                 match rest with
                 | [] => Some sx
                 | _ :: _ =>
                     match join rest with
                     | None => None
                     | Some sr => Some (sx ++ js "," ++ sr)
                     end
                 end
             end
         end) items
  | JObj fs =>
      match assoc (js "toString") fs with
      | Some _ => None
      | None => Some (js "[object Object]")
      end
  end.

(** The string a nullable DOM string attribute (textContent) receives when
    assigned [v]: [undefined] and [null] give the empty string. *)
Definition dom_string (v : jsvalue) : option jsstring :=
  match v with
  | None => Some []
  | Some JNull => Some []
  | Some j => ToString j
  end.

(** The text a template literal substitutes for [v]. *)
Definition template (v : jsvalue) : option jsstring :=
  match v with
  | None => Some (js "undefined")
  | Some j => ToString j
  end.

(** Decimal digits of a non-negative integer Number (a length, a status). *)
Definition decimal (n : N) : jsstring := js (NilZero.string_of_uint (N.to_uint n)).

(** ** The page the scripts act on *)

(** The submit control. [label] is its innerHTML / textContent,
    [originalText] the data attribute [dataset.originalText], [loading]
    membership of the class [loading]. *)
Record Button : Type := {
  disabled : bool;
  label : jsstring;
  originalText : option jsstring;
  loading : bool
}.

(** A call of [fetch]: [body] is the value handed to [JSON.stringify]. *)
Record Request : Type := {
  url : jsstring;
  method : jsstring;
  content_type : jsstring;
  body : json
}.

(** What the network answers: the promise of [fetch] rejects, or a
    response with a status arrives whose body decodes as JSON ([Some]) or
    makes [response.json()] reject ([None]). *)
Inductive FetchResult : Type :=
| FetchRejected : FetchResult
| FetchResponse : N -> option json -> FetchResult.

(** Response.ok *)
Definition response_ok (status : N) : bool := ((200 <=? status) && (status <=? 299))%N.

(** The state the submission code reads and writes.  [session_scanResults]
    and [local_scanResults] are the item ['scanResults'] of sessionStorage
    and of localStorage: [Some j] stands for the text [JSON.stringify(j)],
    [None] for an absent item.  [navigations] and [alerts] record the
    assignments to [window.location.href] and the calls of [alert], in
    order; [requests] the calls of [fetch]. *)
Record Page : Type := {
  startButton : option Button;
  session_scanResults : option json;
  local_scanResults : option json;
  navigations : list jsstring;
  alerts : list jsstring;
  requests : list Request
}.

Definition with_button (b : option Button) (p : Page) : Page :=
  {| startButton := b;
     session_scanResults := session_scanResults p;
     local_scanResults := local_scanResults p;
     navigations := navigations p;
     alerts := alerts p;
     requests := requests p |}.

Definition alert (msg : jsstring) (p : Page) : Page :=
  {| startButton := startButton p;
     session_scanResults := session_scanResults p;
     local_scanResults := local_scanResults p;
     navigations := navigations p;
     alerts := alerts p ++ [msg];
     requests := requests p |}.

Definition navigate (href : jsstring) (p : Page) : Page :=
  {| startButton := startButton p;
     session_scanResults := session_scanResults p;
     local_scanResults := local_scanResults p;
     navigations := navigations p ++ [href];
     alerts := alerts p;
     requests := requests p |}.

(** [sessionStorage.setItem('scanResults', JSON.stringify(j))]: the page
    records the value whose JSON text is stored.  What a later
    [JSON.parse] of the item yields is [read_back], below. *)
Definition sessionStorage_setItem (j : json) (p : Page) : Page :=
  {| startButton := startButton p;
     session_scanResults := Some j;
     local_scanResults := local_scanResults p;
     navigations := navigations p;
     alerts := alerts p;
     requests := requests p |}.

Definition localStorage_setItem (j : json) (p : Page) : Page :=
  {| startButton := startButton p;
     session_scanResults := session_scanResults p;
     local_scanResults := Some j;
     navigations := navigations p;
     alerts := alerts p;
     requests := requests p |}.

(** [fetch(API_URL, { method: 'POST', headers: { 'Content-Type':
    'application/json' }, body: JSON.stringify(scanData) })] *)
Definition API_URL : jsstring := js "http://127.0.0.1:5000/api/scan".

Definition post (scanData : json) : Request :=
  {| url := API_URL;
     method := js "POST";
     content_type := js "application/json";
     body := scanData |}.

Definition fetch (scanData : json) (p : Page) : Page :=
  {| startButton := startButton p;
     session_scanResults := session_scanResults p;
     local_scanResults := local_scanResults p;
     navigations := navigations p;
     alerts := alerts p;
     requests := requests p ++ [post scanData] |}.

(** ** The results view

    The text of the summary elements of the results page; [None] is an
    element the loader has not written. *)
Record View : Type := {
  target_ip_text : option jsstring;
  open_ports_count_text : option jsstring;
  scan_duration_text : option jsstring;
  protocol_used_text : option jsstring;
  ports_scanned_text : option jsstring
}.

(** Statements of a loader: they update the view and may raise. *)
Definition Render (A : Type) : Type := View -> View * completion A.

Definition ret {A : Type} (a : A) : Render A := fun v => (v, Normal a).

Definition raise {A : Type} : Render A := fun v => (v, Throw).

Definition bind {A C : Type} (m : Render A) (k : A -> Render C) : Render C :=
  fun v =>
    match m v with
    | (v', Normal a) => k a v'
    | (v', Throw) => (v', Throw)
    end.

Definition lift {A : Type} (c : completion A) : Render A :=
  match c with
  | Normal a => ret a
  | Throw => raise
  end.

Definition lift_option {A : Type} (o : option A) : Render A :=
  match o with
  | Some a => ret a
  | None => raise
  end.

Definition set_target_ip (s : jsstring) : Render unit := fun v =>
  ({| target_ip_text := Some s;
      open_ports_count_text := open_ports_count_text v;
      scan_duration_text := scan_duration_text v;
      protocol_used_text := protocol_used_text v;
      ports_scanned_text := ports_scanned_text v |}, Normal tt).

Definition set_open_ports_count (s : jsstring) : Render unit := fun v =>
  ({| target_ip_text := target_ip_text v;
      open_ports_count_text := Some s;
      scan_duration_text := scan_duration_text v;
      protocol_used_text := protocol_used_text v;
      ports_scanned_text := ports_scanned_text v |}, Normal tt).

Definition set_scan_duration (s : jsstring) : Render unit := fun v =>
  ({| target_ip_text := target_ip_text v;
      open_ports_count_text := open_ports_count_text v;
      scan_duration_text := Some s;
      protocol_used_text := protocol_used_text v;
      ports_scanned_text := ports_scanned_text v |}, Normal tt).

Definition set_protocol_used (s : jsstring) : Render unit := fun v =>
  ({| target_ip_text := target_ip_text v;
      open_ports_count_text := open_ports_count_text v;
      scan_duration_text := scan_duration_text v;
      protocol_used_text := Some s;
      ports_scanned_text := ports_scanned_text v |}, Normal tt).

Definition set_ports_scanned (s : jsstring) : Render unit := fun v =>
  ({| target_ip_text := target_ip_text v;
      open_ports_count_text := open_ports_count_text v;
      scan_duration_text := scan_duration_text v;
      protocol_used_text := protocol_used_text v;
      ports_scanned_text := Some s |}, Normal tt).

End Values.

Notation "x <- m ;; k" := (bind m (fun x => k))
  (at level 61, m at next level, right associativity).
Notation "m ;;; k" := (bind m (fun _ => k))
  (at level 61, right associativity).

(** ** js/script.js *)

Module Script.

Definition msg_target_required : jsstring := js "Target IP or Host is required.".
Definition msg_target_invalid : jsstring := js "Invalid format for IP/hostname.".
Definition msg_ports_required : jsstring := js "Custom port list is required.".
Definition msg_ports_invalid : jsstring :=
  js "Invalid port list. Use comma separated numbers or ranges (e.g., 21,80,443-445).".
Definition msg_terms : jsstring := js "You must agree to the Terms of Service.".
Definition msg_network : jsstring :=
  js "Network Error: Could not connect to backend. Is app.py running on http://127.0.0.1:5000 ?".
Definition msg_no_data : jsstring := js "No data available. Please run a scan.".
Definition busy_label : jsstring := js "Scanning...".
Definition default_label : jsstring := js "Start Scan".

(** [/^(?:[a-zA-Z0-9.-]+|\[[0-9a-fA-F:]+\]|(?:\d{1,3}\.){3}\d{1,3})$/] *)
Definition targetRegex : regex := Alt hostname_alt (Alt ipv6_alt ipv4_alt).

(** [targetRegex] with the dotted-quad alternative deleted. *)
Definition targetRegex_without_ipv4 : regex := Alt hostname_alt ipv6_alt.

(** [validateTarget]; [None] is the [null] of the source. *)
Definition validateTarget (target : jsstring) : option jsstring :=
  if str_falsy target || str_falsy (trim target) then Some msg_target_required
  else if negb (test targetRegex target) then Some msg_target_invalid
  else None.

Definition validateTarget_without_ipv4 (target : jsstring) : option jsstring :=
  if str_falsy target || str_falsy (trim target) then Some msg_target_required
  else if negb (test targetRegex_without_ipv4 target) then Some msg_target_invalid
  else None.

(** [/^(\d+(?:-\d+)?)(,\d+(?:-\d+)?)*$/] *)
Definition portsRegex : regex :=
  Cat port_token (Star (Cat (Chr ",") port_token)).

Definition validatePorts (ports : jsstring) : option jsstring :=
  if str_falsy ports || str_falsy (trim ports) then Some msg_ports_required
  else
    let cleaned := strip_spaces ports in
    if negb (test portsRegex cleaned) then Some msg_ports_invalid
    else None.

(** An element found by [getElementById]: [value] is [None] where the
    element has no such property. *)
Record Element : Type := {
  value : option jsstring;
  textContent : jsstring
}.

(** What the submit listener reads from the document.  Each field is the
    element its chain of [getElementById] / [querySelector] calls finds,
    [None] when they all return [null]: the target input, the value of the
    checked protocol radio, the value of the port-mode select, the value of
    the custom-ports input and the state of the terms checkbox. *)
Record Form : Type := {
  targetInput : option Element;
  protocolEl : option jsstring;
  portModeEl : option jsstring;
  customPortsEl : option jsstring;
  termsCheckbox : option bool
}.

Definition read_target (f : Form) : jsstring :=
  match targetInput f with
  | None => []
  | Some el =>
      match value el with
      | Some v =>
          if negb (str_falsy v) then trim v
          else if negb (str_falsy (textContent el)) then trim (textContent el)
          else []
      | None =>
          if negb (str_falsy (textContent el)) then trim (textContent el)
          else []
      end
  end.

Definition read_protocol (f : Form) : jsstring :=
  match protocolEl f with Some v => v | None => js "tcp" end.

Definition read_port_mode (f : Form) : jsstring :=
  match portModeEl f with Some v => v | None => js "top100" end.

Definition read_ports (f : Form) : jsstring :=
  if jsstring_eqb (read_port_mode f) (js "custom") then
    match customPortsEl f with Some v => trim v | None => [] end
  else [].

Section WithBuiltins.
Context {B : Builtins}.

(** The outcome of the checks of the submit listener: an alert and an
    early return, or the payload handed to [submitScan]. *)
Inductive Built : Type :=
| Refused : jsstring -> Built
| Payload : json -> Built.

(** The submit listener up to the call of [submitScan] (lines 183-230). *)
Definition buildRequest (f : Form) : Built :=
  let target := read_target f in
  let protocol := read_protocol f in
  let port_mode := read_port_mode f in
  let ports := read_ports f in
  match validateTarget target with
  | Some targetErr => Refused targetErr
  | None =>
      match (if jsstring_eqb port_mode (js "custom") then validatePorts ports
             else None) with
      | Some portsErr => Refused portsErr
      | None =>
          match termsCheckbox f with
          | Some false => Refused msg_terms
          | _ =>
              Payload (JObj [ (js "target", JStr target);
                              (js "protocol", JStr protocol);
                              (js "port_mode", JStr port_mode);
                              (js "ports",
                               JStr (if jsstring_eqb port_mode (js "custom")
                                     then ports else [])) ])
          end
      end
  end.

(** Lines 46-50: the button, when there is one, becomes busy. *)
Definition acquire (p : Page) : Page :=
  match startButton p with
  | None => p
  | Some b =>
      with_button (Some {| disabled := true;
                           label := busy_label;
                           originalText := Some (label b);
                           loading := loading b |}) p
  end.

(** The [finally] clause, lines 78-81. *)
Definition release (p : Page) : Page :=
  match startButton p with
  | None => p
  | Some b =>
      with_button (Some {| disabled := false;
                           label := match originalText b with
                                    | Some t => if str_falsy t then default_label else t
                                    | None => default_label
                                    end;
                           originalText := originalText b;
                           loading := loading b |}) p
  end.

(** The [try] block, lines 53-72; [Throw] transfers control to [catch]. *)
Definition try_block (scanData : json) (net : FetchResult) (p : Page)
  : Page * completion unit :=
  let p1 := fetch scanData p in
  match net with
  | FetchRejected => (p1, Throw)
  | FetchResponse status None => (p1, Throw)
  | FetchResponse status (Some json) =>
      if negb (response_ok status) then
        match get json (js "error") with
        | Throw => (p1, Throw)
        | Normal e =>
            let msg :=
              or_else e (Some (JStr (js "Scan failed with status " ++ decimal status))) in
            match template msg with
            | None => (p1, Throw)
            | Some text => (alert (js "Scan Error: " ++ text) p1, Normal tt)
            end
        end
      else
        (navigate (js "results.html") (sessionStorage_setItem json p1), Normal tt)
  end.

(** The [catch] clause, lines 74-76. *)
Definition catch_block (r : Page * completion unit) : Page :=
  match r with
  | (p, Normal _) => p
  | (p, Throw) => alert msg_network p
  end.

(** [submitScan(scanData, startButton)]; the button is [startButton p]. *)
Definition submitScan (scanData : json) (net : FetchResult) (p : Page) : Page :=
  release (catch_block (try_block scanData net (acquire p))).

(** The whole submit listener. *)
Definition scanForm_submit (f : Form) (net : FetchResult) (p : Page) : Page :=
  match buildRequest f with
  | Refused msg => alert msg p
  | Payload payload => submitScan payload net p
  end.

(** [(data.open_ports || []).length] as the text of a DOM string. *)
Definition length_text (open_ports : jsvalue) : option jsstring :=
  match or_else open_ports (Some (JArr [])) with
  | Some (JArr l) => Some (decimal (N.of_nat (List.length l)))
  | Some (JStr s) => Some (decimal (N.of_nat (List.length s)))
  | Some (JObj fs) => dom_string (assoc (js "length") fs)
  | _ => Some []
  end.

(** Lines 104-108. *)
Definition ports_label (ports_list port_mode : jsvalue) : jsvalue :=
  match or_else (or_else ports_list port_mode) (Some (JStr (js "N/A"))) with
  | Some (JStr portsText) =>
      if startsWith portsText (js "top") then
        let num := if str_falsy (keep_digits portsText) then js "100"
                   else keep_digits portsText in
        Some (JStr (js "Top " ++ num ++ js " ports"))
      else Some (JStr portsText)
  | other => other
  end.

(** [data.target_ip || data.target || 'N/A'] as the text of a DOM string;
    [None] when the conversion raises. *)
Definition target_text (target_ip target : jsvalue) : option jsstring :=
  dom_string (or_else (or_else target_ip target) (Some (JStr (js "N/A")))).

(** Line 101: [toFixed(2)] and the unit for a number, otherwise the value
    itself, or N/A when it is falsy. *)
Definition duration_text (scan_duration : jsvalue) : option jsstring :=
  match scan_duration with
  | Some (JNum x) => Some (Number_toFixed2 x ++ js "s")
  | _ => dom_string (or_else scan_duration (Some (JStr (js "N/A"))))
  end.

(** Line 102: [(data.protocol || 'tcp').toUpperCase()]; only a string has
    the method. *)
Definition protocol_text (protocol : jsvalue) : option jsstring :=
  match or_else protocol (Some (JStr (js "tcp"))) with
  | Some (JStr s) => Some (toUpperCase s)
  | _ => None
  end.

(** Lines 99-109 of [loadResultsPage], for the decoded [data]. *)
Definition populate_summary (data : json) : Render unit :=
  target_ip <- lift (get data (js "target_ip")) ;;
  target <- lift (get data (js "target")) ;;
  t <- lift_option (target_text target_ip target) ;;
  set_target_ip t ;;;
  open_ports <- lift (get data (js "open_ports")) ;;
  n <- lift_option (length_text open_ports) ;;
  set_open_ports_count n ;;;
  scan_duration <- lift (get data (js "scan_duration")) ;;
  d <- lift_option (duration_text scan_duration) ;;
  set_scan_duration d ;;;
  protocol <- lift (get data (js "protocol")) ;;
  u <- lift_option (protocol_text protocol) ;;
  set_protocol_used u ;;;
  ports_list <- lift (get data (js "ports_list")) ;;
  port_mode <- lift (get data (js "port_mode")) ;;
  l <- lift_option (dom_string (ports_label ports_list port_mode)) ;;
  set_ports_scanned l.

(** [loadResultsPage], summary part (lines 88-109), on the stored item
    ['scanResults'] of sessionStorage.  The enclosing [try]/[catch] absorbs
    every exception, which leaves the elements written so far. *)
Definition loadResultsPage (stored : option json) (v : View) : View :=
  match stored with
  | None => fst (set_target_ip msg_no_data v)
  | Some data => fst (populate_summary data v)
  end.

End WithBuiltins.

End Script.

(** ** js/script1.js

    Lines 308-489 of js/scriptgemin.js repeat this script character for
    character, so this module is also their embedding. *)

Module Script1.

Definition msg_target_required : jsstring := js "Target IP or Host is required.".
Definition msg_target_invalid : jsstring :=
  js "Invalid format. Please enter a valid IP or hostname.".
Definition msg_ports_required : jsstring := js "Custom port list is required.".
Definition msg_ports_invalid : jsstring :=
  js "Invalid port list. Use comma-separated ports or ranges (e.g., 21, 80, 443-445).".
Definition msg_terms : jsstring := js "You must agree to the terms of service.".
Definition msg_unknown : jsstring := js "An unknown error occurred during scanning.".
Definition msg_network : jsstring :=
  js "Network Error: Could not connect to the Python backend. Ensure 'app.py' is running on http://127.0.0.1:5000.".
Definition busy_label : jsstring := js "Scanning... Please wait (up to 120s)".
Definition default_label : jsstring := js "Start Scan".

(** [/^(?:[a-zA-Z0-9.-]+|(?:\d{1,3}\.){3}\d{1,3}|\[[0-9a-fA-F:]+\])$/] *)
Definition targetRegex : regex := Alt hostname_alt (Alt ipv4_alt ipv6_alt).

(** [targetRegex] with the dotted-quad alternative deleted. *)
Definition targetRegex_without_ipv4 : regex := Alt hostname_alt ipv6_alt.

Definition validateTarget (target : jsstring) : option jsstring :=
  if str_falsy (trim target) then Some msg_target_required
  else if negb (test targetRegex target) then Some msg_target_invalid
  else None.

Definition validateTarget_without_ipv4 (target : jsstring) : option jsstring :=
  if str_falsy (trim target) then Some msg_target_required
  else if negb (test targetRegex_without_ipv4 target) then Some msg_target_invalid
  else None.

(** [/^(\d+(?:-\d+)?)(,\s*\d+(?:-\d+)?)*$/] *)
Definition portListRegex : regex :=
  Cat port_token (Star (Cat (Chr ",") (Cat (Star (Class is_space)) port_token))).

Definition validatePorts (ports : jsstring) : option jsstring :=
  if str_falsy ports then Some msg_ports_required
  else if negb (test portListRegex (strip_spaces ports)) then Some msg_ports_invalid
  else None.

(** What the submit listener reads from the document: the values of the
    inputs [target-ip], [port-mode] and [custom-ports], the state of the
    checkbox [terms-agree], and the value of the checked protocol radio
    ([None] when no radio is checked). *)
Record Form : Type := {
  target_ip : jsstring;
  port_mode : jsstring;
  custom_ports : jsstring;
  terms_agree : bool;
  protocol_checked : option jsstring
}.

(** The messages shown by [displayError] under the three fields. *)
Record Errors : Type := {
  target_ip_error : option jsstring;
  custom_ports_error : option jsstring;
  terms_error : option jsstring
}.

Definition is_custom (f : Form) : bool := jsstring_eqb (port_mode f) (js "custom").

(** Steps 1-3 of the listener (lines 138-164). *)
Definition check (f : Form) : Errors :=
  {| target_ip_error := validateTarget (target_ip f);
     custom_ports_error := if is_custom f then validatePorts (custom_ports f) else None;
     terms_error := if terms_agree f then None else Some msg_terms |}.

Definition isValid (e : Errors) : bool :=
  match target_ip_error e, custom_ports_error e, terms_error e with
  | None, None, None => true
  | _, _, _ => false
  end.

(** [let portsToScan = portMode; if (portMode === 'custom') { ...
    portsToScan = customPorts; }] *)
Definition portsToScan (f : Form) : jsstring :=
  if is_custom f then custom_ports f else port_mode f.

Section WithBuiltins.
Context {B : Builtins}.

(** The outcome of the listener before [submitScan]: errors are shown, or
    reading the value of the checked radio raises (none is checked), or the
    payload is built. *)
Inductive Built : Type :=
| Invalid : Errors -> Built
| NoProtocol : Built
| Payload : json -> Built.

(** The submit listener up to the call of [submitScan] (lines 128-176). *)
Definition buildRequest (f : Form) : Built :=
  if negb (isValid (check f)) then Invalid (check f)
  else
    match protocol_checked f with
    | None => NoProtocol
    | Some protocol =>
        Payload (JObj [ (js "target", JStr (target_ip f));
                        (js "protocol", JStr protocol);
                        (js "port_mode", JStr (port_mode f));
                        (js "ports", JStr (portsToScan f)) ])
    end.

(** Lines 85-87. *)
Definition busy (b : Button) : Button :=
  {| disabled := true;
     label := busy_label;
     originalText := originalText b;
     loading := true |}.

(** The [finally] clause, lines 119-121. *)
Definition release (p : Page) : Page :=
  match startButton p with
  | None => p
  | Some b =>
      with_button (Some {| disabled := false;
                           label := default_label;
                           originalText := originalText b;
                           loading := false |}) p
  end.

(** The [try] block, lines 90-112. *)
Definition try_block (scanData : json) (net : FetchResult) (p : Page)
  : Page * completion unit :=
  let p1 := fetch scanData p in
  match net with
  | FetchRejected => (p1, Throw)
  | FetchResponse status None => (p1, Throw)
  | FetchResponse status (Some result) =>
      if response_ok status then
        (navigate (js "results.html") (localStorage_setItem result p1), Normal tt)
      else
        match get result (js "error") with
        | Throw => (p1, Throw)
        | Normal e =>
            let errorMessage := or_else e (Some (JStr msg_unknown)) in
            match template errorMessage with
            | None => (p1, Throw)
            | Some text => (alert (js "Scan Error: " ++ text) p1, Normal tt)
            end
        end
  end.

(** The [catch] clause, lines 113-116. *)
Definition catch_block (r : Page * completion unit) : Page :=
  match r with
  | (p, Normal _) => p
  | (p, Throw) => alert msg_network p
  end.

(** [submitScan(scanData)].  Without a start button the first statement
    raises outside the [try], and nothing else runs. *)
Definition submitScan (scanData : json) (net : FetchResult) (p : Page) : Page :=
  match startButton p with
  | None => p
  | Some b =>
      release (catch_block (try_block scanData net (with_button (Some (busy b)) p)))
  end.

(** The whole submit listener. *)
Definition scanForm_submit (f : Form) (net : FetchResult) (p : Page) : Page :=
  match buildRequest f with
  | Payload scanData => submitScan scanData net p
  | _ => p
  end.

End WithBuiltins.

End Script1.

(** ** js/scriptgemin.js, lines 1-306 *)

Module ScriptGemin.

Definition msg_target_required : jsstring := js "Target IP or Hostname is required.".
Definition msg_ports_empty : jsstring := js "Custom port list cannot be empty.".
Definition msg_ports_invalid : jsstring :=
  js "Invalid port format. Use numbers, commas, hyphens, or spaces.".
Definition msg_network : jsstring :=
  js "Network Error: Could not connect to the Python backend. Ensure 'app.py' is running on http://127.0.0.1:5000.".
Definition msg_no_data : jsstring := js "No data available. Please run a scan.".

Definition dquote : jsstring := [34%N].

(** The busy label of line 158: an [i] element with the attributes
    data-lucide = loader and class = animate-spin mr-2, followed by the
    text Scanning... *)
Definition busy_label : jsstring :=
  js "<i data-lucide=" ++ dquote ++ js "loader" ++ dquote ++ js " class="
  ++ dquote ++ js "animate-spin mr-2" ++ dquote ++ js "></i> Scanning...".

(** Step 1 of [validateForm]: the error shown for the ip-host field, if any. *)
Definition check_ip_host (value : jsstring) : option jsstring :=
  if str_falsy (trim value) then Some msg_target_required else None.

(** [/^[\d\s,-]+$/] *)
Definition portsPattern : regex := Plus (Class loose_ports_class).

(** Step 2 of [validateForm] when the port selection is custom: the error
    shown for the ports-list field, if any. *)
Definition check_ports_list (value : jsstring) : option jsstring :=
  if str_falsy (trim value) then Some msg_ports_empty
  else if negb (test portsPattern (trim value)) then Some msg_ports_invalid
  else None.

(** What the script reads from the document: the values of the inputs
    [ip-host], [port-select] and [ports-list], the state of the checkbox
    [terms-agreement], and the value of the checked protocol radio. *)
Record Form : Type := {
  ip_host : jsstring;
  protocol_checked : option jsstring;
  port_select : jsstring;
  ports_list : jsstring;
  terms_agreement : bool
}.

Definition is_custom (f : Form) : bool := jsstring_eqb (port_select f) (js "custom").

Definition no_error (e : option jsstring) : bool :=
  match e with None => true | Some _ => false end.

(** [validateForm]: the flag it returns. *)
Definition validateForm (f : Form) : bool :=
  no_error (check_ip_host (ip_host f))
  && (if is_custom f then no_error (check_ports_list (ports_list f)) else true)
  && terms_agreement f.

Section WithBuiltins.
Context {B : Builtins}.

(** Lines 143-165: the object [scanData]. *)
Definition scanData (f : Form) (protocol : jsstring) : json :=
  JObj [ (js "target_ip", JStr (trim (ip_host f)));
         (js "protocol", JStr protocol);
         (js "ports_list",
          JStr (if is_custom f then trim (ports_list f) else port_select f)) ].

(** The [try] block, lines 170-190. *)
Definition try_block (data : json) (net : FetchResult) (p : Page)
  : Page * completion unit :=
  let p1 := fetch data p in
  match net with
  | FetchRejected => (p1, Throw)
  | FetchResponse status body =>
      if negb (response_ok status) then (p1, Throw)
      else
        match body with
        | None => (p1, Throw)
        | Some resultJson =>
            match get resultJson (js "error") with
            | Throw => (p1, Throw)
            | Normal e =>
                if truthy e then
                  match template e with
                  | None => (p1, Throw)
                  | Some text => (alert (js "Scan Error: " ++ text) p1, Normal tt)
                  end
                else
                  (navigate (js "results.html") (sessionStorage_setItem resultJson p1),
                   Normal tt)
            end
        end
  end.

(** The [catch] clause, lines 192-194. *)
Definition catch_block (r : Page * completion unit) : Page :=
  match r with
  | (p, Normal _) => p
  | (p, Throw) => alert msg_network p
  end.

(** The [finally] clause, lines 198-199, with the saved [originalText]. *)
Definition release (saved : jsstring) (p : Page) : Page :=
  match startButton p with
  | None => p
  | Some b =>
      with_button (Some {| disabled := false;
                           label := saved;
                           originalText := originalText b;
                           loading := loading b |}) p
  end.

(** [handleScanSubmission].  Reading the value of the checked radio when
    none is checked, or the label of a missing button, raises before the
    [try] statement and nothing else runs. *)
Definition handleScanSubmission (f : Form) (net : FetchResult) (p : Page) : Page :=
  if negb (validateForm f) then p
  else
    match protocol_checked f, startButton p with
    | Some protocol, Some b =>
        let saved := label b in
        let p0 := with_button (Some {| disabled := true;
                                       label := busy_label;
                                       originalText := originalText b;
                                       loading := loading b |}) p in
        release saved (catch_block (try_block (scanData f protocol) net p0))
    | _, _ => p
    end.

(** [resultsData.open_ports.length] as the text of a DOM string. *)
Definition length_text (open_ports : jsvalue) : option jsstring :=
  match open_ports with
  | None | Some JNull => None
  | Some (JArr l) => Some (decimal (N.of_nat (List.length l)))
  | Some (JStr s) => Some (decimal (N.of_nat (List.length s)))
  | Some (JObj fs) => dom_string (assoc (js "length") fs)
  | Some _ => Some []
  end.

(** Lines 227-230. *)
Definition ports_label (portsScannedText : jsstring) : jsstring :=
  if startsWith portsScannedText (js "top_") then
    js "Top " ++ nth 1 (split_on (cu "_") portsScannedText) [] ++ js " Ports"
  else portsScannedText.

(** Line 220: [resultsData.target_ip || targetIp]; no variable [targetIp]
    is in scope, so a falsy [target_ip] raises a ReferenceError. *)
Definition target_text (target_ip : jsvalue) : option jsstring :=
  if truthy target_ip then dom_string target_ip else None.

(** Line 224: only a number has the method [toFixed]. *)
Definition duration_text (scan_duration : jsvalue) : option jsstring :=
  match scan_duration with
  | Some (JNum x) => Some (Number_toFixed2 x ++ js "s")
  | _ => None
  end.

(** Line 225: only a string has the method [toUpperCase]. *)
Definition protocol_text (protocol : jsvalue) : option jsstring :=
  match protocol with
  | Some (JStr s) => Some (toUpperCase s)
  | _ => None
  end.

(** Lines 227-231: only a string has the method [startsWith]. *)
Definition ports_text (ports_list : jsvalue) : option jsstring :=
  match ports_list with
  | Some (JStr s) => Some (ports_label s)
  | _ => None
  end.

(** Lines 219-231 of [loadResultsPage], for the decoded [resultsData]. *)
Definition populate_summary (resultsData : json) : Render unit :=
  target_ip <- lift (get resultsData (js "target_ip")) ;;
  t <- lift_option (target_text target_ip) ;;
  set_target_ip t ;;;
  open_ports <- lift (get resultsData (js "open_ports")) ;;
  n <- lift_option (length_text open_ports) ;;
  set_open_ports_count n ;;;
  scan_duration <- lift (get resultsData (js "scan_duration")) ;;
  d <- lift_option (duration_text scan_duration) ;;
  set_scan_duration d ;;;
  protocol <- lift (get resultsData (js "protocol")) ;;
  u <- lift_option (protocol_text protocol) ;;
  set_protocol_used u ;;;
  ports_list <- lift (get resultsData (js "ports_list")) ;;
  l <- lift_option (ports_text ports_list) ;;
  set_ports_scanned l.

(** [loadResultsPage], summary part (lines 210-231), on the stored item
    ['scanResults'] of sessionStorage; an absent item parses to [null].
    The second component tells whether the loader raised. *)
Definition loadResultsPage (stored : option json) (v : View) : View * completion unit :=
  let resultsData := match stored with Some j => j | None => JNull end in
  if negb (truthy (Some resultsData)) then set_target_ip msg_no_data v
  else populate_summary resultsData v.

End WithBuiltins.

End ScriptGemin.

(** ** A concrete instance of the built-ins

    Integer-valued numbers and Basic Latin strings, on which the functions
    below agree with the JavaScript built-ins (for integers below 2^53 in
    absolute value).  It serves to run the scripts on concrete data. *)

Definition latin_upper (c : codeunit) : codeunit :=
  if range "a" "z" c then (c - 32)%N else c.

Definition integer_builtins : Builtins :=
  {| number := Z;
     Number_truthy := fun z => negb (z =? 0)%Z;
     Number_toString := fun z => js (NilZero.string_of_int (Z.to_int z));
     Number_toFixed2 := fun z => js (NilZero.string_of_int (Z.to_int z)) ++ js ".00";
     toUpperCase := map latin_upper |}.

(** ** The request contract, in the words of the specification *)

Section Contract.
Context {B : Builtins}.

(** The names of the properties of an object, in order. *)
Definition field_names (j : json) : option (list jsstring) :=
  match j with
  | JObj fs => Some (map fst fs)
  | _ => None
  end.

Definition field (k : jsstring) (j : json) : jsvalue :=
  match j with
  | JObj fs => assoc k fs
  | _ => None
  end.

(** "JSON body [{ target, protocol, port_mode, ports }]" *)
Definition contract_fields : list jsstring :=
  [js "target"; js "protocol"; js "port_mode"; js "ports"].

(** "[ports] is empty whenever [portMode != custom], and non-empty and
    well-formed whenever [portMode == custom]", where [ports] "holds a
    comma-separated list of port numbers and/or inclusive ranges": the
    grammar is asked of the field as the request carries it. *)
Definition ports_invariant (j : json) : bool :=
  match field (js "port_mode") j, field (js "ports") j with
  | Some (JStr mode), Some (JStr ports) =>
      if jsstring_eqb mode (js "custom")
      then negb (str_falsy ports) && port_list_grammar ports
      else str_falsy ports
  | _, _ => false
  end.

(** The requests a handler added to those of the page [p]. *)
Definition sent_since (p q : Page) : list Request :=
  skipn (List.length (requests p)) (requests q).

(** A page on which nothing has happened yet, with an enabled start button
    labelled [text]. *)
Definition fresh_page (text : jsstring) : Page :=
  {| startButton := Some {| disabled := false;
                            label := text;
                            originalText := None;
                            loading := false |};
     session_scanResults := None;
     local_scanResults := None;
     navigations := [];
     alerts := [];
     requests := [] |}.

End Contract.

Definition blank_view : View :=
  {| target_ip_text := None;
     open_ports_count_text := None;
     scan_duration_text := None;
     protocol_used_text := None;
     ports_scanned_text := None |}.

(** ** Concrete data for the examples *)

Module Examples.

Definition B0 : Builtins := integer_builtins.

(** A valid submission of the form of js/scriptgemin.js. *)
Definition gemin_form : ScriptGemin.Form :=
  {| ScriptGemin.ip_host := js "scanme.nmap.org";
     ScriptGemin.protocol_checked := Some (js "tcp");
     ScriptGemin.port_select := js "top_100";
     ScriptGemin.ports_list := [];
     ScriptGemin.terms_agreement := true |}.

(** A valid submission of the form of js/script.js, custom ports. *)
Definition script_form : Script.Form :=
  {| Script.targetInput := Some {| Script.value := Some (js "scanme.nmap.org");
                                   Script.textContent := [] |};
     Script.protocolEl := Some (js "tcp");
     Script.portModeEl := Some (js "custom");
     Script.customPortsEl := Some (js "21, 80 , 443-445");
     Script.termsCheckbox := Some true |}.

(** A valid submission of the form of js/script1.js, preset ports. *)
Definition script1_form : Script1.Form :=
  {| Script1.target_ip := js "scanme.nmap.org";
     Script1.port_mode := js "top100";
     Script1.custom_ports := js "8080";
     Script1.terms_agree := true;
     Script1.protocol_checked := Some (js "tcp") |}.

(** The same form with custom ports selected. *)
Definition script1_custom_form : Script1.Form :=
  {| Script1.target_ip := js "scanme.nmap.org";
     Script1.port_mode := js "custom";
     Script1.custom_ports := js "21, 80 , 443-445";
     Script1.terms_agree := true;
     Script1.protocol_checked := Some (js "tcp") |}.

Definition payload : @json B0 :=
  JObj [ (js "target", JStr (js "scanme.nmap.org"));
         (js "protocol", JStr (js "tcp"));
         (js "port_mode", JStr (js "top100"));
         (js "ports", JStr []) ].

(** What js/script.js builds from [script_form]. *)
Definition script_payload : @json B0 :=
  JObj [ (js "target", JStr (js "scanme.nmap.org"));
         (js "protocol", JStr (js "tcp"));
         (js "port_mode", JStr (js "custom"));
         (js "ports", JStr (js "21, 80 , 443-445")) ].

(** What js/script1.js builds from [script1_form]. *)
Definition script1_payload : @json B0 :=
  JObj [ (js "target", JStr (js "scanme.nmap.org"));
         (js "protocol", JStr (js "tcp"));
         (js "port_mode", JStr (js "top100"));
         (js "ports", JStr (js "top100")) ].

(** [{ error: host unreachable }] *)
Definition error_body : @json B0 :=
  JObj [ (js "error", JStr (js "host unreachable")) ].

(** [{ target_ip: 10.0.0.5, open_ports: [], scan_duration: 2,
    protocol: tcp, ports_list: top100 }] *)
Definition result_body : @json B0 :=
  JObj [ (js "target_ip", JStr (js "10.0.0.5"));
         (js "open_ports", JArr []);
         (js "scan_duration", @JNum B0 2%Z);
         (js "protocol", JStr (js "tcp"));
         (js "ports_list", JStr (js "top100")) ].

(** The same result with a duration that is not a number. *)
Definition result_body_text_duration : @json B0 :=
  JObj [ (js "target_ip", JStr (js "10.0.0.5"));
         (js "open_ports", JArr []);
         (js "scan_duration", JStr (js "fast"));
         (js "protocol", JStr (js "tcp"));
         (js "ports_list", JStr (js "top100")) ].

End Examples.

(** ** Theme handling

    [setTheme], [loadInitialTheme] and the click listener of the theme
    toggle.  The document is reduced to what they touch: the class list of
    [body], the item ['theme'] of localStorage and the text of the element
    [theme-toggle] ([None] when the page has none). *)

Record ThemeDoc : Type := {
  classList : list jsstring;
  theme_item : option jsstring;
  toggle_label : option jsstring
}.

Definition light_theme : jsstring := js "light-theme".
Definition dark_theme : jsstring := js "dark-theme".

(** ASCII whitespace, which a class token must not contain: TAB, LF, FF,
    CR and SPACE. *)
Definition ascii_whitespace (c : codeunit) : bool :=
  ((c =? 9) || (c =? 10) || (c =? 12) || (c =? 13) || (c =? 32))%N.

(** [classList.add] raises on the empty token and on a token with ASCII
    whitespace. *)
Definition valid_token (t : jsstring) : bool :=
  negb (str_falsy t) && negb (existsb ascii_whitespace t).

(** [classList.contains(t)] *)
Definition contains (l : list jsstring) (t : jsstring) : bool :=
  existsb (jsstring_eqb t) l.

(** [classList.remove(...ts)] *)
Definition classList_remove (ts : list jsstring) (l : list jsstring) : list jsstring :=
  filter (fun c => negb (contains ts c)) l.

(** [classList.add(t)]: the token goes to the end unless it is present. *)
Definition classList_add (t : jsstring) (l : list jsstring) : completion (list jsstring) :=
  if valid_token t then Normal (if contains l t then l else l ++ [t])
  else Throw.

(** [theme === 'dark-theme' ? 'Light Theme' : 'Dark Theme'] *)
Definition button_text (theme : jsstring) : jsstring :=
  if jsstring_eqb theme dark_theme then js "Light Theme" else js "Dark Theme".

(** [localStorage.getItem('theme') || 'light-theme'] *)
Definition saved_theme (d : ThemeDoc) : jsstring :=
  match theme_item d with
  | Some s => if str_falsy s then light_theme else s
  | None => light_theme
  end.

(** [body.classList.contains('light-theme') ? 'dark-theme' : 'light-theme'] *)
Definition other_theme (d : ThemeDoc) : jsstring :=
  if contains (classList d) light_theme then dark_theme else light_theme.

(** js/script.js lines 10-21 and 157-163.  [setTheme], [loadInitialTheme]
    and the listener function of js/scriptgemin.js (lines 12-31 and
    275-281) have the same statements; a click on the toggle of that page
    runs a second listener as well, see [ScriptGeminTheme]. *)
Module ScriptTheme.

(** [setTheme]: the toggle is relabelled only when the page has one. *)
Definition setTheme (theme : jsstring) (d : ThemeDoc) : ThemeDoc * completion unit :=
  let removed := classList_remove [light_theme; dark_theme] (classList d) in
  match classList_add theme removed with
  | Throw =>
      ({| classList := removed;
          theme_item := theme_item d;
          toggle_label := toggle_label d |}, Throw)
  | Normal added =>
      ({| classList := added;
          theme_item := Some theme;
          toggle_label := match toggle_label d with
                          | Some _ => Some (button_text theme)
                          | None => None
                          end |}, Normal tt)
  end.

Definition loadInitialTheme (d : ThemeDoc) : ThemeDoc * completion unit :=
  setTheme (saved_theme d) d.

(** The click listener of the theme toggle. *)
Definition toggle_click (d : ThemeDoc) : ThemeDoc * completion unit :=
  setTheme (other_theme d) d.

End ScriptTheme.

(** js/script1.js lines 6-22 (repeated as lines 313-329 of
    js/scriptgemin.js). *)
Module Script1Theme.

(** [setTheme]: the last statement writes the text of the toggle without a
    guard, and raises when the page has no toggle. *)
Definition setTheme (theme : jsstring) (d : ThemeDoc) : ThemeDoc * completion unit :=
  let removed := classList_remove [light_theme; dark_theme] (classList d) in
  match classList_add theme removed with
  | Throw =>
      ({| classList := removed;
          theme_item := theme_item d;
          toggle_label := toggle_label d |}, Throw)
  | Normal added =>
      match toggle_label d with
      | None =>
          ({| classList := added;
              theme_item := Some theme;
              toggle_label := None |}, Throw)
      | Some _ =>
          ({| classList := added;
              theme_item := Some theme;
              toggle_label := Some (button_text theme) |}, Normal tt)
      end
  end.

(** Lines 13-14: the theme is loaded when the document is ready. *)
Definition loadInitialTheme (d : ThemeDoc) : ThemeDoc * completion unit :=
  setTheme (saved_theme d) d.

(** The click listener of the theme toggle, lines 16-22. *)
Definition toggle_click (d : ThemeDoc) : ThemeDoc * completion unit :=
  setTheme (other_theme d) d.

End Script1Theme.

(** js/scriptgemin.js registers two click listeners on the element
    [theme-toggle]: the one of lines 275-281, and the one of lines 323-329
    in the copy of js/script1.js that ends the file.  A click runs them in
    the order of registration, the second on the document the first left;
    an exception of a listener is reported and does not stop the next. *)
Module ScriptGeminTheme.

Definition toggle_click (d : ThemeDoc) : ThemeDoc :=
  fst (Script1Theme.toggle_click (fst (ScriptTheme.toggle_click d))).

End ScriptGeminTheme.

(** ** js/script.js: the ports table and the re-scan button

    Lines 111-145 of [loadResultsPage]. *)

Module ScriptResults.

(** A row of the ports table: the text of its five cells and the class
    given to the state cell. *)
Record Row : Type := {
  port_cell : jsstring;
  protocol_cell : jsstring;
  state_cell : jsstring;
  state_class : jsstring;
  service_cell : jsstring;
  version_cell : jsstring
}.

(** The table body and the [display] style of the element
    [no-ports-message]. *)
Record Table : Type := {
  rows : list Row;
  no_ports_display : jsstring
}.

Section WithBuiltins.
Context {B : Builtins}.

(** String.prototype.toLowerCase *)
Variable toLowerCase : jsstring -> jsstring.

(** The comparison [v > 0] for a property value [v]. *)
Variable greater_than_zero : jsvalue -> bool.

(** Line 122: [(p.state || 'unknown').toUpperCase()]. *)
Definition state_text (state : jsvalue) : option jsstring :=
  match or_else state (Some (JStr (js "unknown"))) with
  | Some (JStr s) => Some (toUpperCase s)
  | _ => None
  end.

(** Line 123: [p.state && p.state.toLowerCase().startsWith('open') ?
    'status-open' : 'status-closed']. *)
Definition state_class_of (state : jsvalue) : option jsstring :=
  if truthy state then
    match state with
    | Some (JStr s) =>
        Some (if startsWith (toLowerCase s) (js "open") then js "status-open"
              else js "status-closed")
    | _ => None
    end
  else Some (js "status-closed").

(** Lines 119-132: the row built for one element [p] of [open_ports];
    [None] when a statement raises, in which case no row is appended. *)
Definition render_row (p : json) : option Row :=
  match get p (js "port"), get p (js "protocol"), get p (js "state"),
        get p (js "service"), get p (js "version") with
  | Normal port, Normal protocol, Normal state, Normal service, Normal version =>
      match dom_string port, Script.protocol_text protocol, state_text state,
            state_class_of state,
            dom_string (or_else service (Some (JStr (js "N/A")))),
            dom_string (or_else version (Some (JStr (js "N/A")))) with
      | Some c1, Some c2, Some c3, Some cl, Some c4, Some c5 =>
          Some {| port_cell := c1; protocol_cell := c2; state_cell := c3;
                  state_class := cl; service_cell := c4; version_cell := c5 |}
      | _, _, _, _, _, _ => None
      end
  | _, _, _, _, _ => None
  end.

(** [forEach]: rows are appended until a record raises. *)
Fixpoint append_rows (ps : list json) (acc : list Row) : list Row * completion unit :=
  match ps with
  | [] => (acc, Normal tt)
  | p :: ps' =>
      match render_row p with
      | None => (acc, Throw)
      | Some r => append_rows ps' (acc ++ [r])
      end
  end.

(** Lines 112-136, for the value of [data.open_ports].  The body is emptied
    first.  A non-empty string passes the test of line 116 and has no
    [forEach]; so does an object whose [length] exceeds zero. *)
Definition fill_table (open_ports : jsvalue) : Table * completion unit :=
  if truthy open_ports then
    match open_ports with
    | Some (JArr []) => ({| rows := []; no_ports_display := js "block" |}, Normal tt)
    | Some (JArr ps) =>
        let (rs, c) := append_rows ps [] in
        ({| rows := rs; no_ports_display := js "none" |}, c)
    | Some (JStr _) => ({| rows := []; no_ports_display := js "none" |}, Throw)
    | Some (JObj fs) =>
        if greater_than_zero (assoc (js "length") fs)
        then ({| rows := []; no_ports_display := js "none" |}, Throw)
        else ({| rows := []; no_ports_display := js "block" |}, Normal tt)
    | _ => ({| rows := []; no_ports_display := js "block" |}, Normal tt)
    end
  else ({| rows := []; no_ports_display := js "block" |}, Normal tt).

(** What [loadResultsPage] leaves behind: the summary elements, the table
    when the loader reached it, and whether the click listener of the
    re-scan button was registered. *)
Record Results : Type := {
  summary : View;
  table : option Table;
  rescan_wired : bool
}.

(** [loadResultsPage], whole (lines 87-149).  [rescan_button] tells whether
    the page has an element [rescan-button].  The [catch] clause absorbs
    every exception; the statements after the raising one do not run. *)
Definition loadResultsPage (stored : option json) (v : View) (rescan_button : bool)
  : Results :=
  match stored with
  | None =>
      {| summary := fst (set_target_ip Script.msg_no_data v);
         table := None;
         rescan_wired := false |}
  | Some data =>
      match Script.populate_summary data v with
      | (v', Throw) => {| summary := v'; table := None; rescan_wired := false |}
      | (v', Normal _) =>
          match get data (js "open_ports") with
          | Throw => {| summary := v'; table := None; rescan_wired := false |}
          | Normal open_ports =>
              match fill_table open_ports with
              | (t, Throw) =>
                  {| summary := v'; table := Some t; rescan_wired := false |}
              | (t, Normal _) =>
                  {| summary := v'; table := Some t; rescan_wired := rescan_button |}
              end
          end
      end
  end.

(** The click listener of the re-scan button, lines 141-144 (the same
    statements as lines 259-263 of js/scriptgemin.js):
    [sessionStorage.removeItem('scanResults')], then navigation. *)
Definition rescan_click (p : Page) : Page :=
  {| startButton := startButton p;
     session_scanResults := None;
     local_scanResults := local_scanResults p;
     navigations := navigations p ++ [js "scanning.html"];
     alerts := alerts p;
     requests := requests p |}.

End WithBuiltins.

End ScriptResults.

(** ** Shapes used to state what the validators accept *)

(** A bracketed literal: [[], one or more hexadecimal digits or colons, []]. *)
Definition bracketed_ipv6 (s : jsstring) : bool :=
  match s with
  | [] => false
  | c :: rest =>
      is_char "[" c && is_char "]" (last rest 0%N)
      && negb (str_falsy (removelast rest))
      && forallb hex_colon_class (removelast rest)
  end.

(** The form of js/scriptgemin.js with another text in the ip-host field. *)
Definition with_ip_host (h : jsstring) (f : ScriptGemin.Form) : ScriptGemin.Form :=
  {| ScriptGemin.ip_host := h;
     ScriptGemin.protocol_checked := ScriptGemin.protocol_checked f;
     ScriptGemin.port_select := ScriptGemin.port_select f;
     ScriptGemin.ports_list := ScriptGemin.ports_list f;
     ScriptGemin.terms_agreement := ScriptGemin.terms_agreement f |}.

(** The answer of the network is a success status with a body that
    decodes. *)
Definition succeeded {B : Builtins} (net : FetchResult) : bool :=
  match net with
  | FetchResponse status (Some _) => response_ok status
  | _ => false
  end.

(** A value without structure: absent, [null], a boolean, a number or a
    string. *)
Definition primitive {B : Builtins} (v : jsvalue) : bool :=
  match v with
  | None | Some JNull | Some (JBool _) | Some (JNum _) | Some (JStr _) => true
  | Some (JArr _) | Some (JObj _) => false
  end.

Definition is_array {B : Builtins} (v : jsvalue) : bool :=
  match v with
  | Some (JArr _) => true
  | _ => false
  end.

Definition is_string {B : Builtins} (v : jsvalue) : bool :=
  match v with
  | Some (JStr _) => true
  | _ => false
  end.

(** The keys the loader of js/scriptgemin.js reads. *)
Definition gemin_keys : list jsstring :=
  [js "target_ip"; js "open_ports"; js "scan_duration"; js "protocol"; js "ports_list"].

(** ** More concrete data for the examples *)

Module MoreExamples.

Definition latin_lower (c : codeunit) : codeunit :=
  if range "A" "Z" c then (c + 32)%N else c.

(** String.prototype.toLowerCase on Basic Latin strings. *)
Definition lower : jsstring -> jsstring := map latin_lower.

(** [v > 0] on the integer-valued numbers of [integer_builtins] and on
    booleans; used only on such values. *)
Definition positive (v : @jsvalue Examples.B0) : bool :=
  match v with
  | Some (JNum z) => (0 <? z)%Z
  | Some (JBool b) => b
  | _ => false
  end.

(** [{ port: 22, protocol: tcp, state: open, service: ssh }] *)
Definition ssh_record : @json Examples.B0 :=
  JObj [ (js "port", @JNum Examples.B0 22%Z);
         (js "protocol", JStr (js "tcp"));
         (js "state", JStr (js "open"));
         (js "service", JStr (js "ssh")) ].

(** A stored result with one open port. *)
Definition one_port_result : @json Examples.B0 :=
  JObj [ (js "target_ip", JStr (js "10.0.0.5"));
         (js "open_ports", JArr [ssh_record]);
         (js "scan_duration", @JNum Examples.B0 2%Z);
         (js "protocol", JStr (js "tcp"));
         (js "ports_list", JStr (js "top100")) ].

(** The fields of a request of js/script.js, stored as if it were a
    result. *)
Definition request_fields : list (jsstring * @json Examples.B0) :=
  [ (js "target", JStr (js "scanme.nmap.org"));
    (js "protocol", JStr (js "tcp"));
    (js "port_mode", JStr (js "top100"));
    (js "ports", JStr []) ].

(** A document in the light theme with a theme toggle. *)
Definition light_doc : ThemeDoc :=
  {| classList := [js "page"; light_theme];
     theme_item := Some light_theme;
     toggle_label := Some (js "Dark Theme") |}.

End MoreExamples.

(** [JSON.parse(JSON.stringify(j))]: what a loader reads back of a value
    that was stored with [setItem(key, JSON.stringify(j))].  [null],
    booleans and strings come back as they are, arrays and objects with
    their elements and properties in order, each read back in turn.
    [reread n] is the number that the JSON text of [n] denotes, and [None]
    for a number that has no JSON text (NaN and the infinities), in place of
    which [null] is written. *)
Fixpoint JSON_reparse {B : Builtins} (reread : number -> option number) (j : json)
  : json :=
  match j with
  | JNull => JNull
  | JBool b => JBool b
  | JNum n => match reread n with Some n' => JNum n' | None => JNull end
  | JStr s => JStr s
  | JArr l => JArr (map (JSON_reparse reread) l)
  | JObj fs => JObj (map (fun kv => match kv with
                                    | (k, v) => (k, JSON_reparse reread v)
                                    end) fs)
  end.

(** [JSON.parse(sessionStorage.getItem('scanResults'))] on the results
    page, for the item a script stored: [None] when there is no item. *)
Definition read_back {B : Builtins} (reread : number -> option number)
  (stored : option json) : option json :=
  option_map (JSON_reparse reread) stored.

(** The field values of a form of js/script1.js, as the listener of
    js/script.js finds them in a document with every element present. *)
Definition as_script_form (f1 : Script1.Form) : Script.Form :=
  {| Script.targetInput := Some {| Script.value := Some (Script1.target_ip f1);
                                   Script.textContent := [] |};
     Script.protocolEl := Script1.protocol_checked f1;
     Script.portModeEl := Some (Script1.port_mode f1);
     Script.customPortsEl := Some (Script1.custom_ports f1);
     Script.termsCheckbox := Some (Script1.terms_agree f1) |}.

Ltac theme_choice := first [left; reflexivity | right; reflexivity | assumption].

(** ** Proof automation *)

Ltac norm_cu :=
  repeat match goal with
  | |- context [cu ?a] =>
      let v := eval vm_compute in (cu a) in change (cu a) with v
  | H : context [cu ?a] |- _ =>
      let v := eval vm_compute in (cu a) in change (cu a) with v in H
  end.

Ltac split_cmp :=
  repeat match goal with
  | H : context [(?a <=? ?b)%N] |- _ => destruct (N.leb_spec a b); try lia
  | H : context [(?a =? ?b)%N] |- _ => destruct (N.eqb_spec a b); try lia
  | |- context [(?a <=? ?b)%N] => destruct (N.leb_spec a b); try lia
  | |- context [(?a =? ?b)%N] => destruct (N.eqb_spec a b); try lia
  end.

(** Decides an implication between character classes by cutting the code
    units into the intervals the classes distinguish. *)
Ltac class_arith :=
  unfold host_class, hex_colon_class, target_charset, loose_ports_class,
    is_digit, is_space, range, is_char in *;
  norm_cu; split_cmp; simpl in *; congruence.

#[local] Arguments get : simpl never.
#[local] Arguments template : simpl never.
#[local] Arguments or_else : simpl never.
#[local] Arguments truthy : simpl never.
#[local] Arguments response_ok : simpl never.
#[local] Arguments decimal : simpl never.
#[local] Arguments jsstring_eqb : simpl never.
#[local] Arguments js : simpl never.
#[local] Arguments trim : simpl never.

(** Splits on the scrutinee of the outermost [match] of the goal. *)
Ltac split_match :=
  match goal with
  | |- context [match ?x with _ => _ end] =>
      lazymatch x with
      | context [match _ with _ => _ end] => fail
      | _ => destruct x eqn:?
      end
  end.

Ltac page_cases := simpl; repeat (split_match; simpl).

Ltac open_script :=
  unfold Script.submitScan, Script.release, Script.catch_block, Script.try_block,
    Script.acquire.

Ltac open_script1 :=
  unfold Script1.submitScan, Script1.release, Script1.catch_block,
    Script1.try_block, Script1.busy.

Ltac open_gemin :=
  unfold ScriptGemin.handleScanSubmission, ScriptGemin.release,
    ScriptGemin.catch_block, ScriptGemin.try_block.

Unset Implicit Arguments.

(** * Theorems *)

(** ** Strings *)

Lemma dropWhile_nil_iff (p : codeunit -> bool) (s : jsstring) :
  dropWhile p s = [] <-> forallb p s = true.
Proof.
  induction s as [|c s IH]; simpl.
  - split; reflexivity.
  - destruct (p c); simpl.
    + exact IH.
    + split; discriminate.
Qed.

Lemma trim_falsy_iff (s : jsstring) :
  str_falsy (trim s) = true <-> forallb is_space s = true.
Proof.
  unfold trim.
  destruct (dropWhile is_space s) as [|c t] eqn:E.
  - simpl. split; intros _; [apply dropWhile_nil_iff; exact E | reflexivity].
  - assert (Hc : is_space c = false).
    { clear -E. induction s as [|d s IH]; simpl in E; [discriminate|].
      destruct (is_space d) eqn:D; [apply IH; exact E|].
      injection E as -> _. exact D. }
    assert (Hs : forallb is_space s = false).
    { apply not_true_is_false. intros H. apply dropWhile_nil_iff in H. congruence. }
    rewrite Hs. split; [|discriminate].
    intros H. exfalso.
    destruct (rev (dropWhile is_space (rev (c :: t)))) as [|x y] eqn:R;
      [|simpl in H; discriminate].
    apply (f_equal (@rev codeunit)) in R. rewrite rev_involutive in R. simpl in R.
    apply dropWhile_nil_iff in R. rewrite forallb_app in R.
    apply andb_true_iff in R as [_ R]. simpl in R. rewrite Hc in R. discriminate.
Qed.

Lemma strip_spaces_no_space (s : jsstring) :
  forallb (fun c => negb (is_space c)) (strip_spaces s) = true.
Proof.
  unfold strip_spaces. induction s as [|c s IH]; simpl; [reflexivity|].
  destruct (is_space c) eqn:E; simpl; [exact IH|]. rewrite E. exact IH.
Qed.

(** ** Regular expressions: [test] decides the language *)

Lemma nullable_Matches (r : regex) : nullable r = true <-> Matches r [].
Proof.
  induction r as [| |p|a IHa b IHb|a IHa b IHb|a IHa]; simpl.
  - split; [discriminate | intros H; inversion H].
  - split; [constructor | reflexivity].
  - split; [discriminate | intros H; inversion H].
  - rewrite orb_true_iff, IHa, IHb. split.
    + intros [H|H]; [apply MAltL | apply MAltR]; exact H.
    + intros H; inversion H; subst; auto.
  - rewrite andb_true_iff, IHa, IHb. split.
    + intros [H1 H2]. exact (MCat H1 H2).
    + intros H; inversion H as [| | | |a' b' s t H1 H2 [E1 E2] E| |]; subst.
      apply app_eq_nil in E as [-> ->]. auto.
  - split; [constructor | reflexivity].
Qed.

Lemma Matches_Star_cons_gen (r : regex) (w : jsstring) :
  Matches r w ->
  forall a c s, r = Star a -> w = c :: s ->
  exists s1 s2, s = s1 ++ s2 /\ Matches a (c :: s1) /\ Matches (Star a) s2.
Proof.
  induction 1 as [| | | | | |a' u t Hu _ Ht IHt]; intros a0 c0 s0 Er Ew;
    try discriminate.
  injection Er as ->.
  destruct u as [|d u]; simpl in Ew.
  - apply IHt; auto.
  - injection Ew as -> <-. exists u, t. auto.
Qed.

Lemma Matches_Star_cons (a : regex) (c : codeunit) (s : jsstring) :
  Matches (Star a) (c :: s) ->
  exists s1 s2, s = s1 ++ s2 /\ Matches a (c :: s1) /\ Matches (Star a) s2.
Proof.
  intros H. exact (Matches_Star_cons_gen _ _ H _ _ _ eq_refl eq_refl).
Qed.

Lemma deriv_Matches (r : regex) (c : codeunit) (s : jsstring) :
  Matches (deriv c r) s <-> Matches r (c :: s).
Proof.
  revert s.
  induction r as [| |p|a IHa b IHb|a IHa b IHb|a IHa]; intros s; simpl.
  - split; intros H; inversion H.
  - split; intros H; inversion H.
  - split.
    + destruct (p c) eqn:E; intros H; inversion H; subst. constructor; exact E.
    + intros H; inversion H; subst.
      match goal with E : p c = true |- _ => rewrite E end. constructor.
  - split.
    + intros H; inversion H; subst;
        [apply MAltL; apply IHa | apply MAltR; apply IHb]; assumption.
    + intros H; inversion H; subst;
        [apply MAltL; apply IHa | apply MAltR; apply IHb]; assumption.
  - split.
    + intros H.
      assert (Hcat : forall w, Matches (Cat (deriv c a) b) w -> Matches (Cat a b) (c :: w)).
      { intros w Hw. inversion Hw as [| | | |a' b' u t Hu Ht|  |]; subst.
        apply IHa in Hu. exact (MCat Hu Ht). }
      destruct (nullable a) eqn:N.
      * inversion H; subst; [apply Hcat; assumption|].
        apply nullable_Matches in N.
        match goal with Hb : Matches (deriv c b) s |- _ => apply IHb in Hb;
          exact (MCat N Hb) end.
      * apply Hcat; exact H.
    + intros H. inversion H as [| | | |a' b' u t Hu Ht [E1 E2] E| |]; subst.
      destruct u as [|d u]; simpl in E.
      * subst t. apply nullable_Matches in Hu. rewrite Hu.
        apply MAltR. apply IHb. exact Ht.
      * injection E as -> <-.
        apply IHa in Hu.
        destruct (nullable a); [apply MAltL|]; exact (MCat Hu Ht).
  - split.
    + intros H. inversion H as [| | | |a' b' u t Hu Ht|  |]; subst.
      apply IHa in Hu. exact (MStarS Hu Ht).
    + intros H. apply Matches_Star_cons in H as (s1 & s2 & -> & H1 & H2).
      apply IHa in H1. exact (MCat H1 H2).
Qed.

Lemma test_Matches (r : regex) (s : jsstring) : test r s = true <-> Matches r s.
Proof.
  revert r. induction s as [|c s IH]; intros r; simpl.
  - apply nullable_Matches.
  - rewrite IH. apply deriv_Matches.
Qed.

Lemma test_false_iff (r : regex) (s : jsstring) : test r s = false <-> ~ Matches r s.
Proof.
  rewrite <- test_Matches. destruct (test r s); split; congruence.
Qed.

Lemma test_Alt (a b : regex) (s : jsstring) : test (Alt a b) s = test a s || test b s.
Proof.
  apply eq_true_iff_eq. rewrite orb_true_iff, !test_Matches. split.
  - intros H; inversion H; subst; auto.
  - intros [H|H]; [apply MAltL | apply MAltR]; exact H.
Qed.

Lemma Matches_within (q : codeunit -> bool) (r : regex) (s : jsstring) :
  classes_within q r -> Matches r s -> forallb q s = true.
Proof.
  intros Hq H. induction H; simpl in *; try reflexivity.
  - rewrite (Hq c), ?andb_true_r; auto.
  - apply IHMatches, Hq.
  - apply IHMatches, Hq.
  - rewrite forallb_app, IHMatches1, IHMatches2; try apply Hq. reflexivity.
  - rewrite forallb_app, IHMatches1, IHMatches2; auto.
Qed.

Lemma Matches_Star_Class (p : codeunit -> bool) (s : jsstring) :
  Matches (Star (Class p)) s <-> forallb p s = true.
Proof.
  split.
  - apply Matches_within. simpl. auto.
  - induction s as [|c s IH]; simpl; intros H; [constructor|].
    apply andb_true_iff in H as [H1 H2].
    change (c :: s) with ([c] ++ s). apply MStarS; [constructor; exact H1 | auto].
Qed.

Lemma Matches_Plus_Class (p : codeunit -> bool) (s : jsstring) :
  Matches (Plus (Class p)) s <-> s <> [] /\ forallb p s = true.
Proof.
  unfold Plus. split.
  - intros H. split.
    + intros ->. apply nullable_Matches in H. discriminate.
    + revert H. apply Matches_within. simpl. auto.
  - intros [Hne H]. destruct s as [|c s]; [congruence|].
    simpl in H. apply andb_true_iff in H as [H1 H2].
    change (c :: s) with ([c] ++ s).
    apply MCat; [constructor; exact H1 | apply Matches_Star_Class; exact H2].
Qed.

(** ** Character classes *)

Lemma host_class_not_space (c : codeunit) : host_class c = true -> is_space c = false.
Proof. intros H. class_arith. Qed.

Lemma hostname_char_host_class (c : codeunit) : hostname_char c = host_class c.
Proof.
  unfold hostname_char, is_letter, host_class.
  rewrite <- !orb_assoc. reflexivity.
Qed.

Lemma forallb_hostname_char (s : jsstring) :
  forallb hostname_char s = forallb host_class s.
Proof.
  induction s as [|c s IH]; simpl; [reflexivity|].
  rewrite IH, hostname_char_host_class. reflexivity.
Qed.

(** ** The target validators *)

Lemma test_Plus_Class (p : codeunit -> bool) (s : jsstring) :
  test (Plus (Class p)) s = negb (str_falsy s) && forallb p s.
Proof.
  apply eq_true_iff_eq.
  rewrite test_Matches, Matches_Plus_Class, andb_true_iff.
  destruct s; simpl; split; intros [H1 H2]; split; congruence.
Qed.

Lemma test_hostname_alt (s : jsstring) :
  test hostname_alt s = negb (str_falsy s) && forallb host_class s.
Proof. apply test_Plus_Class. Qed.

Lemma ipv4_within_host_class : classes_within host_class ipv4_alt.
Proof.
  cbn [classes_within ipv4_alt Rep3 Rep1to3 Opt Chr].
  repeat split; intros c H; class_arith.
Qed.

Lemma ipv4_is_hostname (s : jsstring) :
  test ipv4_alt s = true -> test hostname_alt s = true.
Proof.
  intros H. rewrite test_hostname_alt. apply andb_true_iff. split.
  - destruct s; [discriminate H | reflexivity].
  - apply test_Matches in H. exact (Matches_within _ _ _ ipv4_within_host_class H).
Qed.

Lemma targetRegex_within_charset :
  classes_within target_charset Script.targetRegex /\
  classes_within target_charset Script1.targetRegex.
Proof.
  cbn [classes_within Script.targetRegex Script1.targetRegex hostname_alt
         ipv6_alt ipv4_alt Plus Rep3 Rep1to3 Opt Chr].
  repeat split; intros c H; class_arith.
Qed.

Lemma nonblank_nonempty (s : jsstring) : str_falsy (trim s) = false -> str_falsy s = false.
Proof.
  destruct s; [|reflexivity]. intros H. exact H.
Qed.

Lemma hostname_chars_not_blank (s : jsstring) :
  s <> [] -> forallb host_class s = true -> str_falsy (trim s) = false.
Proof.
  intros Hne H. apply not_true_is_false. rewrite trim_falsy_iff.
  destruct s as [|c s]; [congruence|]. simpl in *.
  apply andb_true_iff in H as [H _].
  rewrite (host_class_not_space _ H). discriminate.
Qed.

(** C7 (counterexample): the empty string consists only of letters, digits,
    dots and hyphens, and [validateTarget] rejects it as a missing target. *)
Lemma C7_counterexample_empty_target :
  forallb hostname_char empty = true
  /\ Script.validateTarget empty = Some Script.msg_target_required
  /\ Script1.validateTarget empty = Some Script1.msg_target_required.
Proof. repeat split. Qed.

(** C7 (amended): for every non-empty string consisting only of letters,
    digits, [.] and [-], [validateTarget] of js/script.js and of
    js/script1.js returns no error. *)
Theorem C7_validateTarget_accepts_hostname_strings (s : jsstring) :
  s <> [] ->
  forallb hostname_char s = true ->
  Script.validateTarget s = None /\ Script1.validateTarget s = None.
Proof.
  intros Hne H. rewrite forallb_hostname_char in H.
  pose proof (hostname_chars_not_blank _ Hne H) as Ht.
  assert (Hh : test hostname_alt s = true).
  { rewrite test_hostname_alt, H. destruct s; [congruence | reflexivity]. }
  unfold Script.validateTarget, Script1.validateTarget,
    Script.targetRegex, Script1.targetRegex.
  rewrite Ht, (nonblank_nonempty _ Ht), !test_Alt, Hh. split; reflexivity.
Qed.

(** C7 (witness): the amended statement at the target scanme.nmap.org. *)
Lemma C7_witness_scanme :
  js "scanme.nmap.org" <> []
  /\ forallb hostname_char (js "scanme.nmap.org") = true
  /\ Script.validateTarget (js "scanme.nmap.org") = None
  /\ Script1.validateTarget (js "scanme.nmap.org") = None.
Proof.
  split; [discriminate|]. split; [reflexivity|].
  apply (C7_validateTarget_accepts_hostname_strings (js "scanme.nmap.org"));
    [discriminate | reflexivity].
Defined.

(** C8 (counterexample): a single space lies outside the character set and
    is no bracketed IPv6 literal, yet [validateTarget] reports a missing
    target, not an invalid format. *)
Lemma C8_counterexample_blank_target :
  forallb target_charset (js " ") = false
  /\ test ipv6_alt (js " ") = false
  /\ Script.validateTarget (js " ") = Some Script.msg_target_required
  /\ Script.validateTarget (js " ") <> Some Script.msg_target_invalid
  /\ Script1.validateTarget (js " ") = Some Script1.msg_target_required
  /\ Script1.validateTarget (js " ") <> Some Script1.msg_target_invalid.
Proof. repeat split; discriminate. Qed.

(** C8 (amended): for every string that is not empty after trimming and
    contains a character outside [[A-Za-z0-9.:\[\]-]], [validateTarget] of
    js/script.js and of js/script1.js fails with the invalid-format
    message; the ip-host check of [validateForm] in js/scriptgemin.js has
    no format check and reports no error for such a string. *)
Theorem C8_validateTarget_rejects_foreign_characters (s : jsstring) :
  str_falsy (trim s) = false ->
  forallb target_charset s = false ->
  Script.validateTarget s = Some Script.msg_target_invalid
  /\ Script1.validateTarget s = Some Script1.msg_target_invalid
  /\ ScriptGemin.check_ip_host s = None.
Proof.
  intros Ht Hc.
  destruct targetRegex_within_charset as [W W1].
  assert (T : test Script.targetRegex s = false).
  { apply test_false_iff. intros M.
    rewrite (Matches_within _ _ _ W M) in Hc. discriminate. }
  assert (T1 : test Script1.targetRegex s = false).
  { apply test_false_iff. intros M.
    rewrite (Matches_within _ _ _ W1 M) in Hc. discriminate. }
  unfold Script.validateTarget, Script1.validateTarget, ScriptGemin.check_ip_host.
  rewrite Ht, (nonblank_nonempty _ Ht), T, T1. repeat split.
Qed.

(** C8 (witness): the amended statement at a target with a semicolon. *)
Lemma C8_witness_shell_metacharacter :
  str_falsy (trim (js "host;ls")) = false
  /\ forallb target_charset (js "host;ls") = false
  /\ Script.validateTarget (js "host;ls") = Some Script.msg_target_invalid
  /\ Script1.validateTarget (js "host;ls") = Some Script1.msg_target_invalid
  /\ ScriptGemin.check_ip_host (js "host;ls") = None.
Proof.
  split; [reflexivity|]. split; [reflexivity|].
  apply (C8_validateTarget_rejects_foreign_characters (js "host;ls"));
    reflexivity.
Defined.

(** C10: [validateTarget] returns the same result as the validator whose
    pattern lacks the dotted-quad alternative, in js/script.js and in
    js/script1.js: the hostname alternative accepts exactly the non-empty
    strings of letters, digits, dots and hyphens, which include every
    dotted quad, so 999.999.999.999, 1.2.3.4.5, ... and --- are accepted. *)
Theorem C10_ipv4_alternative_never_decides :
  (forall s, Script.validateTarget s = Script.validateTarget_without_ipv4 s)
  /\ (forall s, Script1.validateTarget s = Script1.validateTarget_without_ipv4 s)
  /\ (forall s, test hostname_alt s = negb (str_falsy s) && forallb hostname_char s)
  /\ (forall s, test ipv4_alt s || test hostname_alt s = test hostname_alt s)
  /\ (Script.validateTarget (js "999.999.999.999") = None
      /\ Script.validateTarget (js "1.2.3.4.5") = None
      /\ Script.validateTarget (js "...") = None
      /\ Script.validateTarget (js "---") = None)
  /\ (Script1.validateTarget (js "999.999.999.999") = None
      /\ Script1.validateTarget (js "1.2.3.4.5") = None
      /\ Script1.validateTarget (js "...") = None
      /\ Script1.validateTarget (js "---") = None)
  /\ (test ipv4_alt (js "999.999.999.999") = true
      /\ test ipv4_alt (js "1.2.3.4.5") = false
      /\ test ipv4_alt (js "...") = false
      /\ test ipv4_alt (js "---") = false).
Proof.
  assert (R : forall s, test ipv4_alt s || test hostname_alt s = test hostname_alt s).
  { intros s. destruct (test ipv4_alt s) eqn:E; [|reflexivity].
    rewrite (ipv4_is_hostname _ E). reflexivity. }
  split; [|split; [|split; [|split; [exact R|]]]].
  - intros s. unfold Script.validateTarget, Script.validateTarget_without_ipv4,
      Script.targetRegex, Script.targetRegex_without_ipv4.
    rewrite !test_Alt.
    replace (test hostname_alt s || (test ipv6_alt s || test ipv4_alt s))
      with (test hostname_alt s || test ipv6_alt s); [reflexivity|].
    specialize (R s).
    destruct (test hostname_alt s), (test ipv6_alt s), (test ipv4_alt s);
      simpl in *; congruence.
  - intros s. unfold Script1.validateTarget, Script1.validateTarget_without_ipv4,
      Script1.targetRegex, Script1.targetRegex_without_ipv4.
    rewrite !test_Alt.
    replace (test hostname_alt s || (test ipv4_alt s || test ipv6_alt s))
      with (test hostname_alt s || test ipv6_alt s); [reflexivity|].
    specialize (R s).
    destruct (test hostname_alt s), (test ipv6_alt s), (test ipv4_alt s);
      simpl in *; congruence.
  - intros s. rewrite forallb_hostname_char. apply test_hostname_alt.
  - repeat split; vm_compute; reflexivity.
Qed.

(** ** Splitting and joining *)

Lemma split_on_nonempty (sep : codeunit) (s : jsstring) : split_on sep s <> [].
Proof.
  destruct s as [|c s]; simpl; [discriminate|].
  destruct (c =? sep)%N; [discriminate|].
  destruct (split_on sep s); discriminate.
Qed.

Lemma split_on_free (sep : codeunit) (a : jsstring) :
  free_of sep a = true -> split_on sep a = [a].
Proof.
  unfold free_of. induction a as [|c a IH]; simpl; [reflexivity|].
  intros H. apply andb_true_iff in H as [H1 H2].
  apply negb_true_iff in H1. rewrite H1, (IH H2). reflexivity.
Qed.

Lemma split_on_app (sep : codeunit) (a b : jsstring) :
  free_of sep a = true -> split_on sep (a ++ sep :: b) = a :: split_on sep b.
Proof.
  unfold free_of. induction a as [|c a IH]; simpl.
  - rewrite N.eqb_refl. reflexivity.
  - intros H. apply andb_true_iff in H as [H1 H2].
    apply negb_true_iff in H1. rewrite H1, (IH H2). reflexivity.
Qed.

Lemma join_cons (sep : codeunit) (p q : jsstring) (qs : list jsstring) :
  join sep (p :: q :: qs) = p ++ sep :: join sep (q :: qs).
Proof. reflexivity. Qed.

Lemma split_on_join (sep : codeunit) (s : jsstring) : join sep (split_on sep s) = s.
Proof.
  induction s as [|c s IH]; [reflexivity|].
  pose proof (split_on_nonempty sep s) as Hne.
  simpl split_on. destruct (c =? sep)%N eqn:E.
  - apply N.eqb_eq in E. subst c.
    destruct (split_on sep s) as [|p ps]; [congruence|].
    rewrite join_cons, IH. reflexivity.
  - destruct (split_on sep s) as [|p ps]; [congruence|].
    simpl in *. rewrite IH. reflexivity.
Qed.

Lemma split_on_join_free (sep : codeunit) (ps : list jsstring) :
  ps <> [] ->
  Forall (fun p => free_of sep p = true) ps ->
  split_on sep (join sep ps) = ps.
Proof.
  induction ps as [|p ps IH]; [congruence|].
  intros _ H. inversion H as [|p' ps' Hp Hps]; subst.
  destruct ps as [|q qs].
  - simpl. rewrite app_nil_r. apply split_on_free. exact Hp.
  - rewrite join_cons, (split_on_app _ _ _ Hp), IH; [reflexivity | discriminate | exact Hps].
Qed.

(** ** Inversion of the language *)

Lemma Matches_Cat_inv (a b : regex) (s : jsstring) :
  Matches (Cat a b) s -> exists u v, s = u ++ v /\ Matches a u /\ Matches b v.
Proof. intros H. inversion H; subst. eauto. Qed.

Lemma Matches_Alt_inv (a b : regex) (s : jsstring) :
  Matches (Alt a b) s -> Matches a s \/ Matches b s.
Proof. intros H. inversion H; subst; auto. Qed.

Lemma Matches_Eps_inv (s : jsstring) : Matches Eps s -> s = [].
Proof. intros H. inversion H. reflexivity. Qed.

Lemma Matches_Chr_inv (a : ascii) (s : jsstring) : Matches (Chr a) s -> s = [cu a].
Proof.
  unfold Chr, is_char. intros H. inversion H as [|p c E| | | | |]; subst.
  apply N.eqb_eq in E. subst. reflexivity.
Qed.

Lemma Matches_Chr (a : ascii) : Matches (Chr a) [cu a].
Proof. constructor. unfold is_char. apply N.eqb_refl. Qed.

Lemma Matches_Star_concat_gen (r : regex) (s : jsstring) :
  Matches r s ->
  forall a, r = Star a -> exists ss, Forall (Matches a) ss /\ s = List.concat ss.
Proof.
  induction 1 as [| | | | | |a' u t Hu _ Ht IHt]; intros a0 Er; try discriminate.
  - exists []. split; [constructor | reflexivity].
  - injection Er as ->. destruct (IHt a0 eq_refl) as (ss & Hss & ->).
    exists (u :: ss). split; [constructor; assumption | reflexivity].
Qed.

Lemma Matches_Star_concat (a : regex) (s : jsstring) :
  Matches (Star a) s <-> exists ss, Forall (Matches a) ss /\ s = List.concat ss.
Proof.
  split.
  - intros H. exact (Matches_Star_concat_gen _ _ H _ eq_refl).
  - intros (ss & Hss & ->). induction Hss; simpl; [constructor|].
    apply MStarS; assumption.
Qed.

(** ** The port-list patterns and the grammar of the specification *)

Lemma is_integer_Matches (t : jsstring) :
  Matches (Plus (Class is_digit)) t <-> is_integer t = true.
Proof.
  rewrite <- test_Matches, test_Plus_Class. reflexivity.
Qed.

Lemma integer_free_of_hyphen (t : jsstring) :
  is_integer t = true -> free_of (cu "-") t = true.
Proof.
  intros H. apply is_integer_Matches in H. revert H.
  apply Matches_within.
  cbn [classes_within Plus].
  repeat split; intros c H; class_arith.
Qed.

Lemma port_token_Matches (t : jsstring) :
  Matches port_token t <-> is_port_token t = true.
Proof.
  unfold port_token, Opt, is_port_token. split.
  - intros H. apply Matches_Cat_inv in H as (a & o & -> & Ha & Ho).
    apply is_integer_Matches in Ha.
    apply Matches_Alt_inv in Ho as [Ho|Ho].
    + apply Matches_Cat_inv in Ho as (x & b & -> & Hx & Hb).
      apply Matches_Chr_inv in Hx. subst x. apply is_integer_Matches in Hb.
      simpl app. rewrite (split_on_app _ _ _ (integer_free_of_hyphen _ Ha)).
      rewrite (split_on_free _ _ (integer_free_of_hyphen _ Hb)).
      rewrite Ha, Hb. reflexivity.
    + apply Matches_Eps_inv in Ho. subst o. rewrite app_nil_r.
      rewrite (split_on_free _ _ (integer_free_of_hyphen _ Ha)). exact Ha.
  - intros H. rewrite <- (split_on_join (cu "-") t).
    destruct (split_on (cu "-") t) as [|a [|b [|]]]; try discriminate.
    + simpl. apply MCat; [apply is_integer_Matches; exact H|].
      apply MAltR. constructor.
    + apply andb_true_iff in H as [Ha Hb].
      simpl. rewrite app_nil_r.
      apply MCat; [apply is_integer_Matches; exact Ha|].
      apply MAltL. apply is_integer_Matches in Hb.
      exact (MCat (Matches_Chr "-") Hb).
Qed.

Lemma port_token_free_of_comma (t : jsstring) :
  Matches port_token t -> free_of (cu ",") t = true.
Proof.
  apply Matches_within.
  cbn [classes_within port_token Plus Opt Chr].
  repeat split; intros c H; class_arith.
Qed.

Lemma port_token_no_space (t : jsstring) :
  Matches port_token t -> forallb (fun c => negb (is_space c)) t = true.
Proof.
  apply Matches_within.
  cbn [classes_within port_token Plus Opt Chr].
  repeat split; intros c H; class_arith.
Qed.

Lemma comma_items (tok : regex) (ts : list jsstring) :
  Forall (Matches tok) ts ->
  Forall (Matches (Cat (Chr ",") tok)) (map (cons (cu ",")) ts).
Proof.
  induction 1 as [|t ts Ht _ IH]; simpl; constructor; [|exact IH].
  exact (MCat (Matches_Chr ",") Ht).
Qed.

Lemma comma_items_inv (tok : regex) (ss : list jsstring) :
  Forall (Matches (Cat (Chr ",") tok)) ss ->
  exists ts, Forall (Matches tok) ts /\ ss = map (cons (cu ",")) ts.
Proof.
  induction 1 as [|x ss Hx _ (ts & Hts & ->)].
  - exists []. split; [constructor | reflexivity].
  - apply Matches_Cat_inv in Hx as (u & t & -> & Hu & Ht).
    apply Matches_Chr_inv in Hu. subst u.
    exists (t :: ts). split; [constructor; assumption | reflexivity].
Qed.

(** The pattern of js/script.js, as a list of pieces. *)
Lemma portsRegex_pieces (s : jsstring) :
  Matches Script.portsRegex s <->
  exists ps, ps <> [] /\ Forall (Matches port_token) ps /\ s = join (cu ",") ps.
Proof.
  unfold Script.portsRegex. split.
  - intros H. apply Matches_Cat_inv in H as (t0 & rest & -> & H0 & Hr).
    apply Matches_Star_concat in Hr as (ss & Hss & ->).
    apply comma_items_inv in Hss as (ts & Hts & ->).
    exists (t0 :: ts). split; [discriminate|]. split; [constructor; assumption | reflexivity].
  - intros (ps & Hne & Hps & ->).
    destruct ps as [|t0 ts]; [congruence|].
    inversion Hps; subst. simpl.
    apply MCat; [assumption|].
    apply Matches_Star_concat. exists (map (cons (cu ",")) ts).
    split; [apply comma_items; assumption | reflexivity].
Qed.

Lemma forallb_Forall_token (ps : list jsstring) :
  forallb is_port_token ps = true <-> Forall (Matches port_token) ps.
Proof.
  rewrite forallb_forall, Forall_forall. split; intros H x Hx.
  - apply port_token_Matches, H, Hx.
  - apply port_token_Matches, H, Hx.
Qed.

Lemma portsRegex_grammar (s : jsstring) :
  test Script.portsRegex s = port_list_grammar s.
Proof.
  apply eq_true_iff_eq. rewrite test_Matches, portsRegex_pieces.
  unfold port_list_grammar. rewrite forallb_Forall_token. split.
  - intros (ps & Hne & Hps & ->).
    rewrite split_on_join_free; [exact Hps | exact Hne |].
    revert Hps. apply Forall_impl. exact port_token_free_of_comma.
  - intros H. exists (split_on (cu ",") s).
    split; [apply split_on_nonempty|]. split; [exact H|].
    symmetry. apply split_on_join.
Qed.

Lemma forallb_concat (p : codeunit -> bool) (ss : list jsstring) :
  forallb p (List.concat ss) = true -> Forall (fun x => forallb p x = true) ss.
Proof.
  induction ss as [|x ss IH]; simpl; intros H; constructor.
  - rewrite forallb_app in H. apply andb_true_iff in H. tauto.
  - apply IH. rewrite forallb_app in H. apply andb_true_iff in H. tauto.
Qed.

Lemma spaces_and_none (w : jsstring) :
  forallb is_space w = true ->
  forallb (fun c => negb (is_space c)) w = true -> w = [].
Proof.
  destruct w as [|c w]; [reflexivity|]. simpl. intros H1 H2.
  apply andb_true_iff in H1 as [H1 _]. apply andb_true_iff in H2 as [H2 _].
  rewrite H1 in H2. discriminate.
Qed.

(** On a string without white space the pattern of js/script1.js, whose
    items may start with [\s*], has the language of the pattern of
    js/script.js. *)
Lemma portListRegex_portsRegex (s : jsstring) :
  forallb (fun c => negb (is_space c)) s = true ->
  test Script1.portListRegex s = test Script.portsRegex s.
Proof.
  intros Hs. apply eq_true_iff_eq. rewrite !test_Matches.
  unfold Script1.portListRegex, Script.portsRegex. split.
  - intros H. apply Matches_Cat_inv in H as (t0 & rest & -> & H0 & Hr).
    apply MCat; [exact H0|].
    rewrite forallb_app in Hs. apply andb_true_iff in Hs as [_ Hs].
    apply Matches_Star_concat in Hr as (ss & Hss & ->).
    apply Matches_Star_concat. exists ss. split; [|reflexivity].
    apply forallb_concat in Hs.
    clear H0. induction Hss as [|x ss Hx _ IH]; constructor.
    + inversion Hs as [|x' ss' Hx' _]; subst.
      apply Matches_Cat_inv in Hx as (u & v & -> & Hu & Hv).
      apply Matches_Cat_inv in Hv as (w & t & -> & Hw & Ht).
      apply Matches_Star_Class in Hw.
      rewrite !forallb_app in Hx'.
      apply andb_true_iff in Hx' as [_ Hx'].
      apply andb_true_iff in Hx' as [Hx' _].
      rewrite (spaces_and_none _ Hw Hx'). simpl.
      apply MCat; assumption.
    + apply IH. inversion Hs; assumption.
  - intros H. apply Matches_Cat_inv in H as (t0 & rest & -> & H0 & Hr).
    apply MCat; [exact H0|].
    apply Matches_Star_concat in Hr as (ss & Hss & ->).
    apply Matches_Star_concat. exists ss. split; [|reflexivity].
    revert Hss. apply Forall_impl. intros x Hx.
    apply Matches_Cat_inv in Hx as (u & v & -> & Hu & Hv).
    apply MCat; [exact Hu|].
    change v with ([] ++ v). apply MCat; [constructor | exact Hv].
Qed.

Lemma strip_spaces_blank (s : jsstring) :
  forallb is_space s = true -> strip_spaces s = [].
Proof.
  unfold strip_spaces. induction s as [|c s IH]; simpl; [reflexivity|].
  intros H. apply andb_true_iff in H as [H1 H2]. rewrite H1. simpl. auto.
Qed.

Lemma script_validatePorts_grammar (s : jsstring) :
  accepts (Script.validatePorts s) = port_list_grammar (strip_spaces s).
Proof.
  unfold Script.validatePorts.
  destruct (str_falsy s || str_falsy (trim s)) eqn:E.
  - assert (B : forallb is_space s = true).
    { apply orb_true_iff in E as [E|E].
      - destruct s; [reflexivity | discriminate].
      - apply trim_falsy_iff. exact E. }
    rewrite (strip_spaces_blank _ B). reflexivity.
  - cbv zeta. rewrite portsRegex_grammar.
    destruct (port_list_grammar (strip_spaces s)); reflexivity.
Qed.

Lemma script1_validatePorts_grammar (s : jsstring) :
  accepts (Script1.validatePorts s) = port_list_grammar (strip_spaces s).
Proof.
  unfold Script1.validatePorts.
  destruct (str_falsy s) eqn:E.
  - destruct s; [reflexivity | discriminate].
  - rewrite (portListRegex_portsRegex _ (strip_spaces_no_space s)), portsRegex_grammar.
    destruct (port_list_grammar (strip_spaces s)); reflexivity.
Qed.

Lemma gemin_check_ports_list_spec (s : jsstring) :
  accepts (ScriptGemin.check_ports_list s)
  = negb (str_falsy (trim s)) && forallb loose_ports_class (trim s).
Proof.
  unfold ScriptGemin.check_ports_list, ScriptGemin.portsPattern.
  rewrite test_Plus_Class.
  destruct (str_falsy (trim s)); [reflexivity|]. simpl.
  destruct (forallb loose_ports_class (trim s)); reflexivity.
Qed.

(** C5 (counterexample): the port check of [validateForm] in
    js/scriptgemin.js accepts 21,,80, which is no comma-separated sequence
    of tokens. *)
Lemma C5_counterexample_gemin_double_comma :
  ScriptGemin.check_ports_list (js "21,,80") = None
  /\ port_list_grammar (strip_spaces (js "21,,80")) = false.
Proof. split; vm_compute; reflexivity. Qed.

(** C5 (amended): [validatePorts] of js/script.js and of js/script1.js
    returns no error on 21,80,443-445 and on 21, 80 , 443-445, fails with
    the malformed-list message on 21,,80 and with the empty-ports message
    on the empty string, and accepts an input exactly when, after all white
    space is stripped, it is a comma-separated sequence of tokens, each a
    non-negative integer or two integers joined by a hyphen.  The port
    check of [validateForm] in js/scriptgemin.js agrees on the first, second
    and fourth example but accepts every trimmed non-empty string of
    digits, white space, commas and hyphens, 21,,80 included. *)
Theorem C5_validatePorts_grammar :
  (Script.validatePorts (js "21,80,443-445") = None
   /\ Script.validatePorts (js "21, 80 , 443-445") = None
   /\ Script.validatePorts (js "21,,80") = Some Script.msg_ports_invalid
   /\ Script.validatePorts empty = Some Script.msg_ports_required)
  /\ (Script1.validatePorts (js "21,80,443-445") = None
      /\ Script1.validatePorts (js "21, 80 , 443-445") = None
      /\ Script1.validatePorts (js "21,,80") = Some Script1.msg_ports_invalid
      /\ Script1.validatePorts empty = Some Script1.msg_ports_required)
  /\ (forall s, accepts (Script.validatePorts s) = port_list_grammar (strip_spaces s))
  /\ (forall s, accepts (Script1.validatePorts s) = port_list_grammar (strip_spaces s))
  /\ (ScriptGemin.check_ports_list (js "21,80,443-445") = None
      /\ ScriptGemin.check_ports_list (js "21, 80 , 443-445") = None
      /\ ScriptGemin.check_ports_list (js "21,,80") = None
      /\ ScriptGemin.check_ports_list empty = Some ScriptGemin.msg_ports_empty)
  /\ (forall s, accepts (ScriptGemin.check_ports_list s)
                = negb (str_falsy (trim s)) && forallb loose_ports_class (trim s)).
Proof.
  split; [repeat split; vm_compute; reflexivity|].
  split; [repeat split; vm_compute; reflexivity|].
  split; [exact script_validatePorts_grammar|].
  split; [exact script1_validatePorts_grammar|].
  split; [repeat split; vm_compute; reflexivity|].
  exact gemin_check_ports_list_spec.
Qed.

(** ** Submission *)

Section Submission.
Context {B : Builtins}.

Lemma script_submitScan_requests (d : json) (net : FetchResult) (p : Page) :
  requests (Script.submitScan d net p) = requests p ++ [post d].
Proof.
  unfold Script.submitScan, Script.release, Script.catch_block, Script.try_block,
    Script.acquire.
  page_cases; reflexivity.
Qed.

Lemma script1_submitScan_requests (d : json) (net : FetchResult) (p : Page) :
  requests (Script1.submitScan d net p)
  = requests p ++ match startButton p with Some _ => [post d] | None => [] end.
Proof.
  unfold Script1.submitScan, Script1.release, Script1.catch_block, Script1.try_block.
  page_cases; rewrite ?app_nil_r; reflexivity.
Qed.

Lemma gemin_requests (f : ScriptGemin.Form) (net : FetchResult) (p : Page) :
  requests (ScriptGemin.handleScanSubmission f net p)
  = requests p ++
    (if ScriptGemin.validateForm f then
       match ScriptGemin.protocol_checked f, startButton p with
       | Some protocol, Some _ => [post (ScriptGemin.scanData f protocol)]
       | _, _ => []
       end
     else []).
Proof.
  unfold ScriptGemin.handleScanSubmission, ScriptGemin.release,
    ScriptGemin.catch_block, ScriptGemin.try_block.
  destruct (ScriptGemin.validateForm f); simpl; [|rewrite app_nil_r; reflexivity].
  destruct (ScriptGemin.protocol_checked f) as [protocol|];
    [|rewrite app_nil_r; reflexivity].
  destruct (startButton p) as [b|] eqn:Eb; [|rewrite app_nil_r; reflexivity].
  page_cases; reflexivity.
Qed.

End Submission.

Section SubmissionClaims.
Context {B : Builtins}.

Lemma script_buildRequest_fields (f : Script.Form) (j : json) :
  Script.buildRequest f = Script.Payload j -> field_names j = Some contract_fields.
Proof.
  unfold Script.buildRequest. intros H.
  repeat match type of H with
         | match ?x with _ => _ end = _ => destruct x; try discriminate
         end;
    injection H as <-; reflexivity.
Qed.

Lemma script1_buildRequest_fields (f : Script1.Form) (j : json) :
  Script1.buildRequest f = Script1.Payload j -> field_names j = Some contract_fields.
Proof.
  unfold Script1.buildRequest. intros H.
  destruct (negb (Script1.isValid (Script1.check f))); [discriminate|].
  destruct (Script1.protocol_checked f); [|discriminate].
  injection H as <-. reflexivity.
Qed.

(** C1 (amended): every scan request is a single POST to the scan endpoint
    with a JSON content type.  The submit listeners of js/script.js and
    js/script1.js send one request per accepted form, whose body is an
    object with exactly the fields target, protocol, port_mode and ports;
    [handleScanSubmission] of js/scriptgemin.js sends one request per
    accepted form, whose body is an object with exactly the fields
    target_ip, protocol and ports_list. *)
Theorem C1_request_body_fields :
  (forall j, url (post j) = API_URL /\ method (post j) = js "POST"
             /\ content_type (post j) = js "application/json" /\ body (post j) = j)
  /\ (forall f net p,
        requests (Script.scanForm_submit f net p)
        = requests p ++ match Script.buildRequest f with
                        | Script.Payload j => [post j]
                        | Script.Refused _ => []
                        end)
  /\ (forall f, match Script.buildRequest f with
                | Script.Payload j => field_names j = Some contract_fields
                | Script.Refused _ => True
                end)
  /\ (forall f net p,
        requests (Script1.scanForm_submit f net p)
        = requests p ++ match Script1.buildRequest f, startButton p with
                        | Script1.Payload j, Some _ => [post j]
                        | _, _ => []
                        end)
  /\ (forall f, match Script1.buildRequest f with
                | Script1.Payload j => field_names j = Some contract_fields
                | _ => True
                end)
  /\ (forall f net p,
        requests (ScriptGemin.handleScanSubmission f net p)
        = requests p ++
          (if ScriptGemin.validateForm f then
             match ScriptGemin.protocol_checked f, startButton p with
             | Some protocol, Some _ => [post (ScriptGemin.scanData f protocol)]
             | _, _ => []
             end
           else []))
  /\ (forall f protocol,
        field_names (ScriptGemin.scanData f protocol)
        = Some [js "target_ip"; js "protocol"; js "ports_list"]).
Proof.
  split; [intros j; repeat split|].
  split.
  { intros f net p. unfold Script.scanForm_submit.
    destruct (Script.buildRequest f) as [msg|j]; simpl.
    - rewrite app_nil_r. reflexivity.
    - apply script_submitScan_requests. }
  split.
  { intros f. destruct (Script.buildRequest f) as [msg|j] eqn:E; [exact I|].
    exact (script_buildRequest_fields f j E). }
  split.
  { intros f net p. unfold Script1.scanForm_submit.
    destruct (Script1.buildRequest f) as [e| |j]; simpl; rewrite ?app_nil_r; try reflexivity.
    apply script1_submitScan_requests. }
  split.
  { intros f. destruct (Script1.buildRequest f) as [e| |j] eqn:E; try exact I.
    exact (script1_buildRequest_fields f j E). }
  split; [exact gemin_requests|].
  intros f protocol. reflexivity.
Qed.

Lemma contract_payload_fields (t pr m ps : jsstring) :
  let j := JObj [ (js "target", JStr t); (js "protocol", JStr pr);
                  (js "port_mode", JStr m); (js "ports", JStr ps) ] in
  field (js "port_mode") j = Some (JStr m) /\ field (js "ports") j = Some (JStr ps).
Proof. split; reflexivity. Qed.

Lemma contract_payload_invariant (t pr m ps : jsstring) :
  ports_invariant (JObj [ (js "target", JStr t); (js "protocol", JStr pr);
                          (js "port_mode", JStr m); (js "ports", JStr ps) ])
  = if jsstring_eqb m (js "custom")
    then negb (str_falsy ps) && port_list_grammar ps
    else str_falsy ps.
Proof.
  unfold ports_invariant.
  destruct (contract_payload_fields t pr m ps) as [-> ->]. reflexivity.
Qed.

Lemma strip_spaces_without_space (s : jsstring) :
  existsb is_space s = false -> strip_spaces s = s.
Proof.
  unfold strip_spaces. induction s as [|c s IH]; simpl; [reflexivity|].
  intros H. apply orb_false_iff in H as [H1 H2].
  rewrite H1. simpl. rewrite (IH H2). reflexivity.
Qed.

Lemma port_list_without_space (s : jsstring) :
  port_list_grammar s = true -> existsb is_space s = false.
Proof.
  rewrite <- portsRegex_grammar, test_Matches. intros M.
  assert (F : forallb (fun c => negb (is_space c)) s = true).
  { revert M. apply Matches_within.
    cbn [classes_within Script.portsRegex port_token Plus Opt Chr].
    repeat split; intros c H; class_arith. }
  clear M. induction s as [|c s IH]; simpl; [reflexivity|].
  simpl in F. apply andb_true_iff in F as [F1 F2].
  apply negb_true_iff in F1. rewrite F1. simpl. exact (IH F2).
Qed.

(** A text the validators accept is a port list as it stands exactly when
    it holds no white space. *)
Lemma port_list_up_to_space (s : jsstring) :
  port_list_grammar (strip_spaces s) = true ->
  port_list_grammar s = negb (existsb is_space s).
Proof.
  intros G. destruct (existsb is_space s) eqn:E; simpl.
  - destruct (port_list_grammar s) eqn:P; [|reflexivity].
    rewrite (port_list_without_space s P) in E. discriminate.
  - rewrite (strip_spaces_without_space s E) in G. exact G.
Qed.

(** C2 (amended): a request built by js/script.js has an empty [ports]
    when the port mode is not custom, whatever the custom field holds, and
    then satisfies the invariant.  When the port mode is custom, [ports] is
    the trimmed text of the custom field: it is non-empty and, once all its
    white space is removed, a comma-separated list of port numbers and
    ranges; white space inside the text is sent as typed, so the request
    satisfies the invariant exactly when the text holds no white space.
    Every request the listener sends was built this way.  A request built
    by js/script1.js carries, when the port mode is custom, the text of the
    custom field as typed, non-empty and a port list up to white space in
    the same sense; otherwise it carries the port mode itself in [ports],
    and satisfies the invariant only when that token is empty. *)
Theorem C2_ports_invariant (f : Script.Form) (j : json)
  (f1 : Script1.Form) (j1 : json) :
  Script.buildRequest f = Script.Payload j ->
  Script1.buildRequest f1 = Script1.Payload j1 ->
  (field (js "port_mode") j = Some (JStr (Script.read_port_mode f))
   /\ (jsstring_eqb (Script.read_port_mode f) (js "custom") = false ->
       field (js "ports") j = Some (JStr [])
       /\ ports_invariant j = true)
   /\ (jsstring_eqb (Script.read_port_mode f) (js "custom") = true ->
       exists raw,
         Script.customPortsEl f = Some raw
         /\ field (js "ports") j = Some (JStr (trim raw))
         /\ str_falsy (trim raw) = false
         /\ port_list_grammar (strip_spaces (trim raw)) = true
         /\ ports_invariant j = negb (existsb is_space (trim raw)))
   /\ (forall net p, sent_since p (Script.scanForm_submit f net p) = [post j]))
  /\ (field (js "port_mode") j1 = Some (JStr (Script1.port_mode f1))
      /\ (jsstring_eqb (Script1.port_mode f1) (js "custom") = true ->
          field (js "ports") j1 = Some (JStr (Script1.custom_ports f1))
          /\ str_falsy (Script1.custom_ports f1) = false
          /\ port_list_grammar (strip_spaces (Script1.custom_ports f1)) = true
          /\ ports_invariant j1 = negb (existsb is_space (Script1.custom_ports f1)))
      /\ (jsstring_eqb (Script1.port_mode f1) (js "custom") = false ->
          field (js "ports") j1 = Some (JStr (Script1.port_mode f1))
          /\ ports_invariant j1 = str_falsy (Script1.port_mode f1))).
Proof.
  intros H H1. split.
  - assert (S : forall net p, sent_since p (Script.scanForm_submit f net p) = [post j]).
    { intros net p. unfold sent_since, Script.scanForm_submit. rewrite H.
      rewrite script_submitScan_requests.
      rewrite skipn_app, skipn_all, Nat.sub_diag. reflexivity. }
    unfold Script.buildRequest in H.
    destruct (Script.validateTarget (Script.read_target f)); [discriminate|].
    destruct (jsstring_eqb (Script.read_port_mode f) (js "custom")) eqn:C.
    + destruct (Script.validatePorts (Script.read_ports f)) eqn:V; [discriminate|].
      assert (G : accepts (Script.validatePorts (Script.read_ports f)) = true)
        by (rewrite V; reflexivity).
      rewrite script_validatePorts_grammar in G.
      assert (Ne : str_falsy (Script.read_ports f) = false).
      { destruct (Script.read_ports f); [discriminate V | reflexivity]. }
      assert (E : j = JObj [ (js "target", JStr (Script.read_target f));
                             (js "protocol", JStr (Script.read_protocol f));
                             (js "port_mode", JStr (Script.read_port_mode f));
                             (js "ports", JStr (Script.read_ports f)) ]).
      { destruct (Script.termsCheckbox f) as [[|]|]; try discriminate;
          injection H as <-; reflexivity. }
      subst j. rewrite contract_payload_invariant, C, Ne.
      destruct (contract_payload_fields (Script.read_target f) (Script.read_protocol f)
                  (Script.read_port_mode f) (Script.read_ports f)) as [-> ->].
      rewrite (port_list_up_to_space (Script.read_ports f) G).
      split; [reflexivity|]. split; [discriminate|]. split; [|exact S].
      intros _. revert Ne G. unfold Script.read_ports. rewrite C.
      destruct (Script.customPortsEl f) as [raw|]; [|discriminate].
      intros Ne G. exists raw. repeat split; assumption.
    + assert (E : j = JObj [ (js "target", JStr (Script.read_target f));
                             (js "protocol", JStr (Script.read_protocol f));
                             (js "port_mode", JStr (Script.read_port_mode f));
                             (js "ports", JStr []) ]).
      { destruct (Script.termsCheckbox f) as [[|]|]; try discriminate;
          injection H as <-; reflexivity. }
      subst j. rewrite contract_payload_invariant, C.
      destruct (contract_payload_fields (Script.read_target f) (Script.read_protocol f)
                  (Script.read_port_mode f) []) as [-> ->].
      split; [reflexivity|]. split; [intros _; split; reflexivity|].
      split; [discriminate | exact S].
  - unfold Script1.buildRequest in H1.
    destruct (Script1.isValid (Script1.check f1)) eqn:V; [|discriminate].
    destruct (Script1.protocol_checked f1) as [protocol|]; [|discriminate].
    simpl in H1. injection H1 as <-.
    rewrite contract_payload_invariant.
    destruct (contract_payload_fields (Script1.target_ip f1) protocol
                (Script1.port_mode f1) (Script1.portsToScan f1)) as [-> ->].
    unfold Script1.portsToScan, Script1.is_custom.
    split; [reflexivity|]. split.
    + intros C. rewrite C.
      unfold Script1.isValid, Script1.check, Script1.is_custom in V. simpl in V.
      rewrite C in V.
      destruct (Script1.validateTarget (Script1.target_ip f1)); [discriminate|].
      destruct (Script1.validatePorts (Script1.custom_ports f1)) eqn:VP; [discriminate|].
      assert (G : accepts (Script1.validatePorts (Script1.custom_ports f1)) = true)
        by (rewrite VP; reflexivity).
      rewrite script1_validatePorts_grammar in G.
      assert (Ne : str_falsy (Script1.custom_ports f1) = false).
      { destruct (Script1.custom_ports f1); [discriminate VP | reflexivity]. }
      rewrite Ne, (port_list_up_to_space (Script1.custom_ports f1) G).
      repeat split; assumption.
    + intros C. rewrite C. split; reflexivity.
Qed.

End SubmissionClaims.

(** C1 (counterexample): the request [handleScanSubmission] of
    js/scriptgemin.js sends for a valid form has the fields target_ip,
    protocol and ports_list, not target, protocol, port_mode and ports. *)
Lemma C1_counterexample_gemin_payload :
  map (fun r => field_names (body r))
      (requests (ScriptGemin.handleScanSubmission (B:=Examples.B0)
                   Examples.gemin_form FetchRejected (fresh_page (js "Start Scan"))))
  = [Some [js "target_ip"; js "protocol"; js "ports_list"]]
  /\ [js "target_ip"; js "protocol"; js "ports_list"] <> contract_fields.
Proof. split; [vm_compute; reflexivity | discriminate]. Qed.

(** C2 (counterexample): js/script1.js builds, for the preset port mode
    top100, a request whose [ports] is top100, not the empty string; and
    js/script.js sends a custom list with the white space typed inside it,
    so that [ports] is not a comma-separated list of numbers and ranges. *)
Lemma C2_counterexample_invariant_violated :
  (Script1.buildRequest (B:=Examples.B0) Examples.script1_form
   = Script1.Payload Examples.script1_payload
   /\ field (js "port_mode") Examples.script1_payload = Some (JStr (js "top100"))
   /\ field (js "ports") Examples.script1_payload = Some (JStr (js "top100"))
   /\ ports_invariant Examples.script1_payload = false)
  /\ (Script.buildRequest (B:=Examples.B0) Examples.script_form
      = Script.Payload Examples.script_payload
      /\ field (js "port_mode") Examples.script_payload = Some (JStr (js "custom"))
      /\ field (js "ports") Examples.script_payload
         = Some (JStr (js "21, 80 , 443-445"))
      /\ port_list_grammar (js "21, 80 , 443-445") = false
      /\ ports_invariant Examples.script_payload = false).
Proof. repeat split; vm_compute; reflexivity. Qed.

(** C2 (witness): the amended statement at two forms with custom ports. *)
Lemma C2_witness_custom_ports :
  Script.buildRequest (B:=Examples.B0) Examples.script_form
  = Script.Payload Examples.script_payload
  /\ Script1.buildRequest (B:=Examples.B0) Examples.script1_custom_form
     = Script1.Payload Examples.script_payload
  /\ exists raw,
       Script.customPortsEl Examples.script_form = Some raw
       /\ field (js "ports") Examples.script_payload = Some (JStr (trim raw))
       /\ str_falsy (trim raw) = false
       /\ port_list_grammar (strip_spaces (trim raw)) = true
       /\ ports_invariant Examples.script_payload
          = negb (existsb is_space (trim raw)).
Proof.
  assert (H : Script.buildRequest (B:=Examples.B0) Examples.script_form
              = Script.Payload Examples.script_payload) by (vm_compute; reflexivity).
  assert (H1 : Script1.buildRequest (B:=Examples.B0) Examples.script1_custom_form
               = Script1.Payload Examples.script_payload) by (vm_compute; reflexivity).
  split; [exact H|]. split; [exact H1|].
  exact (proj1 (proj2 (proj2
           (proj1 (C2_ports_invariant Examples.script_form Examples.script_payload
                     Examples.script1_custom_form Examples.script_payload H H1))))
           eq_refl).
Defined.

Section OutcomeClaims.
Context {B : Builtins}.

(** C3 (amended): on a success status with a decodable body,
    js/script.js stores the body under ['scanResults'] in sessionStorage
    and navigates to the results view, for every body; js/script1.js does
    the same with localStorage and leaves sessionStorage alone;
    [handleScanSubmission] of js/scriptgemin.js stores the body in
    sessionStorage and navigates only when the body is not [null] and has
    no truthy [error] property, and otherwise stores nothing, does not
    navigate and alerts. *)
Theorem C3_success_outcome (d body : json) (status : N) (p : Page) (b : Button)
  (f : ScriptGemin.Form) (protocol : jsstring) :
  response_ok status = true ->
  startButton p = Some b ->
  ScriptGemin.validateForm f = true ->
  ScriptGemin.protocol_checked f = Some protocol ->
  let net := FetchResponse status (Some body) in
  (session_scanResults (Script.submitScan d net p) = Some body
   /\ local_scanResults (Script.submitScan d net p) = local_scanResults p
   /\ navigations (Script.submitScan d net p) = navigations p ++ [js "results.html"]
   /\ alerts (Script.submitScan d net p) = alerts p)
  /\ (local_scanResults (Script1.submitScan d net p) = Some body
      /\ session_scanResults (Script1.submitScan d net p) = session_scanResults p
      /\ navigations (Script1.submitScan d net p) = navigations p ++ [js "results.html"]
      /\ alerts (Script1.submitScan d net p) = alerts p)
  /\ (let q := ScriptGemin.handleScanSubmission f net p in
      local_scanResults q = local_scanResults p
      /\ match get body (js "error") with
         | Normal e =>
             if truthy e then
               session_scanResults q = session_scanResults p
               /\ navigations q = navigations p
               /\ exists msg, alerts q = alerts p ++ [msg]
             else
               session_scanResults q = Some body
               /\ navigations q = navigations p ++ [js "results.html"]
               /\ alerts q = alerts p
         | Throw =>
             session_scanResults q = session_scanResults p
             /\ navigations q = navigations p
             /\ alerts q = alerts p ++ [ScriptGemin.msg_network]
         end).
Proof.
  intros Hok Hb Hv Hp net. subst net. split; [|split].
  - open_script. rewrite Hb. simpl. rewrite Hok. simpl. repeat split.
  - open_script1. rewrite Hb. simpl. rewrite Hok. simpl. repeat split.
  - open_gemin. rewrite Hv, Hp, Hb. simpl. rewrite Hok. simpl.
    destruct (get body (js "error")) as [e|]; simpl.
    + destruct (truthy e); simpl.
      * destruct (template e); simpl; repeat split; eauto.
      * repeat split.
    + repeat split.
Qed.

(** C4 (amended): for every outcome of the request, while the [try] block
    runs the submit control is disabled and shows the busy label, and
    when [submitScan] returns it is enabled again; js/script.js sets its
    label back to the one saved at the start, or to Start Scan when that
    one was empty, and js/script1.js sets it to the fixed text Start Scan
    and removes the loading class. *)
Theorem C4_submit_control_released (d : json) (net : FetchResult) (p : Page) (b : Button) :
  startButton p = Some b ->
  (startButton (Script.catch_block (Script.try_block d net (Script.acquire p)))
   = Some {| disabled := true; label := Script.busy_label;
             originalText := Some (label b); loading := loading b |}
   /\ startButton (Script.submitScan d net p)
      = Some {| disabled := false;
                label := if str_falsy (label b) then Script.default_label else label b;
                originalText := Some (label b); loading := loading b |})
  /\ (startButton (Script1.catch_block
                     (Script1.try_block d net (with_button (Some (Script1.busy b)) p)))
      = Some {| disabled := true; label := Script1.busy_label;
                originalText := originalText b; loading := true |}
      /\ startButton (Script1.submitScan d net p)
         = Some {| disabled := false; label := Script1.default_label;
                   originalText := originalText b; loading := false |}).
Proof.
  intros Hb. split; split.
  - open_script. rewrite Hb. page_cases; reflexivity.
  - open_script. rewrite Hb. page_cases; reflexivity.
  - open_script1. page_cases; reflexivity.
  - open_script1. rewrite Hb. page_cases; reflexivity.
Qed.

(** C6 (amended): when the response has a non-success status or its body
    does not decode, every script leaves both storages untouched, does not
    navigate, shows exactly one alert and re-enables the submit control.
    With a non-success status and a decoded object, js/script.js and
    js/script1.js alert the [error] property when it is a non-empty
    string; without an [error] property js/script.js alerts a message
    built from the status code and js/script1.js a fixed message.  A body
    that does not decode makes them alert the network-error message, and
    [handleScanSubmission] of js/scriptgemin.js alerts that message in
    every one of these cases, whatever the body says. *)
Theorem C6_failure_outcome (d : json) (status : N) (body : option json) (p : Page)
  (b : Button) (f : ScriptGemin.Form) (protocol : jsstring) :
  response_ok status = false \/ body = None ->
  startButton p = Some b ->
  ScriptGemin.validateForm f = true ->
  ScriptGemin.protocol_checked f = Some protocol ->
  let net := FetchResponse status body in
  let q := Script.submitScan d net p in
  let q1 := Script1.submitScan d net p in
  let qg := ScriptGemin.handleScanSubmission f net p in
  (session_scanResults q = session_scanResults p
   /\ local_scanResults q = local_scanResults p
   /\ navigations q = navigations p
   /\ (exists msg, alerts q = alerts p ++ [msg])
   /\ option_map disabled (startButton q) = Some false)
  /\ (session_scanResults q1 = session_scanResults p
      /\ local_scanResults q1 = local_scanResults p
      /\ navigations q1 = navigations p
      /\ (exists msg, alerts q1 = alerts p ++ [msg])
      /\ option_map disabled (startButton q1) = Some false)
  /\ (session_scanResults qg = session_scanResults p
      /\ local_scanResults qg = local_scanResults p
      /\ navigations qg = navigations p
      /\ alerts qg = alerts p ++ [ScriptGemin.msg_network]
      /\ option_map disabled (startButton qg) = Some false)
  /\ (forall fs m,
        body = Some (JObj fs) -> assoc (js "error") fs = Some (JStr m) ->
        str_falsy m = false ->
        alerts q = alerts p ++ [js "Scan Error: " ++ m]
        /\ alerts q1 = alerts p ++ [js "Scan Error: " ++ m])
  /\ (forall fs,
        body = Some (JObj fs) -> assoc (js "error") fs = None ->
        alerts q = alerts p ++ [js "Scan Error: " ++ js "Scan failed with status "
                                ++ decimal status]
        /\ alerts q1 = alerts p ++ [js "Scan Error: " ++ Script1.msg_unknown])
  /\ (body = None ->
      alerts q = alerts p ++ [Script.msg_network]
      /\ alerts q1 = alerts p ++ [Script1.msg_network]).
Proof.
  intros H Hb Hv Hp net q q1 qg. subst net q q1 qg.
  split; [|split; [|split; [|split; [|split]]]].
  - open_script. rewrite Hb.
    destruct H as [H| ->]; [rewrite ?H|]; page_cases; repeat split; eauto.
  - open_script1. rewrite Hb.
    destruct H as [H| ->]; [rewrite ?H|]; page_cases; repeat split; eauto.
  - open_gemin. rewrite Hv, Hp, Hb.
    destruct H as [H| ->]; [rewrite ?H|]; page_cases; repeat split; eauto.
  - intros fs m -> Hm Hne. destruct H as [H|H]; [|discriminate].
    assert (T : truthy (Some (JStr m)) = true)
      by (unfold truthy; rewrite Hne; reflexivity).
    split.
    + open_script. rewrite Hb. simpl. rewrite H. simpl.
      unfold get. rewrite Hm. unfold or_else. rewrite T. reflexivity.
    + open_script1. rewrite Hb. simpl. rewrite H.
      unfold get. rewrite Hm. unfold or_else. rewrite T. reflexivity.
  - intros fs -> Hm. destruct H as [H|H]; [|discriminate].
    split.
    + open_script. rewrite Hb. simpl. rewrite H. simpl.
      unfold get. rewrite Hm. reflexivity.
    + open_script1. rewrite Hb. simpl. rewrite H.
      unfold get. rewrite Hm. reflexivity.
  - intros ->. split.
    + open_script. rewrite Hb. reflexivity.
    + open_script1. rewrite Hb. reflexivity.
Qed.

End OutcomeClaims.

(** C3 (counterexample): with status 200 and the decodable body
    [{ error: host unreachable }], [handleScanSubmission] of
    js/scriptgemin.js stores nothing and does not navigate; and
    js/script1.js leaves sessionStorage empty on a stored result, which it
    writes to localStorage. *)
Lemma C3_counterexample_gemin_error_field :
  response_ok 200 = true
  /\ (let q := ScriptGemin.handleScanSubmission (B:=Examples.B0) Examples.gemin_form
                 (FetchResponse 200 (Some Examples.error_body))
                 (fresh_page (js "Start Scan")) in
      session_scanResults q = None /\ navigations q = []
      /\ alerts q = [js "Scan Error: host unreachable"])
  /\ (let q1 := Script1.submitScan (B:=Examples.B0) Examples.payload
                  (FetchResponse 200 (Some Examples.result_body))
                  (fresh_page (js "Start Scan")) in
      session_scanResults q1 = None
      /\ local_scanResults q1 = Some Examples.result_body).
Proof. repeat split; vm_compute; reflexivity. Qed.

(** C3 (witness): the amended statement at status 200 with a scan result. *)
Lemma C3_witness_stored_result :
  response_ok 200 = true
  /\ startButton (fresh_page (B:=Examples.B0) (js "Start Scan"))
     = Some {| disabled := false; label := js "Start Scan";
               originalText := None; loading := false |}
  /\ ScriptGemin.validateForm Examples.gemin_form = true
  /\ ScriptGemin.protocol_checked Examples.gemin_form = Some (js "tcp")
  /\ session_scanResults
       (Script.submitScan Examples.payload
          (FetchResponse 200 (Some Examples.result_body))
          (fresh_page (js "Start Scan")))
     = Some Examples.result_body.
Proof.
  split; [reflexivity|]. split; [reflexivity|]. split; [reflexivity|].
  split; [reflexivity|].
  exact (proj1 (proj1 (C3_success_outcome (B:=Examples.B0)
                         Examples.payload Examples.result_body 200
                         (fresh_page (js "Start Scan"))
                         {| disabled := false; label := js "Start Scan";
                            originalText := None; loading := false |}
                         Examples.gemin_form (js "tcp")
                         eq_refl eq_refl eq_refl eq_refl))).
Defined.

(** C4 (counterexample): js/script1.js leaves a button that was labelled
    Go with the label Start Scan, and js/script.js leaves a button whose
    label was empty with the label Start Scan: the label is not restored. *)
Lemma C4_counterexample_label_not_restored :
  option_map label
    (startButton (Script1.submitScan (B:=Examples.B0) Examples.payload
                    FetchRejected (fresh_page (js "Go"))))
  = Some (js "Start Scan")
  /\ js "Start Scan" <> js "Go"
  /\ option_map label
       (startButton (Script.submitScan (B:=Examples.B0) Examples.payload
                       FetchRejected (fresh_page empty)))
     = Some (js "Start Scan")
  /\ js "Start Scan" <> empty.
Proof. repeat split; try discriminate; vm_compute; reflexivity. Qed.

(** C4 (witness): the amended statement at a button labelled Start Scan
    and a request that fails in transport. *)
Lemma C4_witness_start_scan_button :
  startButton (fresh_page (B:=Examples.B0) (js "Start Scan"))
  = Some {| disabled := false; label := js "Start Scan";
            originalText := None; loading := false |}
  /\ startButton (Script.submitScan Examples.payload FetchRejected
                    (fresh_page (js "Start Scan")))
     = Some {| disabled := false; label := js "Start Scan";
               originalText := Some (js "Start Scan"); loading := false |}.
Proof.
  split; [reflexivity|].
  exact (proj2 (proj1 (C4_submit_control_released (B:=Examples.B0)
                         Examples.payload FetchRejected
                         (fresh_page (js "Start Scan"))
                         {| disabled := false; label := js "Start Scan";
                            originalText := None; loading := false |}
                         eq_refl))).
Defined.

(** C6 (counterexample): on status 500 with the body
    [{ error: host unreachable }], [handleScanSubmission] of
    js/scriptgemin.js reports the network-error message, not the [error]
    field; on status 500 with a body that does not decode js/script.js
    reports the network-error message, and on status 500 with the body
    [{}] js/script1.js reports a fixed message: neither is built from the
    status code. *)
Lemma C6_counterexample_messages :
  response_ok 500 = false
  /\ alerts (ScriptGemin.handleScanSubmission (B:=Examples.B0) Examples.gemin_form
               (FetchResponse 500 (Some Examples.error_body))
               (fresh_page (js "Start Scan")))
     = [ScriptGemin.msg_network]
  /\ alerts (Script.submitScan (B:=Examples.B0) Examples.payload
               (FetchResponse 500 None) (fresh_page (js "Start Scan")))
     = [Script.msg_network]
  /\ alerts (Script1.submitScan (B:=Examples.B0) Examples.payload
               (FetchResponse 500 (Some (JObj []))) (fresh_page (js "Start Scan")))
     = [js "Scan Error: An unknown error occurred during scanning."].
Proof. repeat split; vm_compute; reflexivity. Qed.

(** C6 (witness): the amended statement at status 500 with an error body. *)
Lemma C6_witness_backend_error :
  (response_ok 500 = false \/ Some Examples.error_body = None)
  /\ startButton (fresh_page (B:=Examples.B0) (js "Start Scan"))
     = Some {| disabled := false; label := js "Start Scan";
               originalText := None; loading := false |}
  /\ ScriptGemin.validateForm Examples.gemin_form = true
  /\ ScriptGemin.protocol_checked Examples.gemin_form = Some (js "tcp")
  /\ session_scanResults
       (Script.submitScan Examples.payload
          (FetchResponse 500 (Some Examples.error_body))
          (fresh_page (js "Start Scan")))
     = None.
Proof.
  split; [left; reflexivity|]. split; [reflexivity|]. split; [reflexivity|].
  split; [reflexivity|].
  exact (proj1 (proj1 (C6_failure_outcome (B:=Examples.B0)
                         Examples.payload 500 (Some Examples.error_body)
                         (fresh_page (js "Start Scan"))
                         {| disabled := false; label := js "Start Scan";
                            originalText := None; loading := false |}
                         Examples.gemin_form (js "tcp")
                         (or_introl eq_refl) eq_refl eq_refl eq_refl))).
Defined.

(** ** The results view *)

Section RenderClaims.
Context {B : Builtins}.

(** When the loader of js/script.js completes on an object, every summary
    element holds the text of its expression. *)
Lemma script_summary_complete (fs : list (jsstring * json)) (v : View) :
  snd (Script.populate_summary (JObj fs) v) = Normal tt ->
  scan_duration_text (Script.loadResultsPage (Some (JObj fs)) v)
  = Script.duration_text (assoc (js "scan_duration") fs)
  /\ protocol_used_text (Script.loadResultsPage (Some (JObj fs)) v)
     = Script.protocol_text (assoc (js "protocol") fs)
  /\ ports_scanned_text (Script.loadResultsPage (Some (JObj fs)) v)
     = dom_string (Script.ports_label (assoc (js "ports_list") fs)
                     (assoc (js "port_mode") fs)).
Proof.
  unfold Script.loadResultsPage, Script.populate_summary, bind, lift, lift_option,
    ret, raise, get.
  destruct (Script.target_text _ _); simpl; [|discriminate].
  destruct (Script.length_text _); simpl; [|discriminate].
  destruct (Script.duration_text _); simpl; [|discriminate].
  destruct (Script.protocol_text _); simpl; [|discriminate].
  destruct (dom_string _); simpl; [|discriminate].
  intros _. repeat split.
Qed.

Lemma gemin_object_truthy (fs : list (jsstring * json)) :
  negb (truthy (Some (JObj fs))) = false.
Proof. reflexivity. Qed.

(** When the loader of js/scriptgemin.js completes on an object, likewise. *)
Lemma gemin_summary_complete (fs : list (jsstring * json)) (v : View) :
  snd (ScriptGemin.loadResultsPage (Some (JObj fs)) v) = Normal tt ->
  scan_duration_text (fst (ScriptGemin.loadResultsPage (Some (JObj fs)) v))
  = ScriptGemin.duration_text (assoc (js "scan_duration") fs)
  /\ protocol_used_text (fst (ScriptGemin.loadResultsPage (Some (JObj fs)) v))
     = ScriptGemin.protocol_text (assoc (js "protocol") fs)
  /\ ports_scanned_text (fst (ScriptGemin.loadResultsPage (Some (JObj fs)) v))
     = ScriptGemin.ports_text (assoc (js "ports_list") fs).
Proof.
  unfold ScriptGemin.loadResultsPage, ScriptGemin.populate_summary, bind, lift,
    lift_option, ret, raise, get.
  cbv zeta. rewrite (gemin_object_truthy fs).
  destruct (ScriptGemin.target_text _); simpl; [|discriminate].
  destruct (ScriptGemin.length_text _); simpl; [|discriminate].
  destruct (ScriptGemin.duration_text _); simpl; [|discriminate].
  destruct (ScriptGemin.protocol_text _); simpl; [|discriminate].
  destruct (ScriptGemin.ports_text _); simpl; [|discriminate].
  intros _. repeat split.
Qed.

(** Without a numeric duration the loader of js/scriptgemin.js raises and
    leaves the duration element as it was. *)
Lemma gemin_duration_no_fallback (fs : list (jsstring * json)) (v : View) :
  ScriptGemin.duration_text (assoc (js "scan_duration") fs) = None ->
  snd (ScriptGemin.loadResultsPage (Some (JObj fs)) v) = Throw
  /\ scan_duration_text (fst (ScriptGemin.loadResultsPage (Some (JObj fs)) v))
     = scan_duration_text v.
Proof.
  intros H.
  unfold ScriptGemin.loadResultsPage, ScriptGemin.populate_summary, bind, lift,
    lift_option, ret, raise, get.
  cbv zeta. rewrite (gemin_object_truthy fs).
  destruct (ScriptGemin.target_text _); simpl; [|split; reflexivity].
  destruct (ScriptGemin.length_text _); simpl; [|split; reflexivity].
  rewrite H. simpl. split; reflexivity.
Qed.

Lemma keep_digits_integer (n : jsstring) :
  forallb is_digit n = true -> keep_digits n = n.
Proof.
  unfold keep_digits. induction n as [|c n IH]; simpl; [reflexivity|].
  intros H. apply andb_true_iff in H as [H1 H2]. rewrite H1, (IH H2). reflexivity.
Qed.

Lemma script_ports_label_top (n : jsstring) (port_mode : jsvalue) :
  is_integer n = true ->
  Script.ports_label (Some (JStr (js "top" ++ n))) port_mode
  = Some (JStr (js "Top " ++ n ++ js " ports")).
Proof.
  unfold is_integer. intros H. apply andb_true_iff in H as [Hne Hd].
  unfold Script.ports_label.
  change (or_else (or_else (Some (JStr (js "top" ++ n))) port_mode)
            (Some (JStr (js "N/A"))))
    with (Some (JStr (js "top" ++ n))).
  change (startsWith (js "top" ++ n) (js "top")) with true. cbv iota.
  change (keep_digits (js "top" ++ n)) with (keep_digits n).
  rewrite (keep_digits_integer n Hd).
  destruct n; [discriminate Hne | reflexivity].
Qed.

Lemma gemin_ports_label_top (n : jsstring) :
  is_integer n = true ->
  ScriptGemin.ports_label (js "top_" ++ n) = js "Top " ++ n ++ js " Ports".
Proof.
  intros H. unfold ScriptGemin.ports_label.
  change (startsWith (js "top_" ++ n) (js "top_")) with true. cbv iota.
  change (js "top_" ++ n) with (js "top" ++ cu "_" :: n).
  rewrite split_on_app by reflexivity.
  rewrite split_on_free; [reflexivity|].
  unfold is_integer in H. apply andb_true_iff in H as [_ H].
  unfold free_of. revert H. clear.
  induction n as [|c n IH]; simpl; [reflexivity|].
  intros H. apply andb_true_iff in H as [H1 H2].
  apply andb_true_iff. split; [class_arith | exact (IH H2)].
Qed.

(** C9 (amended): for every stored result that is an object and on which
    the loader of js/script.js completes without an exception, the
    duration is shown as [toFixed(2)] followed by s when it is a number,
    as the value itself when it is another truthy value and as N/A when it
    is falsy; the protocol is shown uppercased when it is a non-empty
    string and as the uppercased default tcp when it is falsy; and a ports
    label top followed by digits N is shown as Top N ports.  The loader of
    js/scriptgemin.js has no fallback: it raises on a duration that is not
    a number; it shows the protocol uppercased, maps only a label top_N,
    to Top N Ports, and shows every label that does not start with top_
    unchanged. *)
Theorem C9_summary_fields (fs : list (jsstring * json)) (v : View) :
  snd (Script.populate_summary (JObj fs) v) = Normal tt ->
  let shown := Script.loadResultsPage (Some (JObj fs)) v in
  let duration := assoc (js "scan_duration") fs in
  let protocol := assoc (js "protocol") fs in
  (forall x, duration = Some (JNum x) ->
             scan_duration_text shown = Some (Number_toFixed2 x ++ js "s"))
  /\ ((forall x, duration <> Some (JNum x)) ->
      scan_duration_text shown
      = if truthy duration then dom_string duration else Some (js "N/A"))
  /\ (forall s, protocol = Some (JStr s) -> str_falsy s = false ->
                protocol_used_text shown = Some (toUpperCase s))
  /\ (truthy protocol = false ->
      protocol_used_text shown = Some (toUpperCase (js "tcp")))
  /\ (forall n, is_integer n = true ->
                assoc (js "ports_list") fs = Some (JStr (js "top" ++ n)) ->
                ports_scanned_text shown = Some (js "Top " ++ n ++ js " ports"))
  /\ (forall gs w,
        let shown_g := ScriptGemin.loadResultsPage (Some (JObj gs)) w in
        ((forall x, assoc (js "scan_duration") gs <> Some (JNum x)) ->
         snd shown_g = Throw
         /\ scan_duration_text (fst shown_g) = scan_duration_text w)
        /\ (snd shown_g = Normal tt ->
            exists x s l,
              assoc (js "scan_duration") gs = Some (JNum x)
              /\ assoc (js "protocol") gs = Some (JStr s)
              /\ assoc (js "ports_list") gs = Some (JStr l)
              /\ scan_duration_text (fst shown_g) = Some (Number_toFixed2 x ++ js "s")
              /\ protocol_used_text (fst shown_g) = Some (toUpperCase s)
              /\ ports_scanned_text (fst shown_g) = Some (ScriptGemin.ports_label l)))
  /\ (forall n, is_integer n = true ->
                ScriptGemin.ports_label (js "top_" ++ n) = js "Top " ++ n ++ js " Ports")
  /\ (forall l, startsWith l (js "top_") = false -> ScriptGemin.ports_label l = l).
Proof.
  intros H. cbv zeta.
  destruct (script_summary_complete fs v H) as (Hd & Hp & Hl).
  split; [|split; [|split; [|split; [|split; [|split; [|split]]]]]].
  - intros x E. rewrite Hd, E. reflexivity.
  - intros E. rewrite Hd. unfold Script.duration_text, or_else.
    destruct (assoc (js "scan_duration") fs) as [[|b|x|l|l|l]|]; try reflexivity.
    + destruct b; reflexivity.
    + exfalso. exact (E x eq_refl).
    + unfold truthy. destruct (negb (str_falsy l)); reflexivity.
  - intros s E Hs. rewrite Hp, E. unfold Script.protocol_text, or_else, truthy.
    rewrite Hs. reflexivity.
  - intros E. rewrite Hp. unfold Script.protocol_text, or_else. rewrite E.
    reflexivity.
  - intros n Hn E. rewrite Hl, E, (script_ports_label_top n _ Hn). reflexivity.
  - intros gs w. cbv zeta. split.
    + intros E. apply gemin_duration_no_fallback.
      unfold ScriptGemin.duration_text.
      destruct (assoc (js "scan_duration") gs) as [[| |x| | |]|]; try reflexivity.
      exfalso. exact (E x eq_refl).
    + intros Hg. destruct (gemin_summary_complete gs w Hg) as (Gd & Gp & Gl).
      assert (Gd' : ScriptGemin.duration_text (assoc (js "scan_duration") gs) <> None).
      { intros N. destruct (gemin_duration_no_fallback gs w N) as [T _].
        congruence. }
      destruct (assoc (js "scan_duration") gs) as [[| |x| | |]|] eqn:Ed;
        try (exfalso; apply Gd'; reflexivity).
      revert Hg Gp Gl.
      unfold ScriptGemin.loadResultsPage, ScriptGemin.populate_summary,
        bind, lift, lift_option, ret, raise, get.
      cbv zeta. rewrite (gemin_object_truthy gs), Ed.
      destruct (ScriptGemin.target_text _); simpl; [|discriminate].
      destruct (ScriptGemin.length_text _); simpl; [|discriminate].
      destruct (assoc (js "protocol") gs) as [[| | |s| |]|]; simpl; try discriminate.
      destruct (assoc (js "ports_list") gs) as [[| | |l| |]|]; simpl; try discriminate.
      intros _ Gp Gl. exists x, s, l. repeat split; assumption.
  - exact gemin_ports_label_top.
  - intros l E. unfold ScriptGemin.ports_label. rewrite E. reflexivity.
Qed.

End RenderClaims.

(** C9 (counterexample): on a stored result whose duration is the string
    fast, the loader of js/scriptgemin.js raises and shows no duration, no
    protocol and no ports label; on a stored result with a numeric duration
    and the ports label top100 it shows top100, not Top 100 ports. *)
Lemma C9_counterexample_gemin_loader :
  ScriptGemin.loadResultsPage (Some Examples.result_body_text_duration) blank_view
  = ({| target_ip_text := Some (js "10.0.0.5");
        open_ports_count_text := Some (js "0");
        scan_duration_text := None;
        protocol_used_text := None;
        ports_scanned_text := None |}, Throw)
  /\ ports_scanned_text
       (fst (ScriptGemin.loadResultsPage (Some Examples.result_body) blank_view))
     = Some (js "top100")
  /\ js "top100" <> js "Top 100 ports".
Proof. repeat split; try discriminate; vm_compute; reflexivity. Qed.

(** C9 (witness): the amended statement at a stored result with duration 2,
    protocol tcp and ports label top100. *)
Lemma C9_witness_stored_result :
  snd (Script.populate_summary Examples.result_body blank_view) = Normal tt
  /\ scan_duration_text (Script.loadResultsPage (Some Examples.result_body) blank_view)
     = Some (js "2.00s")
  /\ protocol_used_text (Script.loadResultsPage (Some Examples.result_body) blank_view)
     = Some (js "TCP")
  /\ ports_scanned_text (Script.loadResultsPage (Some Examples.result_body) blank_view)
     = Some (js "Top 100 ports").
Proof.
  assert (H : snd (Script.populate_summary Examples.result_body blank_view) = Normal tt)
    by (vm_compute; reflexivity).
  split; [exact H|].
  pose proof (C9_summary_fields (B:=Examples.B0) _ blank_view H)
    as (Hd & _ & Hp & _ & Hl & _).
  split; [exact (Hd 2%Z eq_refl)|].
  split; [exact (Hp (js "tcp") eq_refl eq_refl)|].
  exact (Hl (js "100") eq_refl eq_refl).
Defined.


(** * Further properties of the scripts *)

(** ** What the validators accept *)

Lemma In_dropWhile (p : codeunit -> bool) (x : codeunit) (s : jsstring) :
  In x (dropWhile p s) -> In x s.
Proof.
  induction s as [|c s IH]; simpl; [tauto|].
  destruct (p c); simpl; tauto.
Qed.

Lemma In_trim (x : codeunit) (s : jsstring) : In x (trim s) -> In x s.
Proof.
  unfold trim. intros H. apply in_rev in H. apply In_dropWhile in H.
  apply in_rev in H. apply In_dropWhile in H. exact H.
Qed.

Lemma forallb_trim (p : codeunit -> bool) (s : jsstring) :
  forallb p s = true -> forallb p (trim s) = true.
Proof.
  rewrite !forallb_forall. intros H x Hx. apply H, In_trim, Hx.
Qed.

Lemma charset_not_space (c : codeunit) : target_charset c = true -> is_space c = false.
Proof. intros H. class_arith. Qed.

Lemma test_ipv6_alt (s : jsstring) : test ipv6_alt s = bracketed_ipv6 s.
Proof.
  apply eq_true_iff_eq. rewrite test_Matches. unfold ipv6_alt. split.
  - intros H. apply Matches_Cat_inv in H as (u & v & -> & Hu & Hv).
    apply Matches_Chr_inv in Hu. subst u.
    apply Matches_Cat_inv in Hv as (h & w & -> & Hh & Hw).
    apply Matches_Chr_inv in Hw. subst w.
    apply Matches_Plus_Class in Hh as [Hne Hh].
    simpl app. unfold bracketed_ipv6.
    rewrite last_last, removelast_last, Hh.
    destruct h; [congruence|]. vm_compute. reflexivity.
  - unfold bracketed_ipv6. destruct s as [|c rest]; [discriminate|].
    intros H.
    apply andb_true_iff in H as [H Hh].
    apply andb_true_iff in H as [H Hne].
    apply andb_true_iff in H as [Hc Hl].
    unfold is_char in Hc, Hl. apply N.eqb_eq in Hc, Hl. subst c.
    assert (Hr : rest <> []).
    { intros ->. simpl in Hl. vm_compute in Hl. discriminate. }
    assert (Er : rest = removelast rest ++ [cu "]"]).
    { etransitivity; [exact (app_removelast_last 0%N Hr)|].
      f_equal. f_equal. exact Hl. }
    set (h := removelast rest) in *. rewrite Er.
    apply (MCat (Matches_Chr "[")).
    apply MCat; [|apply Matches_Chr].
    apply Matches_Plus_Class. split; [|exact Hh].
    destruct h; [discriminate | discriminate].
Qed.

Lemma bracketed_not_blank (s : jsstring) :
  bracketed_ipv6 s = true -> str_falsy (trim s) = false.
Proof.
  intros H. apply not_true_is_false. rewrite trim_falsy_iff.
  destruct s as [|c rest]; [discriminate|]. simpl in *.
  apply andb_true_iff in H as [H _]. apply andb_true_iff in H as [H _].
  apply andb_true_iff in H as [H _].
  assert (E : is_space c = false) by class_arith.
  rewrite E. discriminate.
Qed.

Lemma hostname_not_blank (s : jsstring) :
  negb (str_falsy s) && forallb hostname_char s = true -> str_falsy (trim s) = false.
Proof.
  intros H. apply andb_true_iff in H as [H1 H2].
  rewrite forallb_hostname_char in H2.
  apply hostname_chars_not_blank; [|exact H2].
  destruct s; [discriminate | discriminate].
Qed.

Lemma targetRegex_language (s : jsstring) :
  test Script.targetRegex s
  = (negb (str_falsy s) && forallb hostname_char s) || bracketed_ipv6 s
  /\ test Script1.targetRegex s
     = (negb (str_falsy s) && forallb hostname_char s) || bracketed_ipv6 s.
Proof.
  unfold Script.targetRegex, Script1.targetRegex.
  rewrite !test_Alt, test_hostname_alt, test_ipv6_alt.
  change (forallb hostname_char s) with (forallb host_class s).
  destruct (test ipv4_alt s) eqn:E.
  - pose proof (ipv4_is_hostname s E) as H.
    rewrite test_hostname_alt in H. rewrite H. split; reflexivity.
  - rewrite orb_false_r. split; reflexivity.
Qed.

(** X1: [validateTarget] of js/script.js and of js/script1.js accepts a
    string exactly when it is a non-empty string of letters, digits, dots
    and hyphens, or a bracketed literal of hexadecimal digits and colons. *)
Theorem X1_validateTarget_accepts_exactly (s : jsstring) :
  accepts (Script.validateTarget s)
  = (negb (str_falsy s) && forallb hostname_char s) || bracketed_ipv6 s
  /\ accepts (Script1.validateTarget s)
     = (negb (str_falsy s) && forallb hostname_char s) || bracketed_ipv6 s.
Proof.
  destruct (targetRegex_language s) as [E E1].
  unfold Script.validateTarget, Script1.validateTarget.
  rewrite E, E1.
  destruct ((negb (str_falsy s) && forallb hostname_char s) || bracketed_ipv6 s) eqn:A.
  - assert (T : str_falsy (trim s) = false).
    { apply orb_true_iff in A as [A|A];
        [apply hostname_not_blank | apply bracketed_not_blank]; exact A. }
    rewrite T, (nonblank_nonempty s T). split; reflexivity.
  - destruct (str_falsy s || str_falsy (trim s)), (str_falsy (trim s)); split; reflexivity.
Qed.

Lemma accepts_None (e : option jsstring) : accepts e = true <-> e = None.
Proof. destruct e; simpl; split; congruence. Qed.

Lemma charset_no_space (t : jsstring) :
  forallb target_charset t = true -> existsb is_space t = false.
Proof.
  induction t as [|c t IH]; simpl; [reflexivity|].
  intros H. apply andb_true_iff in H as [H1 H2].
  rewrite (charset_not_space c H1), (IH H2). reflexivity.
Qed.

Lemma accepted_target_clean (t : jsstring) :
  Script.validateTarget t = None \/ Script1.validateTarget t = None ->
  t <> [] /\ forallb target_charset t = true /\ existsb is_space t = false.
Proof.
  destruct targetRegex_within_charset as [W W1].
  assert (K : Script.validateTarget t = None \/ Script1.validateTarget t = None ->
              t <> [] /\ forallb target_charset t = true).
  { intros [H|H].
    - unfold Script.validateTarget in H.
      destruct (str_falsy t || str_falsy (trim t)) eqn:E; [discriminate|].
      destruct (test Script.targetRegex t) eqn:T; [|discriminate].
      split; [intros ->; discriminate E|].
      apply test_Matches in T. exact (Matches_within _ _ _ W T).
    - unfold Script1.validateTarget in H.
      destruct (str_falsy (trim t)) eqn:E; [discriminate|].
      destruct (test Script1.targetRegex t) eqn:T; [|discriminate].
      split; [intros ->; discriminate E|].
      apply test_Matches in T. exact (Matches_within _ _ _ W1 T). }
  intros H. destruct (K H) as [K1 K2].
  split; [exact K1|]. split; [exact K2 | exact (charset_no_space t K2)].
Qed.

Section BuilderProperties.
Context {B : Builtins}.


(** X3: [validateForm] of js/scriptgemin.js looks at the host only to see
    that it is not blank: replacing a non-blank host by any other non-blank
    text does not change its verdict, and the request carries the trimmed
    text, whatever characters it holds. *)
Theorem X3_gemin_host_is_unchecked (f : ScriptGemin.Form) (h protocol : jsstring) :
  str_falsy (trim h) = false ->
  str_falsy (trim (ScriptGemin.ip_host f)) = false ->
  ScriptGemin.validateForm (with_ip_host h f) = ScriptGemin.validateForm f
  /\ field (js "target_ip") (ScriptGemin.scanData (with_ip_host h f) protocol)
     = Some (JStr (trim h)).
Proof.
  intros Hh Hf. split; [|reflexivity].
  unfold ScriptGemin.validateForm, ScriptGemin.check_ip_host, with_ip_host,
    ScriptGemin.is_custom.
  simpl. rewrite Hh, Hf. reflexivity.
Qed.

End BuilderProperties.


(** X3 (witness): a host with shell metacharacters in the example form. *)
Lemma X3_witness_shell_command :
  str_falsy (trim (js "x; cat /etc/passwd")) = false
  /\ str_falsy (trim (ScriptGemin.ip_host Examples.gemin_form)) = false
  /\ ScriptGemin.validateForm (with_ip_host (js "x; cat /etc/passwd") Examples.gemin_form)
     = true
  /\ field (js "target_ip")
       (ScriptGemin.scanData (B:=Examples.B0)
          (with_ip_host (js "x; cat /etc/passwd") Examples.gemin_form) (js "tcp"))
     = Some (JStr (js "x; cat /etc/passwd")).
Proof.
  split; [reflexivity|]. split; [reflexivity|].
  destruct (X3_gemin_host_is_unchecked (B:=Examples.B0) Examples.gemin_form
              (js "x; cat /etc/passwd") (js "tcp") eq_refl eq_refl) as [K1 K2].
  split; [exact K1 | exact K2].
Defined.

(** ** Port lists *)

Lemma token_accepted (t : jsstring) :
  Matches port_token t ->
  Script.validatePorts t = None /\ Script1.validatePorts t = None.
Proof.
  intros M.
  assert (S : strip_spaces t = t).
  { pose proof (port_token_no_space t M) as N. clear M.
    unfold strip_spaces. induction t as [|c t IH]; simpl in *; [reflexivity|].
    apply andb_true_iff in N as [N1 N2]. rewrite N1, (IH N2). reflexivity. }
  assert (G : port_list_grammar t = true).
  { unfold port_list_grammar.
    rewrite (split_on_free _ _ (port_token_free_of_comma t M)). simpl.
    rewrite (proj1 (port_token_Matches t) M). reflexivity. }
  split; apply accepts_None;
    [rewrite script_validatePorts_grammar | rewrite script1_validatePorts_grammar];
    rewrite S; exact G.
Qed.

(** X4: [validatePorts] of js/script.js and of js/script1.js puts no bound
    on a port number and no order on a range: every string of decimal
    digits is accepted, and so is every pair of such strings joined by a
    hyphen. *)
Theorem X4_validatePorts_checks_no_bounds (a b : jsstring) :
  is_integer a = true ->
  is_integer b = true ->
  (Script.validatePorts a = None /\ Script1.validatePorts a = None)
  /\ (Script.validatePorts (a ++ js "-" ++ b) = None
      /\ Script1.validatePorts (a ++ js "-" ++ b) = None).
Proof.
  intros Ha Hb.
  apply is_integer_Matches in Ha. apply is_integer_Matches in Hb.
  split; apply token_accepted; unfold port_token.
  - rewrite <- (app_nil_r a). apply MCat; [exact Ha|]. apply MAltR. constructor.
  - apply MCat; [exact Ha|]. apply MAltL.
    exact (MCat (Matches_Chr "-") Hb).
Qed.

(** X4 (witness): the port 70000 and the descending range 70000-1. *)
Lemma X4_witness_out_of_range :
  is_integer (js "70000") = true
  /\ is_integer (js "1") = true
  /\ Script.validatePorts (js "70000-1") = None
  /\ Script1.validatePorts (js "70000-1") = None.
Proof.
  split; [reflexivity|]. split; [reflexivity|].
  exact (proj2 (X4_validatePorts_checks_no_bounds (js "70000") (js "1") eq_refl eq_refl)).
Defined.

Lemma join_app (sep : codeunit) (ps qs : list jsstring) :
  ps <> [] -> qs <> [] ->
  join sep (ps ++ qs) = join sep ps ++ sep :: join sep qs.
Proof.
  intros Hp Hq. destruct ps as [|p ps]; [congruence|].
  destruct qs as [|q qs]; [congruence|].
  cbn [join app]. rewrite map_app, concat_app. cbn [map List.concat].
  rewrite <- !app_assoc. reflexivity.
Qed.

Lemma strip_spaces_app (s t : jsstring) :
  strip_spaces (s ++ t) = strip_spaces s ++ strip_spaces t.
Proof. unfold strip_spaces. apply filter_app. Qed.

Lemma grammar_comma_closed (u v : jsstring) :
  port_list_grammar u = true -> port_list_grammar v = true ->
  port_list_grammar (u ++ cu "," :: v) = true.
Proof.
  rewrite <- !portsRegex_grammar, !test_Matches, !portsRegex_pieces.
  intros (ps & Hp & Fp & ->) (qs & Hq & Fq & ->).
  exists (ps ++ qs). split; [destruct ps; [congruence | discriminate]|].
  split; [apply Forall_app; split; assumption|].
  symmetry. apply join_app; assumption.
Qed.

(** X5: the port lists [validatePorts] accepts are closed under joining
    with a comma: when it accepts two inputs it accepts the first, a comma
    and the second (js/script.js and js/script1.js). *)
Theorem X5_validatePorts_comma_closed (s1 s2 : jsstring) :
  Script.validatePorts s1 = None ->
  Script.validatePorts s2 = None ->
  Script.validatePorts (s1 ++ js "," ++ s2) = None
  /\ Script1.validatePorts (s1 ++ js "," ++ s2) = None.
Proof.
  intros H1 H2.
  apply accepts_None in H1, H2. rewrite script_validatePorts_grammar in H1, H2.
  split; apply accepts_None;
    [rewrite script_validatePorts_grammar | rewrite script1_validatePorts_grammar];
    rewrite !strip_spaces_app;
    exact (grammar_comma_closed _ _ H1 H2).
Qed.

(** X5 (witness): two accepted lists. *)
Lemma X5_witness_two_lists :
  Script.validatePorts (js "21, 22") = None
  /\ Script.validatePorts (js "8000-8100") = None
  /\ Script.validatePorts (js "21, 22,8000-8100") = None.
Proof.
  assert (H1 : Script.validatePorts (js "21, 22") = None) by (vm_compute; reflexivity).
  assert (H2 : Script.validatePorts (js "8000-8100") = None) by (vm_compute; reflexivity).
  split; [exact H1|]. split; [exact H2|].
  exact (proj1 (X5_validatePorts_comma_closed (js "21, 22") (js "8000-8100") H1 H2)).
Defined.


(** ** The three implementations compared *)

Lemma portsRegex_chars (u : jsstring) :
  Matches Script.portsRegex u ->
  forallb (fun c => is_digit c || is_char "," c || is_char "-" c) u = true.
Proof.
  apply Matches_within.
  cbn [classes_within Script.portsRegex port_token Plus Opt Chr].
  repeat split; intros c H; class_arith.
Qed.

Lemma strip_spaces_In (c : codeunit) (s : jsstring) :
  In c s -> is_space c = true \/ In c (strip_spaces s).
Proof.
  intros H. destruct (is_space c) eqn:E; [left; reflexivity | right].
  unfold strip_spaces. apply filter_In. split; [exact H | rewrite E; reflexivity].
Qed.

Lemma strict_chars_are_loose (c : codeunit) :
  is_digit c || is_char "," c || is_char "-" c = true -> loose_ports_class c = true.
Proof. intros H. class_arith. Qed.

Lemma space_is_loose (c : codeunit) : is_space c = true -> loose_ports_class c = true.
Proof.
  intros H. unfold loose_ports_class. rewrite H.
  destruct (is_digit c); reflexivity.
Qed.

(** X6: the checks of [validateForm] in js/scriptgemin.js are weaker than
    the validators of js/script.js and js/script1.js: every port list and
    every target those accept passes the corresponding check of
    [validateForm]. *)
Theorem X6_gemin_checks_are_weaker (s : jsstring) :
  (Script.validatePorts s = None \/ Script1.validatePorts s = None ->
   ScriptGemin.check_ports_list s = None)
  /\ (Script.validateTarget s = None \/ Script1.validateTarget s = None ->
      ScriptGemin.check_ip_host s = None).
Proof.
  split.
  - intros H.
    assert (G : port_list_grammar (strip_spaces s) = true).
    { destruct H as [H|H]; apply accepts_None in H;
        [rewrite script_validatePorts_grammar in H
        | rewrite script1_validatePorts_grammar in H]; exact H. }
    apply accepts_None. rewrite gemin_check_ports_list_spec.
    apply andb_true_iff. split.
    + apply negb_true_iff, not_true_is_false. rewrite trim_falsy_iff. intros Bl.
      rewrite (strip_spaces_blank s Bl) in G. discriminate.
    + apply forallb_trim. apply forallb_forall. intros c Hc.
      destruct (strip_spaces_In c s Hc) as [Sp|In'].
      * exact (space_is_loose c Sp).
      * rewrite <- portsRegex_grammar, test_Matches in G.
        pose proof (portsRegex_chars _ G) as K.
        rewrite forallb_forall in K. exact (strict_chars_are_loose c (K c In')).
  - intros H. destruct (accepted_target_clean s H) as (Hne & Hc & Hs).
    unfold ScriptGemin.check_ip_host.
    assert (T : str_falsy (trim s) = false).
    { apply not_true_is_false. rewrite trim_falsy_iff. intros Bl.
      destruct s as [|c s]; [congruence|]. simpl in *.
      apply andb_true_iff in Bl as [Bl _]. rewrite Bl in Hs. discriminate. }
    rewrite T. reflexivity.
Qed.

(** X6 (witness): a list with inner spaces and a host name. *)
Lemma X6_witness_accepted_inputs :
  ScriptGemin.check_ports_list (js "21, 80 , 443-445") = None
  /\ ScriptGemin.check_ip_host (js "scanme.nmap.org") = None.
Proof.
  assert (H : Script.validatePorts (js "21, 80 , 443-445") = None)
    by (vm_compute; reflexivity).
  assert (H' : Script.validateTarget (js "scanme.nmap.org") = None)
    by (vm_compute; reflexivity).
  split.
  - exact (proj1 (X6_gemin_checks_are_weaker (js "21, 80 , 443-445")) (or_introl H)).
  - exact (proj2 (X6_gemin_checks_are_weaker (js "scanme.nmap.org")) (or_introl H')).
Defined.

Lemma validators_accept_alike (s : jsstring) :
  accepts (Script.validateTarget s) = accepts (Script1.validateTarget s)
  /\ accepts (Script.validatePorts s) = accepts (Script1.validatePorts s).
Proof.
  split.
  - destruct (targetRegex_language s) as [E E1].
    unfold Script.validateTarget, Script1.validateTarget. rewrite E, E1.
    destruct s as [|c s]; [reflexivity|].
    change (str_falsy (c :: s) || str_falsy (trim (c :: s)))
      with (str_falsy (trim (c :: s))).
    destruct (str_falsy (trim (c :: s))); [reflexivity|].
    match goal with |- context [negb ?b] => destruct b end; reflexivity.
  - rewrite script_validatePorts_grammar, script1_validatePorts_grammar. reflexivity.
Qed.

(** X7: js/script.js and js/script1.js accept the same targets and the
    same port lists.  They differ in the message for a port list that is
    not empty but consists of white space: js/script.js reports it as
    missing, js/script1.js as malformed. *)
Theorem X7_script_and_script1_agree (s : jsstring) :
  accepts (Script.validateTarget s) = accepts (Script1.validateTarget s)
  /\ accepts (Script.validatePorts s) = accepts (Script1.validatePorts s)
  /\ (s <> [] -> forallb is_space s = true ->
      Script.validatePorts s = Some Script.msg_ports_required
      /\ Script1.validatePorts s = Some Script1.msg_ports_invalid).
Proof.
  destruct (validators_accept_alike s) as [E1 E2].
  split; [exact E1|]. split; [exact E2|].
  intros Hne Bl. split.
  - unfold Script.validatePorts.
    rewrite (proj2 (trim_falsy_iff s) Bl), orb_true_r. reflexivity.
  - unfold Script1.validatePorts. rewrite (strip_spaces_blank s Bl).
    destruct s; [congruence | reflexivity].
Qed.

(** X7 (witness): a port list of one space. *)
Lemma X7_witness_blank_ports :
  js " " <> []
  /\ forallb is_space (js " ") = true
  /\ Script.validatePorts (js " ") = Some Script.msg_ports_required
  /\ Script1.validatePorts (js " ") = Some Script1.msg_ports_invalid.
Proof.
  split; [discriminate|]. split; [reflexivity|].
  refine (proj2 (proj2 (X7_script_and_script1_agree (js " "))) _ eq_refl).
  discriminate.
Defined.


(** ** Submission: failures, edge cases and resubmission *)

Section SubmissionProperties.
Context {B : Builtins}.

(** X8: when the request fails in transport, every script records the one
    request it made, shows its network-error message as the only new
    alert, stores nothing, does not navigate and enables the submit
    control again. *)
Theorem X8_transport_failure (d : json) (p : Page) (b : Button)
  (f : ScriptGemin.Form) (protocol : jsstring) :
  startButton p = Some b ->
  ScriptGemin.validateForm f = true ->
  ScriptGemin.protocol_checked f = Some protocol ->
  let q := Script.submitScan d FetchRejected p in
  let q1 := Script1.submitScan d FetchRejected p in
  let qg := ScriptGemin.handleScanSubmission f FetchRejected p in
  (alerts q = alerts p ++ [Script.msg_network]
   /\ requests q = requests p ++ [post d]
   /\ session_scanResults q = session_scanResults p
   /\ local_scanResults q = local_scanResults p
   /\ navigations q = navigations p
   /\ option_map disabled (startButton q) = Some false)
  /\ (alerts q1 = alerts p ++ [Script1.msg_network]
      /\ requests q1 = requests p ++ [post d]
      /\ session_scanResults q1 = session_scanResults p
      /\ local_scanResults q1 = local_scanResults p
      /\ navigations q1 = navigations p
      /\ option_map disabled (startButton q1) = Some false)
  /\ (alerts qg = alerts p ++ [ScriptGemin.msg_network]
      /\ requests qg = requests p ++ [post (ScriptGemin.scanData f protocol)]
      /\ session_scanResults qg = session_scanResults p
      /\ local_scanResults qg = local_scanResults p
      /\ navigations qg = navigations p
      /\ startButton qg = Some {| disabled := false; label := label b;
                                  originalText := originalText b;
                                  loading := loading b |}).
Proof.
  intros Hb Hv Hp. cbv zeta. split; [|split].
  - open_script. rewrite Hb. simpl. repeat split.
  - open_script1. rewrite Hb. simpl. repeat split.
  - open_gemin. rewrite Hv, Hp, Hb. simpl. repeat split.
Qed.

(** X9: on a non-success status with a decoded body, js/script.js and
    js/script1.js fall back to their generic message whenever the [error]
    property is falsy (absent, null, false, the empty string, a falsy
    number); they show an [error] that is an object as [object Object];
    and a body that is [null] makes the property read raise, which they
    report with the network-error message. *)
Theorem X9_error_property_edge_cases (d : json) (status : N) (p : Page) (b : Button) :
  response_ok status = false ->
  startButton p = Some b ->
  (forall fs,
     truthy (assoc (js "error") fs) = false ->
     alerts (Script.submitScan d (FetchResponse status (Some (JObj fs))) p)
     = alerts p ++ [js "Scan Error: " ++ js "Scan failed with status " ++ decimal status]
     /\ alerts (Script1.submitScan d (FetchResponse status (Some (JObj fs))) p)
        = alerts p ++ [js "Scan Error: " ++ Script1.msg_unknown])
  /\ (forall fs es,
        assoc (js "error") fs = Some (JObj es) ->
        assoc (js "toString") es = None ->
        alerts (Script.submitScan d (FetchResponse status (Some (JObj fs))) p)
        = alerts p ++ [js "Scan Error: " ++ js "[object Object]"]
        /\ alerts (Script1.submitScan d (FetchResponse status (Some (JObj fs))) p)
           = alerts p ++ [js "Scan Error: " ++ js "[object Object]"])
  /\ (alerts (Script.submitScan d (FetchResponse status (Some JNull)) p)
      = alerts p ++ [Script.msg_network]
      /\ alerts (Script1.submitScan d (FetchResponse status (Some JNull)) p)
         = alerts p ++ [Script1.msg_network]).
Proof.
  intros Hok Hb. split; [|split].
  - intros fs Hf. split.
    + open_script. rewrite Hb. simpl. rewrite Hok. simpl.
      unfold get, or_else. rewrite Hf. reflexivity.
    + open_script1. rewrite Hb. simpl. rewrite Hok.
      unfold get, or_else. rewrite Hf. reflexivity.
  - intros fs es He Ht. split.
    + open_script. rewrite Hb. simpl. rewrite Hok. simpl.
      unfold get, or_else, template. rewrite He.
      change (truthy (Some (JObj es))) with true. cbv iota.
      cbn [ToString]. rewrite Ht. reflexivity.
    + open_script1. rewrite Hb. simpl. rewrite Hok.
      unfold get, or_else, template. rewrite He.
      change (truthy (Some (JObj es))) with true. cbv iota.
      cbn [ToString]. rewrite Ht. reflexivity.
  - split.
    + open_script. rewrite Hb. simpl. rewrite Hok. reflexivity.
    + open_script1. rewrite Hb. simpl. rewrite Hok. reflexivity.
Qed.

Lemma script_submitScan_button (d : json) (net : FetchResult) (p : Page) :
  startButton (Script.submitScan d net p)
  = match startButton p with
    | None => None
    | Some b =>
        Some {| disabled := false;
                label := if str_falsy (label b) then Script.default_label else label b;
                originalText := Some (label b);
                loading := loading b |}
    end.
Proof.
  open_script. destruct (startButton p) as [b|] eqn:Eb; simpl;
    destruct net as [|status [body|]]; simpl; rewrite ?Eb; simpl;
    repeat (split_match; simpl; rewrite ?Eb; simpl);
    first [reflexivity | congruence].
Qed.

Lemma script_submitScan_session (d : json) (net : FetchResult) (p : Page) :
  session_scanResults (Script.submitScan d net p)
  = match net with
    | FetchResponse status (Some body) =>
        if response_ok status then Some body else session_scanResults p
    | _ => session_scanResults p
    end.
Proof.
  open_script. destruct (startButton p) as [b|] eqn:Eb; simpl;
    destruct net as [|status [body|]]; simpl; rewrite ?Eb; simpl;
    try destruct (response_ok status); simpl; rewrite ?Eb; simpl;
    repeat (split_match; simpl; rewrite ?Eb; simpl);
    first [reflexivity | congruence].
Qed.

(** X10: submitting again with js/script.js composes: the two requests are
    recorded in order, the submit control ends enabled with the label it
    had after the first submission, a second success replaces the stored
    result, and a second failure of any kind keeps the result the first
    submission left in storage. *)
Theorem X10_resubmission (d1 d2 : json) (net1 net2 : FetchResult) (p : Page) :
  let once := Script.submitScan d1 net1 p in
  let twice := Script.submitScan d2 net2 once in
  requests twice = requests p ++ [post d1; post d2]
  /\ option_map disabled (startButton twice) = option_map disabled (startButton once)
  /\ option_map label (startButton twice) = option_map label (startButton once)
  /\ (forall status body,
        net2 = FetchResponse status (Some body) -> response_ok status = true ->
        session_scanResults twice = Some body)
  /\ (succeeded net2 = false ->
      session_scanResults twice = session_scanResults once).
Proof.
  cbv zeta. split; [|split; [|split; [|split]]].
  - rewrite !script_submitScan_requests, <- app_assoc. reflexivity.
  - rewrite !script_submitScan_button. destruct (startButton p); reflexivity.
  - rewrite !script_submitScan_button. destruct (startButton p) as [b|]; [|reflexivity].
    simpl. destruct (label b); reflexivity.
  - intros status body -> Hok. rewrite script_submitScan_session, Hok. reflexivity.
  - intros H. rewrite script_submitScan_session.
    destruct net2 as [|status [body|]]; try reflexivity.
    simpl in H. rewrite H. reflexivity.
Qed.

(** X11: on a page without a start button, js/script1.js and
    [handleScanSubmission] of js/scriptgemin.js raise before the request is
    made and change nothing, whereas js/script.js makes the request and
    handles its outcome as usual. *)
Theorem X11_missing_start_button (d : json) (net : FetchResult) (p : Page)
  (f : ScriptGemin.Form) :
  startButton p = None ->
  Script1.submitScan d net p = p
  /\ ScriptGemin.handleScanSubmission f net p = p
  /\ requests (Script.submitScan d net p) = requests p ++ [post d]
  /\ startButton (Script.submitScan d net p) = None
  /\ (forall status body,
        net = FetchResponse status (Some body) -> response_ok status = true ->
        session_scanResults (Script.submitScan d net p) = Some body
        /\ navigations (Script.submitScan d net p) = navigations p ++ [js "results.html"]).
Proof.
  intros Hb. split; [|split; [|split; [|split]]].
  - unfold Script1.submitScan. rewrite Hb. reflexivity.
  - unfold ScriptGemin.handleScanSubmission. rewrite Hb.
    destruct (negb (ScriptGemin.validateForm f)); [reflexivity|].
    destruct (ScriptGemin.protocol_checked f); reflexivity.
  - apply script_submitScan_requests.
  - rewrite script_submitScan_button, Hb. reflexivity.
  - intros status body -> Hok. split.
    + rewrite script_submitScan_session, Hok. reflexivity.
    + open_script. rewrite Hb. simpl. rewrite Hok. simpl. rewrite Hb. reflexivity.
Qed.

End SubmissionProperties.

(** X8 (witness): a page with a start button and the example form. *)
Lemma X8_witness_rejected_fetch :
  startButton (fresh_page (B:=Examples.B0) (js "Start Scan"))
  = Some {| disabled := false; label := js "Start Scan";
            originalText := None; loading := false |}
  /\ ScriptGemin.validateForm Examples.gemin_form = true
  /\ ScriptGemin.protocol_checked Examples.gemin_form = Some (js "tcp")
  /\ alerts (Script.submitScan Examples.payload FetchRejected
               (fresh_page (js "Start Scan")))
     = [] ++ [Script.msg_network].
Proof.
  split; [reflexivity|]. split; [reflexivity|]. split; [reflexivity|].
  exact (proj1 (proj1 (X8_transport_failure (B:=Examples.B0) Examples.payload
                         (fresh_page (js "Start Scan"))
                         {| disabled := false; label := js "Start Scan";
                            originalText := None; loading := false |}
                         Examples.gemin_form (js "tcp") eq_refl eq_refl eq_refl))).
Defined.

(** X9 (witness): status 500 with a body that is [null]. *)
Lemma X9_witness_null_body :
  response_ok 500 = false
  /\ startButton (fresh_page (B:=Examples.B0) (js "Start Scan"))
     = Some {| disabled := false; label := js "Start Scan";
               originalText := None; loading := false |}
  /\ alerts (Script.submitScan Examples.payload (FetchResponse 500 (Some JNull))
               (fresh_page (js "Start Scan")))
     = [] ++ [Script.msg_network].
Proof.
  split; [reflexivity|]. split; [reflexivity|].
  exact (proj1 (proj2 (proj2 (X9_error_property_edge_cases (B:=Examples.B0)
                                Examples.payload 500 (fresh_page (js "Start Scan"))
                                {| disabled := false; label := js "Start Scan";
                                   originalText := None; loading := false |}
                                eq_refl eq_refl)))).
Defined.

(** X11 (witness): the fresh page with its button taken away. *)
Lemma X11_witness_page_without_button :
  startButton (with_button None (fresh_page (B:=Examples.B0) (js "Start Scan"))) = None
  /\ Script1.submitScan Examples.payload FetchRejected
       (with_button None (fresh_page (js "Start Scan")))
     = with_button None (fresh_page (js "Start Scan")).
Proof.
  split; [reflexivity|].
  exact (proj1 (X11_missing_start_button (B:=Examples.B0) Examples.payload FetchRejected
                  (with_button None (fresh_page (js "Start Scan")))
                  Examples.gemin_form eq_refl)).
Defined.

(** ** The results page *)

Section ResultsProperties.
Context {B : Builtins}.
Variable toLowerCase : jsstring -> jsstring.
Variable greater_than_zero : jsvalue -> bool.

Lemma append_rows_prefix (ps : list json) (acc : list ScriptResults.Row) :
  exists k,
    (k <= List.length ps)%nat
    /\ map Some (fst ((ScriptResults.append_rows toLowerCase) ps acc))
       = map Some acc ++ map (ScriptResults.render_row toLowerCase) (firstn k ps)
    /\ (snd ((ScriptResults.append_rows toLowerCase) ps acc) = Normal tt <-> k = List.length ps)
    /\ ((k < List.length ps)%nat -> (ScriptResults.render_row toLowerCase) (nth k ps JNull) = None).
Proof.
  revert acc. induction ps as [|p ps IH]; intros acc.
  - exists 0%nat. simpl. rewrite app_nil_r.
    repeat split; auto; intros H; inversion H.
  - simpl. destruct ((ScriptResults.render_row toLowerCase) p) as [r|] eqn:E.
    + destruct (IH (acc ++ [r])) as (k & Hk & Hrows & Hc & Hbad).
      exists (S k). simpl. split; [lia|]. split; [|split].
      * rewrite Hrows, map_app, <- app_assoc, E. reflexivity.
      * rewrite Hc. split; congruence.
      * intros H. apply Hbad. lia.
    + exists 0%nat. simpl. rewrite app_nil_r.
      split; [lia|]. split; [reflexivity|]. split; [|intros _; exact E].
      split; discriminate.
Qed.

(** X12: for a result whose [open_ports] is an array, the table of
    js/script.js holds one row per record, in order, up to the first
    record whose rendering raises: the loop completes exactly when every
    record renders, and the empty-state message is hidden exactly when the
    array is not empty. *)
Theorem X12_table_rows (ps : list json) :
  exists k,
    (k <= List.length ps)%nat
    /\ map Some (ScriptResults.rows (fst ((ScriptResults.fill_table toLowerCase greater_than_zero) (Some (JArr ps)))))
       = map (ScriptResults.render_row toLowerCase) (firstn k ps)
    /\ (snd ((ScriptResults.fill_table toLowerCase greater_than_zero) (Some (JArr ps))) = Normal tt <-> k = List.length ps)
    /\ ((k < List.length ps)%nat -> (ScriptResults.render_row toLowerCase) (nth k ps JNull) = None)
    /\ ScriptResults.no_ports_display (fst ((ScriptResults.fill_table toLowerCase greater_than_zero) (Some (JArr ps))))
       = match ps with [] => js "block" | _ :: _ => js "none" end.
Proof.
  destruct ps as [|p ps].
  - exists 0%nat. simpl. repeat split; auto; intros H; inversion H.
  - destruct (append_rows_prefix (p :: ps) []) as (k & Hk & Hrows & Hc & Hbad).
    exists k. unfold ScriptResults.fill_table.
    change (truthy (Some (JArr (p :: ps)))) with true. cbv iota.
    destruct ((ScriptResults.append_rows toLowerCase) (p :: ps) []) as [rs c] eqn:E.
    simpl in *. repeat split; auto; apply Hc.
Qed.

(** X13: the click listener of the re-scan button is registered only when
    the button exists, a result is stored, the summary renders without an
    exception and, when [open_ports] is an array, every record of it
    renders; it is never registered on the page that reports missing
    data. *)
Theorem X13_rescan_needs_complete_rendering (stored : option json) (v : View)
  (rescan_button : bool) :
  ScriptResults.rescan_wired ((ScriptResults.loadResultsPage toLowerCase greater_than_zero) stored v rescan_button) = true ->
  rescan_button = true
  /\ exists data,
       stored = Some data
       /\ snd (Script.populate_summary data v) = Normal tt
       /\ (forall ps, get data (js "open_ports") = Normal (Some (JArr ps)) ->
                      Forall (fun p => (ScriptResults.render_row toLowerCase) p <> None) ps).
Proof.
  unfold ScriptResults.loadResultsPage.
  destruct stored as [data|]; [|discriminate].
  destruct (Script.populate_summary data v) as [v' [u|]] eqn:S; [|discriminate].
  destruct (get data (js "open_ports")) as [op|] eqn:G; [|discriminate].
  destruct ((ScriptResults.fill_table toLowerCase greater_than_zero) op) as [t [u'|]] eqn:F; [|discriminate].
  simpl. intros ->. split; [reflexivity|]. exists data.
  split; [reflexivity|]. split; [rewrite S; destruct u; reflexivity|].
  intros ps E. assert (Eo : op = Some (JArr ps)) by congruence. subst op. clear E G.
  destruct ps as [|p ps]; [constructor|].
  revert F. unfold ScriptResults.fill_table.
  change (truthy (Some (JArr (p :: ps)))) with true. cbv iota.
  generalize (p :: ps). clear. intros ps.
  destruct ((ScriptResults.append_rows toLowerCase) ps []) as [rs c] eqn:E. intros F. injection F as _ ->.
  revert E. generalize (@nil ScriptResults.Row).
  induction ps as [|q ps IH]; intros acc E; [constructor|].
  simpl in E. destruct ((ScriptResults.render_row toLowerCase) q) eqn:R; [|injection E; discriminate].
  constructor; [congruence | exact (IH _ E)].
Qed.

(** X14: with js/script.js, what the results page renders after a
    successful submission is the rendering of the response body as it is
    read back from the JSON text that was stored, in which a number without
    JSON text has become [null]; it is the rendering of the body itself
    when the body reads back unchanged.  A click on the re-scan button then
    removes the stored result, navigates to the scan form and leaves
    localStorage alone, after which the loader shows the missing-data text,
    touches no table and registers no listener. *)
Theorem X14_submit_render_rescan (reread : number -> option number)
  (d body : json) (status : N) (p : Page) (v : View) (rescan_button : bool) :
  response_ok status = true ->
  let q := Script.submitScan d (FetchResponse status (Some body)) p in
  let r := ScriptResults.rescan_click q in
  ScriptResults.loadResultsPage toLowerCase greater_than_zero
    (read_back reread (session_scanResults q)) v rescan_button
  = ScriptResults.loadResultsPage toLowerCase greater_than_zero
      (Some (JSON_reparse reread body)) v rescan_button
  /\ (JSON_reparse reread body = body ->
      ScriptResults.loadResultsPage toLowerCase greater_than_zero
        (read_back reread (session_scanResults q)) v rescan_button
      = ScriptResults.loadResultsPage toLowerCase greater_than_zero
          (Some body) v rescan_button)
  /\ session_scanResults r = None
  /\ local_scanResults r = local_scanResults p
  /\ navigations r = navigations p ++ [js "results.html"; js "scanning.html"]
  /\ ScriptResults.loadResultsPage toLowerCase greater_than_zero
       (read_back reread (session_scanResults r)) v rescan_button
     = {| ScriptResults.summary :=
            {| target_ip_text := Some Script.msg_no_data;
               open_ports_count_text := open_ports_count_text v;
               scan_duration_text := scan_duration_text v;
               protocol_used_text := protocol_used_text v;
               ports_scanned_text := ports_scanned_text v |};
          ScriptResults.table := None;
          ScriptResults.rescan_wired := false |}.
Proof.
  intros Hok. cbv zeta.
  rewrite script_submitScan_session, Hok. unfold read_back. cbn [option_map].
  split; [reflexivity|]. split; [intros ->; reflexivity|]. split; [reflexivity|].
  unfold ScriptResults.rescan_click. simpl.
  split; [|split; [|reflexivity]].
  - open_script. destruct (startButton p) eqn:Eb; simpl; rewrite Hok; simpl;
      rewrite ?Eb; reflexivity.
  - open_script. destruct (startButton p) eqn:Eb; simpl; rewrite Hok; simpl;
      rewrite ?Eb; simpl; rewrite <- app_assoc; reflexivity.
Qed.

(** X15: the result js/script1.js stores after a successful submission is
    not found by the loaders: it is written to localStorage, they read
    sessionStorage, so on a session without an earlier result both loaders
    report missing data after the navigation; and the re-scan listener
    never removes the copy in localStorage. *)
Theorem X15_script1_result_is_not_found (d body : json) (status : N) (p : Page)
  (b : Button) (v : View) :
  response_ok status = true ->
  startButton p = Some b ->
  session_scanResults p = None ->
  let q1 := Script1.submitScan d (FetchResponse status (Some body)) p in
  local_scanResults q1 = Some body
  /\ navigations q1 = navigations p ++ [js "results.html"]
  /\ target_ip_text (Script.loadResultsPage (session_scanResults q1) v)
     = Some Script.msg_no_data
  /\ scan_duration_text (Script.loadResultsPage (session_scanResults q1) v)
     = scan_duration_text v
  /\ ScriptGemin.loadResultsPage (session_scanResults q1) v
     = set_target_ip ScriptGemin.msg_no_data v
  /\ local_scanResults (ScriptResults.rescan_click q1) = Some body.
Proof.
  intros Hok Hb Hs. cbv zeta.
  assert (E : session_scanResults
                (Script1.submitScan d (FetchResponse status (Some body)) p) = None).
  { open_script1. rewrite Hb. simpl. rewrite Hok. simpl. exact Hs. }
  rewrite E.
  assert (L : local_scanResults
                (Script1.submitScan d (FetchResponse status (Some body)) p) = Some body).
  { open_script1. rewrite Hb. simpl. rewrite Hok. reflexivity. }
  split; [exact L|]. split.
  - open_script1. rewrite Hb. simpl. rewrite Hok. reflexivity.
  - repeat split. exact L.
Qed.

(** X16: the loader of js/scriptgemin.js has no default for any key it
    reads: when the stored object lacks target_ip, open_ports,
    scan_duration, protocol or ports_list the loader raises, and when it
    lacks target_ip nothing at all is rendered. *)
Theorem X16_gemin_loader_needs_every_key (fs : list (jsstring * json)) (v : View)
  (k : jsstring) :
  In k gemin_keys ->
  assoc k fs = None ->
  snd (ScriptGemin.loadResultsPage (Some (JObj fs)) v) = Throw
  /\ (k = js "target_ip" -> fst (ScriptGemin.loadResultsPage (Some (JObj fs)) v) = v).
Proof.
  intros Hk Ha.
  unfold ScriptGemin.loadResultsPage, ScriptGemin.populate_summary, bind, lift,
    lift_option, ret, raise, get.
  cbv zeta. rewrite (gemin_object_truthy fs).
  unfold gemin_keys in Hk. simpl in Hk.
  destruct Hk as [<-|[<-|[<-|[<-|[<-|[]]]]]]; rewrite ?Ha.
  - split; reflexivity.
  - split; [|intros E; apply (f_equal (@List.length codeunit)) in E; discriminate E].
    destruct (ScriptGemin.target_text _); reflexivity.
  - split; [|intros E; apply (f_equal (@List.length codeunit)) in E; discriminate E].
    destruct (ScriptGemin.target_text _); [|reflexivity]. simpl.
    destruct (ScriptGemin.length_text _); reflexivity.
  - split; [|intros E; apply (f_equal (@List.length codeunit)) in E; discriminate E].
    destruct (ScriptGemin.target_text _); [|reflexivity]. simpl.
    destruct (ScriptGemin.length_text _); [|reflexivity]. simpl.
    destruct (ScriptGemin.duration_text _); reflexivity.
  - split; [|intros E; apply (f_equal (@List.length codeunit)) in E; discriminate E].
    destruct (ScriptGemin.target_text _); [|reflexivity]. simpl.
    destruct (ScriptGemin.length_text _); [|reflexivity]. simpl.
    destruct (ScriptGemin.duration_text _); [|reflexivity]. simpl.
    destruct (ScriptGemin.protocol_text _); reflexivity.
Qed.

Lemma dom_string_primitive (v : jsvalue) :
  primitive v = true -> dom_string v <> None.
Proof.
  destruct v as [[|b|x|s|l|fs]|]; simpl; try discriminate.
  destruct b; discriminate.
Qed.

Lemma or_else_primitive (a b : jsvalue) :
  primitive a = true -> primitive b = true -> primitive (or_else a b) = true.
Proof. unfold or_else. intros Ha Hb. destruct (truthy a); assumption. Qed.

(** X17: the loader of js/script.js renders every flat result: when
    target_ip, target, scan_duration, ports_list and port_mode are absent
    or without structure, open_ports is absent, without structure or an
    array, and protocol is falsy or a string, the summary completes without
    an exception; absent keys give the target N/A, the count 0, the
    duration N/A, the protocol of the default tcp and the ports label
    N/A. *)
Theorem X17_script_loader_renders_flat_results (fs : list (jsstring * json)) (v : View) :
  primitive (assoc (js "target_ip") fs) = true ->
  primitive (assoc (js "target") fs) = true ->
  primitive (assoc (js "open_ports") fs) || is_array (assoc (js "open_ports") fs) = true ->
  primitive (assoc (js "scan_duration") fs) = true ->
  negb (truthy (assoc (js "protocol") fs)) || is_string (assoc (js "protocol") fs) = true ->
  primitive (assoc (js "ports_list") fs) = true ->
  primitive (assoc (js "port_mode") fs) = true ->
  let shown := Script.loadResultsPage (Some (JObj fs)) v in
  snd (Script.populate_summary (JObj fs) v) = Normal tt
  /\ (assoc (js "target_ip") fs = None -> assoc (js "target") fs = None ->
      target_ip_text shown = Some (js "N/A"))
  /\ (assoc (js "open_ports") fs = None -> open_ports_count_text shown = Some (js "0"))
  /\ (assoc (js "scan_duration") fs = None -> scan_duration_text shown = Some (js "N/A"))
  /\ (assoc (js "protocol") fs = None ->
      protocol_used_text shown = Some (toUpperCase (js "tcp")))
  /\ (assoc (js "ports_list") fs = None -> assoc (js "port_mode") fs = None ->
      ports_scanned_text shown = Some (js "N/A")).
Proof.
  intros Ht1 Ht2 Hop Hd Hpr Hl1 Hl2. cbv zeta.
  assert (T : Script.target_text (assoc (js "target_ip") fs) (assoc (js "target") fs)
              <> None).
  { apply dom_string_primitive. repeat apply or_else_primitive; auto. }
  assert (N : Script.length_text (assoc (js "open_ports") fs) <> None).
  { unfold Script.length_text, or_else, truthy.
    destruct (assoc (js "open_ports") fs) as [[|b|x|s|l|gs]|]; simpl in *;
      try discriminate.
    - destruct b; discriminate.
    - destruct (Number_truthy x); discriminate.
    - destruct (negb (str_falsy s)); discriminate. }
  assert (D : Script.duration_text (assoc (js "scan_duration") fs) <> None).
  { unfold Script.duration_text.
    destruct (assoc (js "scan_duration") fs) as [[|b|x|s|l|gs]|] eqn:E;
      try discriminate; rewrite <- E in *;
      apply dom_string_primitive, or_else_primitive; auto. }
  assert (P : Script.protocol_text (assoc (js "protocol") fs) <> None).
  { unfold Script.protocol_text, or_else, truthy in *.
    destruct (assoc (js "protocol") fs) as [[|b|x|s|l|gs]|]; simpl in *;
      try discriminate.
    - destruct b; [discriminate Hpr | discriminate].
    - destruct (Number_truthy x); [discriminate Hpr | discriminate].
    - destruct (negb (str_falsy s)); discriminate. }
  assert (L : dom_string (Script.ports_label (assoc (js "ports_list") fs)
                            (assoc (js "port_mode") fs)) <> None).
  { unfold Script.ports_label.
    pose proof (or_else_primitive _ (Some (JStr (js "N/A")))
                  (or_else_primitive _ _ Hl1 Hl2) eq_refl) as Q.
    destruct (or_else (or_else (assoc (js "ports_list") fs) (assoc (js "port_mode") fs))
                (Some (JStr (js "N/A")))) as [[|b|x|s|l|gs]|]; simpl in *;
      try discriminate.
    - destruct b; discriminate.
    - match goal with |- context [if ?c then _ else _] => destruct c end;
        simpl; discriminate. }
  unfold Script.loadResultsPage, Script.populate_summary, bind, lift, lift_option,
    ret, raise, get.
  destruct (Script.target_text _ _) as [t|] eqn:Et; [|congruence].
  destruct (Script.length_text _) as [n|] eqn:En; [|congruence].
  destruct (Script.duration_text _) as [dt|] eqn:Ed; [|congruence].
  destruct (Script.protocol_text _) as [pt|] eqn:Ep; [|congruence].
  destruct (dom_string _) as [lt|] eqn:El; [|congruence].
  simpl. split; [reflexivity|].
  split; [|split; [|split; [|split]]].
  - intros A1 A2. rewrite A1, A2 in Et. injection Et as <-. reflexivity.
  - intros A. rewrite A in En. injection En as <-. reflexivity.
  - intros A. rewrite A in Ed. injection Ed as <-. reflexivity.
  - intros A. rewrite A in Ep. injection Ep as <-. reflexivity.
  - intros A1 A2. rewrite A1, A2 in El. injection El as <-. reflexivity.
Qed.

(** X18: a stored value that is falsy ([null], false, zero, the empty
    string) makes the loader of js/scriptgemin.js report missing data, as
    an absent item does; the loader of js/script.js reports missing data
    only for an absent item, and on a stored [null] it raises at the first
    property read: no element is written, no table is touched and no
    listener is registered. *)
Theorem X18_falsy_stored_values (data : json) (v : View) (rescan_button : bool) :
  truthy (Some data) = false ->
  ScriptGemin.loadResultsPage (Some data) v = ScriptGemin.loadResultsPage None v
  /\ ScriptGemin.loadResultsPage None v = set_target_ip ScriptGemin.msg_no_data v
  /\ Script.loadResultsPage None v = fst (set_target_ip Script.msg_no_data v)
  /\ ScriptResults.loadResultsPage toLowerCase greater_than_zero (Some JNull) v
       rescan_button
     = {| ScriptResults.summary := v;
          ScriptResults.table := None;
          ScriptResults.rescan_wired := false |}.
Proof.
  intros H. unfold ScriptGemin.loadResultsPage. cbv zeta. rewrite H.
  repeat split.
Qed.

End ResultsProperties.

(** X13 (witness): the stored result with one open port. *)
Lemma X13_witness_one_port :
  ScriptResults.rescan_wired
    (ScriptResults.loadResultsPage MoreExamples.lower MoreExamples.positive
       (Some MoreExamples.one_port_result) blank_view true) = true
  /\ snd (Script.populate_summary MoreExamples.one_port_result blank_view) = Normal tt.
Proof.
  assert (H : ScriptResults.rescan_wired
                (ScriptResults.loadResultsPage MoreExamples.lower MoreExamples.positive
                   (Some MoreExamples.one_port_result) blank_view true) = true)
    by (vm_compute; reflexivity).
  split; [exact H|].
  destruct (X13_rescan_needs_complete_rendering (B:=Examples.B0)
              MoreExamples.lower MoreExamples.positive _ blank_view true H)
    as (_ & data & E & S & _).
  injection E as <-. exact S.
Defined.

(** X14 (witness): status 200 with the example result, whose numbers are
    integers and read back as they are. *)
Lemma X14_witness_stored_and_cleared :
  response_ok 200 = true
  /\ JSON_reparse (B:=Examples.B0) Some Examples.result_body = Examples.result_body
  /\ session_scanResults
       (ScriptResults.rescan_click
          (Script.submitScan Examples.payload
             (FetchResponse 200 (Some Examples.result_body))
             (fresh_page (js "Start Scan")))) = None.
Proof.
  split; [reflexivity|]. split; [reflexivity|].
  exact (proj1 (proj2 (proj2 (X14_submit_render_rescan (B:=Examples.B0)
                         MoreExamples.lower MoreExamples.positive Some
                         Examples.payload Examples.result_body 200
                         (fresh_page (js "Start Scan")) blank_view true eq_refl)))).
Defined.

(** X15 (witness): status 200 with the example result on a fresh page. *)
Lemma X15_witness_fresh_session :
  response_ok 200 = true
  /\ session_scanResults (fresh_page (B:=Examples.B0) (js "Start Scan")) = None
  /\ local_scanResults
       (Script1.submitScan Examples.payload
          (FetchResponse 200 (Some Examples.result_body))
          (fresh_page (js "Start Scan"))) = Some Examples.result_body.
Proof.
  split; [reflexivity|]. split; [reflexivity|].
  exact (proj1 (X15_script1_result_is_not_found (B:=Examples.B0)
                  Examples.payload Examples.result_body 200
                  (fresh_page (js "Start Scan"))
                  {| disabled := false; label := js "Start Scan";
                     originalText := None; loading := false |}
                  blank_view eq_refl eq_refl eq_refl)).
Defined.

(** X16 (witness): an object with the fields of a request, which lacks the
    key target_ip. *)
Lemma X16_witness_missing_target_ip :
  In (js "target_ip") gemin_keys
  /\ assoc (B:=Examples.B0) (js "target_ip") MoreExamples.request_fields = None
  /\ snd (ScriptGemin.loadResultsPage (B:=Examples.B0)
            (Some (JObj MoreExamples.request_fields)) blank_view) = Throw.
Proof.
  split; [left; reflexivity|]. split; [reflexivity|].
  exact (proj1 (X16_gemin_loader_needs_every_key (B:=Examples.B0)
                  MoreExamples.request_fields blank_view (js "target_ip")
                  (or_introl eq_refl) eq_refl)).
Defined.

(** X17 (witness): the empty object. *)
Lemma X17_witness_empty_object :
  snd (Script.populate_summary (B:=Examples.B0) (JObj []) blank_view) = Normal tt
  /\ target_ip_text (Script.loadResultsPage (B:=Examples.B0) (Some (JObj [])) blank_view)
     = Some (js "N/A").
Proof.
  pose proof (X17_script_loader_renders_flat_results (B:=Examples.B0) [] blank_view
                eq_refl eq_refl eq_refl eq_refl eq_refl eq_refl eq_refl)
    as (S & T & _).
  split; [exact S | exact (T eq_refl eq_refl)].
Defined.

(** X18 (witness): a stored [null]. *)
Lemma X18_witness_stored_null :
  truthy (B:=Examples.B0) (Some JNull) = false
  /\ ScriptGemin.loadResultsPage (B:=Examples.B0) (Some JNull) blank_view
     = ScriptGemin.loadResultsPage (B:=Examples.B0) None blank_view.
Proof.
  split; [reflexivity|].
  exact (proj1 (X18_falsy_stored_values (B:=Examples.B0)
                  MoreExamples.lower MoreExamples.positive JNull blank_view true
                  eq_refl)).
Defined.


(** ** Themes *)

Lemma jsstring_eqb_refl (a : jsstring) : jsstring_eqb a a = true.
Proof. unfold jsstring_eqb. destruct (list_eq_dec N.eq_dec a a); congruence. Qed.

Lemma jsstring_eqb_true (a b : jsstring) : jsstring_eqb a b = true -> a = b.
Proof. unfold jsstring_eqb. destruct (list_eq_dec N.eq_dec a b); congruence. Qed.

Lemma contains_In (l : list jsstring) (t : jsstring) : contains l t = true <-> In t l.
Proof.
  unfold contains. rewrite existsb_exists. split.
  - intros (x & Hx & E). apply jsstring_eqb_true in E. subst. exact Hx.
  - intros H. exists t. split; [exact H | apply jsstring_eqb_refl].
Qed.

Lemma contains_app (l1 l2 : list jsstring) (t : jsstring) :
  contains (l1 ++ l2) t = contains l1 t || contains l2 t.
Proof. unfold contains. apply existsb_app. Qed.

Lemma contains_snoc (l : list jsstring) (t : jsstring) : contains (l ++ [t]) t = true.
Proof. apply contains_In, in_or_app. right. left. reflexivity. Qed.

Lemma contains_remove (ts l : list jsstring) (t : jsstring) :
  In t ts -> contains (classList_remove ts l) t = false.
Proof.
  intros Ht. apply not_true_is_false. rewrite contains_In.
  unfold classList_remove. rewrite filter_In. intros [_ H].
  apply negb_true_iff in H. apply (proj2 (contains_In ts t)) in Ht. congruence.
Qed.

Lemma remove_idempotent (ts l : list jsstring) :
  classList_remove ts (classList_remove ts l) = classList_remove ts l.
Proof.
  unfold classList_remove. induction l as [|c l IH]; simpl; [reflexivity|].
  destruct (negb (contains ts c)) eqn:E; simpl; rewrite ?E, IH; reflexivity.
Qed.

Lemma remove_snoc (ts l : list jsstring) (t : jsstring) :
  In t ts ->
  classList_remove ts (classList_remove ts l ++ [t]) = classList_remove ts l.
Proof.
  intros Ht. unfold classList_remove at 1. rewrite filter_app.
  fold (classList_remove ts (classList_remove ts l)). rewrite remove_idempotent.
  simpl. rewrite (proj2 (contains_In ts t) Ht). simpl. apply app_nil_r.
Qed.

Lemma themes_differ : light_theme <> dark_theme.
Proof. unfold light_theme, dark_theme. vm_compute. discriminate. Qed.

Lemma other_theme_cases (d : ThemeDoc) :
  (contains (classList d) light_theme = true /\ other_theme d = dark_theme)
  \/ (contains (classList d) light_theme = false /\ other_theme d = light_theme).
Proof.
  unfold other_theme. destruct (contains (classList d) light_theme); auto.
Qed.

(** [setTheme] with one of the two themes: the class goes to the end of the
    other classes. *)
Lemma setTheme_theme (t : jsstring) (d : ThemeDoc) :
  t = light_theme \/ t = dark_theme ->
  ScriptTheme.setTheme t d
  = ({| classList := classList_remove [light_theme; dark_theme] (classList d) ++ [t];
        theme_item := Some t;
        toggle_label := match toggle_label d with
                        | Some _ => Some (button_text t)
                        | None => None
                        end |}, Normal tt).
Proof.
  intros Ht. unfold ScriptTheme.setTheme, classList_add. cbv zeta.
  assert (V : valid_token t = true) by (destruct Ht as [-> | ->]; vm_compute; reflexivity).
  assert (I : In t [light_theme; dark_theme]) by (simpl; destruct Ht; auto).
  rewrite V, (contains_remove _ (classList d) t I). reflexivity.
Qed.

(** X19: after a click on the theme toggle of js/script.js, which runs
    the one listener of lines 159-162, the body carries exactly one of the
    two theme classes, the other one than before when it had the light
    theme and the light theme otherwise; the stored theme names it, the
    toggle shows the name of the opposite theme, and every class that is no
    theme is kept, in order. *)
Theorem X19_toggle_sets_exactly_one_theme (d : ThemeDoc) :
  let d' := fst (ScriptTheme.toggle_click d) in
  snd (ScriptTheme.toggle_click d) = Normal tt
  /\ contains (classList d') dark_theme = contains (classList d) light_theme
  /\ contains (classList d') light_theme = negb (contains (classList d) light_theme)
  /\ theme_item d' = Some (other_theme d)
  /\ toggle_label d'
     = match toggle_label d with
       | Some _ => Some (if contains (classList d') dark_theme
                         then js "Light Theme" else js "Dark Theme")
       | None => None
       end
  /\ classList_remove [light_theme; dark_theme] (classList d')
     = classList_remove [light_theme; dark_theme] (classList d).
Proof.
  cbv zeta. unfold ScriptTheme.toggle_click.
  assert (NL : contains (classList_remove [light_theme; dark_theme] (classList d))
                 light_theme = false) by (apply contains_remove; simpl; auto).
  assert (ND : contains (classList_remove [light_theme; dark_theme] (classList d))
                 dark_theme = false) by (apply contains_remove; simpl; auto).
  destruct (other_theme_cases d) as [[C E]|[C E]]; rewrite E, C;
    rewrite setTheme_theme by theme_choice; simpl;
    rewrite !contains_app, NL, ND;
    (split; [reflexivity|]); (split; [vm_compute; reflexivity|]);
    (split; [vm_compute; reflexivity|]); (split; [reflexivity|]);
    (split; [destruct (toggle_label d); vm_compute; reflexivity|]);
    apply remove_snoc; simpl; auto.
Qed.

(** X20: on a page of js/script.js, two further clicks on the theme toggle
    bring back the document a click produced: class list, stored theme and
    toggle text. *)
Theorem X20_two_clicks_restore (d : ThemeDoc) :
  let click := fun x => fst (ScriptTheme.toggle_click x) in
  click (click (click d)) = click d.
Proof.
  cbv zeta. unfold ScriptTheme.toggle_click.
  set (R := classList_remove [light_theme; dark_theme] (classList d)).
  assert (NL : contains R light_theme = false) by (apply contains_remove; simpl; auto).
  assert (Step : forall t lbl,
            t = light_theme \/ t = dark_theme ->
            fst (ScriptTheme.setTheme
                   (other_theme {| classList := R ++ [t]; theme_item := Some t;
                                   toggle_label := lbl |})
                   {| classList := R ++ [t]; theme_item := Some t; toggle_label := lbl |})
            = {| classList := R ++ [if jsstring_eqb t light_theme
                                    then dark_theme else light_theme];
                 theme_item := Some (if jsstring_eqb t light_theme
                                     then dark_theme else light_theme);
                 toggle_label := match lbl with
                                 | Some _ => Some (button_text
                                                     (if jsstring_eqb t light_theme
                                                      then dark_theme else light_theme))
                                 | None => None
                                 end |}).
  { intros t lbl Ht.
    assert (O : other_theme {| classList := R ++ [t]; theme_item := Some t;
                               toggle_label := lbl |}
                = if jsstring_eqb t light_theme then dark_theme else light_theme).
    { unfold other_theme. simpl. rewrite contains_app, NL. simpl.
      destruct Ht as [-> | ->]; vm_compute; reflexivity. }
    rewrite O. rewrite setTheme_theme
      by (destruct (jsstring_eqb t light_theme); theme_choice).
    simpl. unfold R. rewrite remove_snoc by (simpl; destruct Ht; auto).
    reflexivity. }
  destruct (other_theme_cases d) as [[C E]|[C E]]; rewrite E;
    rewrite (setTheme_theme _ d) by theme_choice; simpl; fold R;
    rewrite Step by theme_choice;
    match goal with
    | |- context [jsstring_eqb ?a ?b] =>
        let v := eval vm_compute in (jsstring_eqb a b) in
        change (jsstring_eqb a b) with v
    end; cbv iota;
    rewrite Step by theme_choice;
    match goal with
    | |- context [jsstring_eqb ?a ?b] =>
        let v := eval vm_compute in (jsstring_eqb a b) in
        change (jsstring_eqb a b) with v
    end; cbv iota;
    destruct (toggle_label d); reflexivity.
Qed.

(** X21: the theme survives a reload: on a page that finds in localStorage
    the item a call of [setTheme] left there, [loadInitialTheme] completes,
    puts that theme on the body and keeps it stored; a page that finds no
    item, or an empty one, gets the light theme. *)
Theorem X21_theme_survives_reload (t : jsstring) (d d0 : ThemeDoc) :
  valid_token t = true ->
  theme_item d0 = theme_item (fst (ScriptTheme.setTheme t d)) ->
  (snd (ScriptTheme.loadInitialTheme d0) = Normal tt
   /\ contains (classList (fst (ScriptTheme.loadInitialTheme d0))) t = true
   /\ theme_item (fst (ScriptTheme.loadInitialTheme d0)) = Some t)
  /\ (forall e, theme_item e = None \/ theme_item e = Some [] ->
                ScriptTheme.loadInitialTheme e = ScriptTheme.setTheme light_theme e
                /\ contains (classList (fst (ScriptTheme.loadInitialTheme e))) light_theme
                   = true).
Proof.
  intros V E. split.
  - assert (S : theme_item d0 = Some t).
    { rewrite E. unfold ScriptTheme.setTheme, classList_add. cbv zeta.
      rewrite V. reflexivity. }
    assert (Sv : saved_theme d0 = t).
    { unfold saved_theme. rewrite S. destruct t; [discriminate V | reflexivity]. }
    unfold ScriptTheme.loadInitialTheme. rewrite Sv.
    unfold ScriptTheme.setTheme, classList_add. cbv zeta. rewrite V. simpl.
    split; [reflexivity|]. split; [|reflexivity].
    destruct (contains (classList_remove [light_theme; dark_theme] (classList d0)) t)
      eqn:C; [exact C|].
    apply contains_snoc.
  - intros e He.
    assert (Sv : saved_theme e = light_theme).
    { unfold saved_theme. destruct He as [-> | ->]; reflexivity. }
    unfold ScriptTheme.loadInitialTheme. rewrite Sv. split; [reflexivity|].
    rewrite setTheme_theme by theme_choice. simpl.
    apply contains_snoc.
Qed.

(** X22: [setTheme] of js/script1.js changes the document as [setTheme] of
    js/script.js does; with a theme toggle on the page the two agree, and
    without one js/script1.js raises after it has put the class on the body
    and stored the theme, where js/script.js completes. *)
Theorem X22_script1_setTheme_needs_the_toggle (t : jsstring) (d : ThemeDoc) :
  valid_token t = true ->
  fst (Script1Theme.setTheme t d) = fst (ScriptTheme.setTheme t d)
  /\ snd (ScriptTheme.setTheme t d) = Normal tt
  /\ snd (Script1Theme.setTheme t d)
     = match toggle_label d with Some _ => Normal tt | None => Throw end
  /\ theme_item (fst (Script1Theme.setTheme t d)) = Some t.
Proof.
  intros V. unfold Script1Theme.setTheme, ScriptTheme.setTheme, classList_add.
  cbv zeta. rewrite V. destruct (toggle_label d); repeat split.
Qed.

(** X23: a stored theme that is no valid class token (it holds ASCII
    whitespace) makes [loadInitialTheme] raise after both theme classes were
    removed: the body is left without a theme, the stored item is not
    replaced, and loading again fails in the same way. *)
Theorem X23_invalid_stored_theme (t : jsstring) (d : ThemeDoc) :
  valid_token t = false ->
  t <> [] ->
  theme_item d = Some t ->
  let d' := fst (ScriptTheme.loadInitialTheme d) in
  snd (ScriptTheme.loadInitialTheme d) = Throw
  /\ contains (classList d') light_theme = false
  /\ contains (classList d') dark_theme = false
  /\ theme_item d' = Some t
  /\ toggle_label d' = toggle_label d
  /\ ScriptTheme.loadInitialTheme d' = (d', Throw).
Proof.
  intros V Hne S. cbv zeta.
  assert (Sv : saved_theme d = t).
  { unfold saved_theme. rewrite S. destruct t; [congruence | reflexivity]. }
  unfold ScriptTheme.loadInitialTheme. rewrite Sv.
  unfold ScriptTheme.setTheme, classList_add. cbv zeta. rewrite V. simpl.
  split; [reflexivity|].
  split; [apply contains_remove; simpl; auto|].
  split; [apply contains_remove; simpl; auto|].
  split; [exact S|]. split; [reflexivity|].
  unfold saved_theme. simpl. rewrite S.
  destruct t as [|c t]; [congruence|]. simpl. rewrite V.
  rewrite remove_idempotent. reflexivity.
Qed.

(** X21 (witness): the dark theme, set on the light example document and
    found again by a page that starts with the light class. *)
Lemma X21_witness_dark_theme :
  valid_token dark_theme = true
  /\ contains (classList (fst (ScriptTheme.loadInitialTheme
                                 {| classList := [js "page"; light_theme];
                                    theme_item := Some dark_theme;
                                    toggle_label := Some (js "Dark Theme") |})))
       dark_theme = true.
Proof.
  split; [reflexivity|].
  exact (proj1 (proj2 (proj1 (X21_theme_survives_reload dark_theme MoreExamples.light_doc
                                {| classList := [js "page"; light_theme];
                                   theme_item := Some dark_theme;
                                   toggle_label := Some (js "Dark Theme") |}
                                eq_refl eq_refl)))).
Defined.

(** X22 (witness): the dark theme on a page without a toggle. *)
Lemma X22_witness_page_without_toggle :
  valid_token dark_theme = true
  /\ snd (Script1Theme.setTheme dark_theme
            {| classList := [light_theme]; theme_item := None; toggle_label := None |})
     = Throw.
Proof.
  split; [reflexivity|].
  exact (proj1 (proj2 (proj2 (X22_script1_setTheme_needs_the_toggle dark_theme
                                {| classList := [light_theme]; theme_item := None;
                                   toggle_label := None |} eq_refl)))).
Defined.

(** X23 (witness): a stored theme with a space in it. *)
Lemma X23_witness_theme_with_space :
  valid_token (js "dark theme") = false
  /\ js "dark theme" <> []
  /\ snd (ScriptTheme.loadInitialTheme
            {| classList := [light_theme]; theme_item := Some (js "dark theme");
               toggle_label := None |}) = Throw.
Proof.
  split; [reflexivity|]. split; [discriminate|].
  refine (proj1 (X23_invalid_stored_theme (js "dark theme")
                   {| classList := [light_theme]; theme_item := Some (js "dark theme");
                      toggle_label := None |} eq_refl _ eq_refl)).
  discriminate.
Defined.


(** [setTheme] of js/script1.js on a page with a theme toggle. *)
Lemma script1_setTheme_theme (t l : jsstring) (d : ThemeDoc) :
  t = light_theme \/ t = dark_theme ->
  toggle_label d = Some l ->
  Script1Theme.setTheme t d
  = ({| classList := classList_remove [light_theme; dark_theme] (classList d) ++ [t];
        theme_item := Some t;
        toggle_label := Some (button_text t) |}, Normal tt).
Proof.
  intros Ht Hl. unfold Script1Theme.setTheme, classList_add. cbv zeta.
  assert (V : valid_token t = true) by (destruct Ht as [-> | ->]; vm_compute; reflexivity).
  assert (I : In t [light_theme; dark_theme]) by (simpl; destruct Ht; auto).
  rewrite V, (contains_remove _ (classList d) t I), Hl. reflexivity.
Qed.

(** X28: on a page of js/scriptgemin.js a click on the theme toggle runs
    both listeners registered on it, each to completion, and the second
    undoes the first: a body with the light theme keeps it, any other body
    ends in the dark theme, the stored theme and the text of the toggle
    follow, the classes that are no theme are kept, and a document that
    [setTheme] left, at load or at an earlier click, is left as it was. *)
Theorem X28_gemin_click_runs_two_listeners (d : ThemeDoc) (l : jsstring) :
  toggle_label d = Some l ->
  let d' := ScriptGeminTheme.toggle_click d in
  let kept := if contains (classList d) light_theme then light_theme else dark_theme in
  snd (ScriptTheme.toggle_click d) = Normal tt
  /\ snd (Script1Theme.toggle_click (fst (ScriptTheme.toggle_click d))) = Normal tt
  /\ contains (classList d') light_theme = contains (classList d) light_theme
  /\ contains (classList d') dark_theme = negb (contains (classList d) light_theme)
  /\ theme_item d' = Some kept
  /\ toggle_label d' = Some (button_text kept)
  /\ classList_remove [light_theme; dark_theme] (classList d')
     = classList_remove [light_theme; dark_theme] (classList d)
  /\ (forall t d0, t = light_theme \/ t = dark_theme ->
        d = fst (ScriptTheme.setTheme t d0) -> d' = d).
Proof.
  intros Hl. cbv zeta.
  unfold ScriptGeminTheme.toggle_click, ScriptTheme.toggle_click,
    Script1Theme.toggle_click.
  set (R := classList_remove [light_theme; dark_theme] (classList d)).
  assert (NL : contains R light_theme = false) by (apply contains_remove; simpl; auto).
  assert (ND : contains R dark_theme = false) by (apply contains_remove; simpl; auto).
  assert (RR : forall t, In t [light_theme; dark_theme] ->
                 classList_remove [light_theme; dark_theme] (R ++ [t]) = R)
    by (intros t Ht; apply remove_snoc; exact Ht).
  assert (Second : forall t, t = light_theme \/ t = dark_theme ->
            let d1 := {| classList := R ++ [t]; theme_item := Some t;
                         toggle_label := Some (button_text t) |} in
            Script1Theme.setTheme (other_theme d1) d1
            = ({| classList := R ++ [if jsstring_eqb t light_theme
                                     then dark_theme else light_theme];
                  theme_item := Some (if jsstring_eqb t light_theme
                                      then dark_theme else light_theme);
                  toggle_label := Some (button_text
                                          (if jsstring_eqb t light_theme
                                           then dark_theme else light_theme)) |},
               Normal tt)).
  { intros t Ht d1.
    assert (O : other_theme d1
                = if jsstring_eqb t light_theme then dark_theme else light_theme).
    { unfold other_theme, d1. simpl. rewrite contains_app, NL. simpl.
      destruct Ht as [-> | ->]; vm_compute; reflexivity. }
    rewrite O.
    rewrite (script1_setTheme_theme _ (button_text t) d1)
      by (first [reflexivity | destruct (jsstring_eqb t light_theme); theme_choice]).
    unfold d1. simpl. rewrite RR by (simpl; destruct Ht; auto). reflexivity. }
  assert (Fixed : forall t d0, t = light_theme \/ t = dark_theme ->
            d = fst (ScriptTheme.setTheme t d0) ->
            contains (classList d) light_theme = jsstring_eqb t light_theme
            /\ d = {| classList := R ++ [t]; theme_item := Some t;
                      toggle_label := Some (button_text t) |}).
  { intros t d0 Ht E. rewrite (setTheme_theme t d0 Ht) in E. simpl in E.
    assert (L0 : toggle_label d0 <> None).
    { intros N. rewrite E in Hl. simpl in Hl. rewrite N in Hl. discriminate. }
    assert (Rd : R = classList_remove [light_theme; dark_theme] (classList d0)).
    { unfold R. rewrite E. simpl. apply remove_snoc. simpl. destruct Ht; auto. }
    split.
    - rewrite E. simpl. rewrite contains_app.
      rewrite (contains_remove _ (classList d0) light_theme) by (simpl; auto).
      destruct Ht as [-> | ->]; vm_compute; reflexivity.
    - rewrite Rd. rewrite E at 1.
      destruct (toggle_label d0); [reflexivity | congruence]. }
  destruct (other_theme_cases d) as [[C E]|[C E]]; rewrite E, C;
    rewrite (setTheme_theme _ d) by theme_choice; rewrite Hl; cbn [fst snd]; fold R;
    rewrite Second by theme_choice;
    match goal with
    | |- context [jsstring_eqb ?a ?b] =>
        let v := eval vm_compute in (jsstring_eqb a b) in
        change (jsstring_eqb a b) with v
    end; cbv iota; cbn [fst snd classList theme_item toggle_label];
    rewrite !contains_app, NL, ND;
    (split; [reflexivity|]); (split; [reflexivity|]);
    (split; [vm_compute; reflexivity|]); (split; [vm_compute; reflexivity|]);
    (split; [reflexivity|]); (split; [reflexivity|]);
    (split; [apply RR; simpl; auto|]);
    intros t d0 Ht Ed; destruct (Fixed t d0 Ht Ed) as [Ct Dd];
    rewrite C in Ct; rewrite Dd;
    destruct Ht as [-> | ->];
    first [reflexivity | vm_compute in Ct; discriminate Ct].
Qed.

(** X28 (witness): a page in the light theme is in the light theme after a
    click. *)
Lemma X28_witness_light_page :
  toggle_label MoreExamples.light_doc = Some (js "Dark Theme")
  /\ theme_item (ScriptGeminTheme.toggle_click MoreExamples.light_doc)
     = Some light_theme.
Proof.
  split; [reflexivity|].
  exact (proj1 (proj2 (proj2 (proj2 (proj2
           (X28_gemin_click_runs_two_listeners MoreExamples.light_doc
              (js "Dark Theme") eq_refl)))))).
Defined.

(** ** The request builders compared *)

Lemma dropWhile_no_match (p : codeunit -> bool) (s : jsstring) :
  existsb p s = false -> dropWhile p s = s.
Proof.
  destruct s as [|c s]; simpl; [reflexivity|].
  intros H. apply orb_false_iff in H as [H _]. rewrite H. reflexivity.
Qed.

Lemma existsb_rev (p : codeunit -> bool) (s : jsstring) :
  existsb p (rev s) = existsb p s.
Proof.
  apply eq_true_iff_eq. rewrite !existsb_exists.
  split; intros (x & Hx & Px); exists x; split; auto;
    [apply in_rev | apply in_rev in Hx]; assumption.
Qed.

Lemma trim_without_space (s : jsstring) : existsb is_space s = false -> trim s = s.
Proof.
  intros H. unfold trim. rewrite (dropWhile_no_match _ s H).
  rewrite dropWhile_no_match by (rewrite existsb_rev; exact H).
  apply rev_involutive.
Qed.

Lemma strip_dropWhile (s : jsstring) :
  strip_spaces (dropWhile is_space s) = strip_spaces s.
Proof.
  unfold strip_spaces. induction s as [|c s IH]; simpl; [reflexivity|].
  destruct (is_space c) eqn:E; simpl; [exact IH | rewrite E; reflexivity].
Qed.

Lemma strip_rev (s : jsstring) : strip_spaces (rev s) = rev (strip_spaces s).
Proof.
  unfold strip_spaces. induction s as [|c s IH]; simpl; [reflexivity|].
  rewrite filter_app, IH. simpl.
  destruct (negb (is_space c)); simpl; [reflexivity | apply app_nil_r].
Qed.

Lemma strip_trim (s : jsstring) : strip_spaces (trim s) = strip_spaces s.
Proof.
  unfold trim.
  rewrite strip_rev, strip_dropWhile, strip_rev, rev_involutive, strip_dropWhile.
  reflexivity.
Qed.

Section BuilderComparison.
Context {B : Builtins}.

(** X24: what js/script.js does when the document lacks an element of the
    form: without a target element the listener refuses with the
    missing-target message; with custom ports selected and no custom-ports
    input it refuses with the missing-ports message; and with a valid
    target, no port-mode select and no terms checkbox it builds a request
    for the mode top100 without asking for agreement, with the protocol tcp
    when no radio is checked. *)
Theorem X24_absent_form_elements (f : Script.Form) :
  (Script.targetInput f = None ->
   Script.buildRequest f = Script.Refused Script.msg_target_required)
  /\ (Script.validateTarget (Script.read_target f) = None ->
      Script.portModeEl f = Some (js "custom") ->
      Script.customPortsEl f = None ->
      Script.buildRequest f = Script.Refused Script.msg_ports_required)
  /\ (Script.validateTarget (Script.read_target f) = None ->
      Script.portModeEl f = None ->
      Script.termsCheckbox f = None ->
      Script.buildRequest f
      = Script.Payload
          (JObj [ (js "target", JStr (Script.read_target f));
                  (js "protocol",
                   JStr (match Script.protocolEl f with
                         | Some v => v
                         | None => js "tcp"
                         end));
                  (js "port_mode", JStr (js "top100"));
                  (js "ports", JStr []) ])).
Proof.
  split; [|split].
  - intros H. unfold Script.buildRequest, Script.read_target. rewrite H. reflexivity.
  - intros V M C. unfold Script.buildRequest, Script.read_ports, Script.read_port_mode.
    rewrite V, M, C. reflexivity.
  - intros V M T.
    unfold Script.buildRequest, Script.read_ports, Script.read_port_mode,
      Script.read_protocol.
    rewrite V, M, T. reflexivity.
Qed.

(** X25: js/script.js accepts every form js/script1.js accepts: for the
    same field values it builds a request with the same target, protocol
    and port mode; its [ports] is the trimmed custom list when the mode is
    custom and the empty string otherwise. *)
Theorem X25_script_accepts_what_script1_accepts (f1 : Script1.Form) (j1 : json) :
  Script1.buildRequest f1 = Script1.Payload j1 ->
  exists j,
    Script.buildRequest (as_script_form f1) = Script.Payload j
    /\ field (js "target") j = field (js "target") j1
    /\ field (js "protocol") j = field (js "protocol") j1
    /\ field (js "port_mode") j = field (js "port_mode") j1
    /\ field (js "ports") j
       = Some (JStr (if jsstring_eqb (Script1.port_mode f1) (js "custom")
                     then trim (Script1.custom_ports f1) else [])).
Proof.
  intros H. unfold Script1.buildRequest in H.
  destruct (Script1.isValid (Script1.check f1)) eqn:V; [|discriminate].
  destruct (Script1.protocol_checked f1) as [protocol|] eqn:P; [|discriminate].
  cbn [negb] in H. injection H as <-.
  unfold Script1.isValid, Script1.check, Script1.is_custom in V. simpl in V.
  destruct (Script1.validateTarget (Script1.target_ip f1)) eqn:VT; [discriminate|].
  destruct (accepted_target_clean _ (or_intror VT)) as (Hne & _ & Hs).
  assert (RT : Script.read_target (as_script_form f1) = Script1.target_ip f1).
  { unfold Script.read_target, as_script_form. simpl.
    destruct (Script1.target_ip f1) as [|c t] eqn:E; [congruence|].
    simpl. apply trim_without_space. exact Hs. }
  assert (VT' : Script.validateTarget (Script1.target_ip f1) = None).
  { apply accepts_None. apply accepts_None in VT.
    destruct (validators_accept_alike (Script1.target_ip f1)) as [E _]. congruence. }
  assert (RM : Script.read_port_mode (as_script_form f1) = Script1.port_mode f1)
    by reflexivity.
  assert (RP : Script.read_protocol (as_script_form f1) = protocol).
  { unfold Script.read_protocol, as_script_form. simpl. rewrite P. reflexivity. }
  assert (TC : Script.termsCheckbox (as_script_form f1) = Some (Script1.terms_agree f1))
    by reflexivity.
  unfold Script.buildRequest. cbv zeta. rewrite RT, VT', RM, RP, TC.
  unfold Script.read_ports. rewrite RM.
  change (Script.customPortsEl (as_script_form f1))
    with (Some (Script1.custom_ports f1)).
  unfold Script1.portsToScan, Script1.is_custom.
  destruct (jsstring_eqb (Script1.port_mode f1) (js "custom")) eqn:C.
  - destruct (Script1.validatePorts (Script1.custom_ports f1)) eqn:VP; [discriminate|].
    assert (VP' : Script.validatePorts (trim (Script1.custom_ports f1)) = None).
    { apply accepts_None. apply accepts_None in VP.
      rewrite script_validatePorts_grammar, strip_trim.
      rewrite script1_validatePorts_grammar in VP. exact VP. }
    rewrite VP'. destruct (Script1.terms_agree f1); [|discriminate].
    eexists. split; [reflexivity|]. repeat split.
  - destruct (Script1.terms_agree f1); [|discriminate].
    eexists. split; [reflexivity|]. repeat split.
Qed.

(** X26: [handleScanSubmission] of js/scriptgemin.js gives the submit
    control back exactly the label it had, for every outcome of the
    request: only its disabled flag is cleared. *)
Theorem X26_gemin_restores_the_label (f : ScriptGemin.Form) (net : FetchResult)
  (p : Page) (b : Button) (protocol : jsstring) :
  startButton p = Some b ->
  ScriptGemin.validateForm f = true ->
  ScriptGemin.protocol_checked f = Some protocol ->
  startButton (ScriptGemin.handleScanSubmission f net p)
  = Some {| disabled := false; label := label b;
            originalText := originalText b; loading := loading b |}.
Proof.
  intros Hb Hv Hp. open_gemin. rewrite Hv, Hp, Hb. page_cases; reflexivity.
Qed.

(** X27: js/script.js and js/script1.js navigate to the results view
    exactly when the request succeeded, without an alert, and show exactly
    one alert without navigating in every other case. *)
Theorem X27_navigate_exactly_on_success (d : json) (net : FetchResult) (p : Page)
  (b : Button) :
  startButton p = Some b ->
  (if succeeded net
   then navigations (Script.submitScan d net p) = navigations p ++ [js "results.html"]
        /\ alerts (Script.submitScan d net p) = alerts p
   else navigations (Script.submitScan d net p) = navigations p
        /\ exists msg, alerts (Script.submitScan d net p) = alerts p ++ [msg])
  /\ (if succeeded net
      then navigations (Script1.submitScan d net p) = navigations p ++ [js "results.html"]
           /\ alerts (Script1.submitScan d net p) = alerts p
      else navigations (Script1.submitScan d net p) = navigations p
           /\ exists msg, alerts (Script1.submitScan d net p) = alerts p ++ [msg]).
Proof.
  intros Hb. unfold succeeded. split.
  - open_script. rewrite Hb.
    destruct net as [|status [body|]]; simpl; try (split; eauto).
    destruct (response_ok status); simpl; [split; reflexivity|].
    page_cases; split; eauto.
  - open_script1. rewrite Hb.
    destruct net as [|status [body|]]; simpl; try (split; eauto).
    destruct (response_ok status); simpl; [split; reflexivity|].
    page_cases; split; eauto.
Qed.

End BuilderComparison.

(** X25 (witness): the example form of js/script1.js with custom ports. *)
Lemma X25_witness_custom_form :
  Script1.buildRequest (B:=Examples.B0) Examples.script1_custom_form
  = Script1.Payload Examples.script_payload
  /\ exists j, Script.buildRequest (B:=Examples.B0)
                 (as_script_form Examples.script1_custom_form) = Script.Payload j.
Proof.
  assert (H : Script1.buildRequest (B:=Examples.B0) Examples.script1_custom_form
              = Script1.Payload Examples.script_payload) by (vm_compute; reflexivity).
  split; [exact H|].
  destruct (X25_script_accepts_what_script1_accepts Examples.script1_custom_form
              Examples.script_payload H) as (j & Hj & _).
  exists j. exact Hj.
Defined.

(** X26 (witness): the example form, a button labelled Go and a request
    that fails in transport. *)
Lemma X26_witness_go_button :
  startButton (B:=Examples.B0) (fresh_page (js "Go"))
  = Some {| disabled := false; label := js "Go"; originalText := None; loading := false |}
  /\ startButton (B:=Examples.B0) (ScriptGemin.handleScanSubmission Examples.gemin_form FetchRejected
                    (fresh_page (js "Go")))
     = Some {| disabled := false; label := js "Go"; originalText := None;
               loading := false |}.
Proof.
  split; [reflexivity|].
  exact (X26_gemin_restores_the_label (B:=Examples.B0) Examples.gemin_form FetchRejected
           (fresh_page (js "Go"))
           {| disabled := false; label := js "Go"; originalText := None; loading := false |}
           (js "tcp") eq_refl eq_refl eq_refl).
Defined.

(** X27 (witness): status 200 with the example result. *)
Lemma X27_witness_success :
  startButton (B:=Examples.B0) (fresh_page (js "Start Scan"))
  = Some {| disabled := false; label := js "Start Scan";
            originalText := None; loading := false |}
  /\ navigations (B:=Examples.B0) (Script.submitScan Examples.payload
                    (FetchResponse 200 (Some Examples.result_body))
                    (fresh_page (js "Start Scan")))
     = [] ++ [js "results.html"].
Proof.
  split; [reflexivity|].
  exact (proj1 (proj1 (X27_navigate_exactly_on_success (B:=Examples.B0)
                         Examples.payload
                         (FetchResponse 200 (Some Examples.result_body))
                         (fresh_page (js "Start Scan"))
                         {| disabled := false; label := js "Start Scan";
                            originalText := None; loading := false |} eq_refl))).
Defined.

